(** * UIU University Management System: record store and aggregation

    A shallow embedding of [uiu_ums.c]: the flat fixed-record binary store
    ([file_count_records], [file_find_first], [file_read_at],
    [file_write_at], [file_append]), the key predicates, the add and enroll
    operations, the grade table, the transcript and the term leaderboard,
    and the password obfuscation; then the other operations of the menus
    (faculty, editing a student, assigning an instructor, grading, the
    listings and the roster), the users and [login], and the three menu
    loops.

    Conventions of the embedding.
    - A byte is [Byte.byte]; a [char] array is a [list byte] of the array's
      length; a C string is read from such a list up to its first NUL.
    - The file system is a finite map from path to file; a file that exists
      may refuse to be opened ([f_locked]).  Once a stream is open, reads
      and writes of whole records succeed; the size of a file fits [long].
    - [long] and [int] are [Z] with the wrap-around written out where the
      source multiplies or narrows.
    - [float] is IEEE binary32, through [SpecFloat] at precision 24.
    - Standard input is the list of bytes still to be read.
    - An array that the program leaves uninitialised holds [uninit n], any
      bytes; a struct in memory is the list of its bytes, and a store into
      a field replaces the bytes of the field ([store_at]).
    - What the program prints, prompts and menu texts apart, is a list of
      [line]s.  A string that the roster prints, and the user name that a
      search compares, is read from the start of its field to the first
      NUL of the record, past the end of the field when the field is
      full.
    - A menu loop is run for a bounded number of turns, and tells whether
      the loop was left. *)

From Stdlib Require Import ZArith Lia List Bool Strings.Byte String Ascii.
From Stdlib Require Import Floats.SpecFloat.
From stdpp Require Import gmap strings list sorting.

Abbreviation byte := Byte.byte.

Global Instance byte_eq_dec : EqDecision byte := Byte.byte_eq_dec.

(** ** C runtime: bytes, strings, machine integers *)

Definition NUL : byte := x00.
Definition NEWLINE : byte := x0a.

Definition byte_val (c : byte) : Z := Z.of_N (Byte.to_N c).

(** Two's complement narrowing to [w] bits. *)
Definition wrap_signed (w : Z) (z : Z) : Z :=
  ((z + 2 ^ (w - 1)) `mod` 2 ^ w - 2 ^ (w - 1))%Z.

Definition LONG_MIN : Z := (- 2 ^ 63)%Z.
Definition LONG_MAX : Z := (2 ^ 63 - 1)%Z.
Definition INT_MAX : Z := (2 ^ 31 - 1)%Z.

Definition to_long : Z → Z := wrap_signed 64.
Definition to_int : Z → Z := wrap_signed 32.

(** [index * recSize] with [index : long] and [recSize : size_t]: the
    product is taken modulo 2^64 and handed to [fseek] as a [long]. *)
Definition long_times_size (index : Z) (recSize : nat) : Z :=
  to_long (index * Z.of_nat recSize).

(** [strlen]: the number of bytes before the first NUL.  The end of the
    list stands for the terminator of an array read to its capacity. *)
Fixpoint strlen (s : list byte) : nat :=
  match s with
  | [] => 0
  | c :: s' => if Byte.eqb c NUL then 0 else S (strlen s')
  end.

Definition c_str (s : list byte) : list byte := take (strlen s) s.

(** [strcmp]: the difference of the first pair of bytes that differ, as
    unsigned chars; 0 when both strings end together. *)
Fixpoint strcmp (a b : list byte) : Z :=
  match a with
  | [] => (0 - byte_val (hd NUL b))%Z
  | c :: a' =>
      let d := hd NUL b in
      if Byte.eqb c d
      then (if Byte.eqb c NUL then 0%Z else strcmp a' (tl b))
      else (byte_val c - byte_val d)%Z
  end.

(** [strncpy(dst, src, n)]: the string of [src], cut at [n] bytes and
    padded with NUL up to [n]. *)
Definition strncpy (n : nat) (src : list byte) : list byte :=
  take n (c_str src ++ replicate n NUL).

(** [strcpy(dst, lit)] into an array of [n] bytes that held [dst]. *)
Definition strcpy (dst : list byte) (lit : list byte) : list byte :=
  c_str lit ++ [NUL] ++ drop (S (strlen lit)) dst.

(** A string literal as the bytes of its characters. *)
Definition lit (s : string) : list byte := list_byte_of_string s.

(** ** The file system *)

Record file := File { f_locked : bool; f_data : list byte }.

Global Instance file_eq_dec : EqDecision file.
Proof. solve_decision. Defined.

(** [fopen(path, "rb")] and [fopen(path, "rb+")]: the file must exist and
    open; the stream starts at offset 0. *)
Definition fopen_rb (fs : gmap string file) (path : string) : option (list byte) :=
  match fs !! path with
  | Some f => if f_locked f then None else Some (f_data f)
  | None => None
  end.

(** [fopen(path, "ab")]: creates the file when it is absent (creating is
    taken to succeed); every write goes to the end. *)
Definition fopen_ab (fs : gmap string file) (path : string) : option (list byte) :=
  match fs !! path with
  | Some f => if f_locked f then None else Some (f_data f)
  | None => Some []
  end.

(** [fread(buf, recSize, 1, fp) == 1]: one whole record or nothing. *)
Definition fread (recSize : nat) (s : list byte) : option (list byte * list byte) :=
  if (recSize =? 0)%nat || (length s <? recSize)%nat then None
  else Some (take recSize s, drop recSize s).

(** The buffers that successive [fread] calls deliver until one fails:
    what every [while (fread(...) == 1)] loop of the source iterates on. *)
Fixpoint fread_seq (fuel recSize : nat) (s : list byte) : list (list byte) :=
  match fuel with
  | O => []
  | S fuel' =>
      match fread recSize s with
      | Some (buf, rest) => buf :: fread_seq fuel' recSize rest
      | None => []
      end
  end.

Definition records (recSize : nat) (s : list byte) : list (list byte) :=
  fread_seq (length s) recSize s.

(** Writing [buf] at byte offset [off] of a stream opened "rb+": a seek
    past the end leaves a gap that reads as zero bytes. *)
Definition pwrite (data : list byte) (off : nat) (buf : list byte) : list byte :=
  take off data ++ replicate (off - length data) NUL ++ buf
    ++ drop (off + length buf) data.

(** ** The flat record store *)

Definition file_count_records (fs : gmap string file) (path : string)
    (recSize : nat) : Z :=
  match fopen_rb fs path with
  | None => 0%Z
  | Some data =>
      let bytes := Z.of_nat (length data) in
      if (bytes <? 0)%Z then 0%Z else (bytes ÷ Z.of_nat recSize)%Z
  end.

Fixpoint find_loop (pred : list byte → bool) (rs : list (list byte)) (idx : Z)
    : Z * option (list byte) :=
  match rs with
  | [] => ((-1)%Z, None)
  | buf :: rs' =>
      if pred buf then (idx, Some buf) else find_loop pred rs' (idx + 1)%Z
  end.

(** The result is the returned index and the record copied to [out]. *)
Definition file_find_first {K : Type} (fs : gmap string file) (path : string)
    (recSize : nat) (pred : list byte → K → bool) (key : K)
    : Z * option (list byte) :=
  match fopen_rb fs path with
  | None => ((-1)%Z, None)
  | Some data => find_loop (λ buf, pred buf key) (records recSize data) 0%Z
  end.

Definition file_read_at (fs : gmap string file) (path : string)
    (recSize : nat) (index : Z) : Z * option (list byte) :=
  match fopen_rb fs path with
  | None => (0%Z, None)
  | Some data =>
      let off := long_times_size index recSize in
      if (off <? 0)%Z then (0%Z, None)
      else
        match fread recSize (drop (Z.to_nat off) data) with
        | Some (buf, _) => (1%Z, Some buf)
        | None => (0%Z, None)
        end
  end.

Definition file_write_at (fs : gmap string file) (path : string)
    (recSize : nat) (index : Z) (rec : list byte) : Z * gmap string file :=
  match fopen_rb fs path with
  | None => (0%Z, fs)
  | Some data =>
      let off := long_times_size index recSize in
      if (off <? 0)%Z then (0%Z, fs)
      else if (recSize =? 0)%nat then (0%Z, fs)
      else (1%Z, <[path := File false (pwrite data (Z.to_nat off) (take recSize rec))]> fs)
  end.

Definition file_append (fs : gmap string file) (path : string)
    (recSize : nat) (rec : list byte) : Z * gmap string file :=
  match fopen_ab fs path with
  | None => (0%Z, fs)
  | Some data =>
      if (recSize =? 0)%nat then (0%Z, <[path := File false data]> fs)
      else (1%Z, <[path := File false (data ++ take recSize rec)]> fs)
  end.


(** ** binary32 arithmetic *)

Module F32.
Definition prec : Z := 24%Z.
Definition emax : Z := 128%Z.

Definition add : spec_float → spec_float → spec_float := SFadd prec emax.
Definition mul : spec_float → spec_float → spec_float := SFmul prec emax.
Definition div : spec_float → spec_float → spec_float := SFdiv prec emax.
Definition ltb : spec_float → spec_float → bool := SFltb.
Definition leb : spec_float → spec_float → bool := SFleb.

Definition zero : spec_float := S754_zero false.
Definition of_Z (z : Z) : spec_float := binary_normalize prec emax z 0 false.

(** The literal [n/d] rounded to nearest, as the compiler rounds
    [3.70f]: [decimal 370 100]. *)
Definition decimal (n d : Z) : spec_float := div (of_Z n) (of_Z d).

Definition is_nan (x : spec_float) : bool :=
  match x with S754_nan => true | _ => false end.

(** The value held by a 32-bit pattern. *)
Definition of_bits (b : Z) : spec_float :=
  let s := Z.testbit b 31 in
  let e := ((b / 2 ^ 23) `mod` 2 ^ 8)%Z in
  let m := (b `mod` 2 ^ 23)%Z in
  if (e =? 0)%Z then
    match m with Zpos p => S754_finite s p (-149) | _ => S754_zero s end
  else if (e =? 255)%Z then
    (if (m =? 0)%Z then S754_infinity s else S754_nan)
  else
    match (m + 2 ^ 23)%Z with
    | Zpos p => S754_finite s p (e - 150)
    | _ => S754_nan
    end.

(** The 32-bit pattern of a value (the quiet NaN for a NaN). *)
Definition to_bits (x : spec_float) : Z :=
  let sign (s : bool) := if s then (2 ^ 31)%Z else 0%Z in
  match x with
  | S754_zero s => sign s
  | S754_infinity s => (sign s + 255 * 2 ^ 23)%Z
  | S754_nan => (255 * 2 ^ 23 + 2 ^ 22)%Z
  | S754_finite s m e =>
      if (Zpos m <? 2 ^ 23)%Z then (sign s + Zpos m)%Z
      else (sign s + (e + 150) * 2 ^ 23 + (Zpos m - 2 ^ 23))%Z
  end.

(** The value in hundredths, rounded to nearest (ties to even): the
    digits that [%.2f] prints for a finite value. *)
Definition centi (x : spec_float) : option Z :=
  let round (num den : Z) : Z :=
    let q := (num / den)%Z in
    let r := (num `mod` den)%Z in
    match (2 * r ?= den)%Z with
    | Lt => q
    | Gt => (q + 1)%Z
    | Eq => if Z.even q then q else (q + 1)%Z
    end in
  match x with
  | S754_zero _ => Some 0%Z
  | S754_finite s m e =>
      let a := if (0 <=? e)%Z then round (Zpos m * 2 ^ e * 100)%Z 1%Z
               else round (Zpos m * 100)%Z (2 ^ (- e))%Z in
      Some (if s then (- a)%Z else a)
  | _ => None
  end.
End F32.

(** ** Integers and floats in memory (little-endian, 4 bytes) *)

Definition byte_of_Z (z : Z) : byte := default NUL (Byte.of_N (Z.to_N z)).

Fixpoint put_le (n : nat) (z : Z) : list byte :=
  match n with
  | O => []
  | S n' => byte_of_Z (z `mod` 256) :: put_le n' (z / 256)
  end.

Definition get_le (bs : list byte) : Z :=
  foldr (λ c acc, (byte_val c + 256 * acc)%Z) 0%Z bs.

Definition slice (off len : nat) (buf : list byte) : list byte :=
  take len (drop off buf).

(** ** Configuration *)

Definition MAX_NAME : nat := 64.
Definition MAX_DEPT : nat := 32.
Definition MAX_EMAIL : nat := 64.
Definition MAX_ID : nat := 16.
Definition MAX_CODE : nat := 16.
Definition MAX_TITLE : nat := 64.
Definition MAX_TERM : nat := 16.
Definition MAX_USER : nat := 32.
Definition MAX_PASS : nat := 32.

Definition FILE_STUD : string := "students.dat".
Definition FILE_FAC : string := "faculty.dat".
Definition FILE_COURSE : string := "courses.dat".
Definition FILE_ENR : string := "enrollments.dat".
Definition FILE_USER : string := "users.dat".

(** ** Record types: a struct, its image in memory, and the view of a raw
    buffer through a pointer to the struct *)

Module Student.
Record t := Make
  { id : list byte; name : list byte; dept : list byte;
    batch : Z; email : list byte }.
Definition size : nat := 180.
Definition zero : t :=
  Make (replicate MAX_ID NUL) (replicate MAX_NAME NUL)
       (replicate MAX_DEPT NUL) 0 (replicate MAX_EMAIL NUL).
Definition image (s : t) : list byte :=
  id s ++ name s ++ dept s ++ put_le 4 (batch s) ++ email s.
Definition view (buf : list byte) : t :=
  Make (slice 0 MAX_ID buf) (slice 16 MAX_NAME buf) (slice 80 MAX_DEPT buf)
       (to_int (get_le (slice 112 4 buf))) (slice 116 MAX_EMAIL buf).
End Student.

Module Course.
Record t := Make
  { code : list byte; title : list byte; credit : spec_float;
    dept : list byte; instructorId : list byte }.
Definition size : nat := 132.
Definition zero : t :=
  Make (replicate MAX_CODE NUL) (replicate MAX_TITLE NUL) F32.zero
       (replicate MAX_DEPT NUL) (replicate MAX_ID NUL).
Definition image (c : t) : list byte :=
  code c ++ title c ++ put_le 4 (F32.to_bits (credit c)) ++ dept c
    ++ instructorId c.
Definition view (buf : list byte) : t :=
  Make (slice 0 MAX_CODE buf) (slice 16 MAX_TITLE buf)
       (F32.of_bits (get_le (slice 80 4 buf)))
       (slice 84 MAX_DEPT buf) (slice 116 MAX_ID buf).
End Course.

Module Enrollment.
Record t := Make
  { studentId : list byte; courseCode : list byte; term : list byte;
    grade : list byte }.
Definition size : nat := 51.
Definition zero : t :=
  Make (replicate MAX_ID NUL) (replicate MAX_CODE NUL)
       (replicate MAX_TERM NUL) (replicate 3 NUL).
Definition image (e : t) : list byte :=
  studentId e ++ courseCode e ++ term e ++ grade e.
Definition view (buf : list byte) : t :=
  Make (slice 0 MAX_ID buf) (slice 16 MAX_CODE buf) (slice 32 MAX_TERM buf)
       (slice 48 3 buf).
End Enrollment.

Module EnrKey.
Record t := Make { sid : list byte; code : list byte; term : list byte }.
End EnrKey.

Module Acc.
Record t := Make { sid : list byte; pts : spec_float; cred : spec_float }.
End Acc.

(** ** Utilities *)

Definition SALT : list byte := [x55; x2a; x11; xc3; x7e; x90; x04; xd1].

Definition xor_byte (a b : byte) : byte :=
  default NUL (Byte.of_N (N.lxor (Byte.to_N a) (Byte.to_N b))).

(** [out] after the loop: byte [i] is [p ^ SALT[i % 8]], with [p] the
    [i]-th character of [plain] while [i < (int)n], and 0 from there on. *)
Definition obfuscate (plain : list byte) : list byte :=
  let n := strlen plain in
  map (λ i : nat,
         let p := if (Z.of_nat i <? to_int (Z.of_nat n))%Z
                  then nth i plain NUL else NUL in
         xor_byte p (nth (i `mod` 8) SALT NUL))
      (seq 0 MAX_PASS).

(** [memcmp(a, b, n) == 0]. *)
Definition memcmp_eq (a b : list byte) (n : nat) : bool :=
  bool_decide (take n a = take n b).

Definition verify_pass (obf : list byte) (try_pass : list byte) : bool :=
  let tmp := obfuscate try_pass in
  memcmp_eq obf tmp MAX_PASS.

(** The characters [fgets] stores: at most [n], the newline included and
    last. *)
Fixpoint fgets_chars (n : nat) (inp : list byte) : list byte * list byte :=
  match n with
  | O => ([], inp)
  | S n' =>
      match inp with
      | [] => ([], [])
      | c :: rest =>
          if Byte.eqb c NEWLINE then ([c], rest)
          else let '(l, r) := fgets_chars n' rest in (c :: l, r)
      end
  end.

(** [fgets(buf, cap, stdin)]: [None] for the null pointer returned at end
    of input; otherwise the buffer with the characters and a terminator
    stored at its start. *)
Definition fgets (buf : list byte) (cap : nat) (inp : list byte)
    : option (list byte) * list byte :=
  match inp with
  | [] => (None, [])
  | _ :: _ =>
      let '(l, r) := fgets_chars (cap - 1) inp in
      (Some (l ++ [NUL] ++ drop (S (length l)) buf), r)
  end.

Definition trim_newline (s : list byte) : list byte :=
  let n := strlen s in
  if negb (n =? 0)%nat && bool_decide (s !! (n - 1)%nat = Some NEWLINE)
  then <[(n - 1)%nat := NUL]> s
  else s.

(** [read_line(prompt, buf, cap)]: the buffer afterwards and the input
    left. *)
Definition read_line (buf : list byte) (cap : nat) (inp : list byte)
    : list byte * list byte :=
  match fgets buf cap inp with
  | (Some b, r) => (trim_newline b, r)
  | (None, r) => (<[0%nat := NUL]> buf, r)
  end.

(** ** Predicates *)

Definition pred_student_by_id (rec : list byte) (key : list byte) : bool :=
  let s := Student.view rec in
  (strcmp (Student.id s) key =? 0)%Z.

Definition pred_course_by_code (rec : list byte) (key : list byte) : bool :=
  let s := Course.view rec in
  (strcmp (Course.code s) key =? 0)%Z.

Definition pred_enr_by_key (rec : list byte) (k : EnrKey.t) : bool :=
  let e := Enrollment.view rec in
  (strcmp (Enrollment.studentId e) (EnrKey.sid k) =? 0)%Z
  && (strcmp (Enrollment.courseCode e) (EnrKey.code k) =? 0)%Z
  && (strcmp (Enrollment.term e) (EnrKey.term k) =? 0)%Z.

(** ** Domain logic *)

Definition grade_to_points (g : list byte) : spec_float :=
  if (strcmp g (lit "A") =? 0)%Z then F32.decimal 400 100
  else if (strcmp g (lit "A-") =? 0)%Z then F32.decimal 370 100
  else if (strcmp g (lit "B+") =? 0)%Z then F32.decimal 330 100
  else if (strcmp g (lit "B") =? 0)%Z then F32.decimal 300 100
  else if (strcmp g (lit "B-") =? 0)%Z then F32.decimal 270 100
  else if (strcmp g (lit "C+") =? 0)%Z then F32.decimal 230 100
  else if (strcmp g (lit "C") =? 0)%Z then F32.decimal 200 100
  else if (strcmp g (lit "C-") =? 0)%Z then F32.decimal 170 100
  else if (strcmp g (lit "D") =? 0)%Z then F32.decimal 100 100
  else if (strcmp g (lit "F") =? 0)%Z then F32.decimal 0 100
  else F32.decimal (-10) 10.

(** ** CRUD *)

(** The line an operation prints about its outcome. *)
Inductive message :=
  | StudentExists | StudentAdded | StudentWriteError
  | CourseExists | CourseAdded | CourseWriteError
  | StudentNotFound | CourseNotFound | AlreadyEnrolled
  | EnrollmentAdded | EnrollmentWriteError.

Section Crud.
(** [atoi] and [(float)atof] of the C library, on the line read. *)
Variable atoi : list byte → Z.
Variable atof : list byte → spec_float.

Definition read_int (inp : list byte) : Z * list byte :=
  let '(line, inp) := read_line (replicate 64 NUL) 64 inp in
  (atoi line, inp).

Definition read_float (inp : list byte) : spec_float * list byte :=
  let '(line, inp) := read_line (replicate 64 NUL) 64 inp in
  (atof line, inp).

Definition add_student (inp : list byte) (fs : gmap string file)
    : message * list byte * gmap string file :=
  let s := Student.zero in
  let '(id, inp) := read_line (Student.id s) MAX_ID inp in
  if (fst (file_find_first fs FILE_STUD Student.size pred_student_by_id id) >=? 0)%Z
  then (StudentExists, inp, fs)
  else
    let '(name, inp) := read_line (Student.name s) MAX_NAME inp in
    let '(dept, inp) := read_line (Student.dept s) MAX_DEPT inp in
    let '(batch, inp) := read_int inp in
    let '(email, inp) := read_line (Student.email s) MAX_EMAIL inp in
    let s := Student.Make id name dept batch email in
    let '(ok, fs) := file_append fs FILE_STUD Student.size (Student.image s) in
    if (ok =? 0)%Z then (StudentWriteError, inp, fs)
    else (StudentAdded, inp, fs).

Definition add_course (inp : list byte) (fs : gmap string file)
    : message * list byte * gmap string file :=
  let c := Course.zero in
  let '(code, inp) := read_line (Course.code c) MAX_CODE inp in
  if (fst (file_find_first fs FILE_COURSE Course.size pred_course_by_code code) >=? 0)%Z
  then (CourseExists, inp, fs)
  else
    let '(title, inp) := read_line (Course.title c) MAX_TITLE inp in
    let '(credit, inp) := read_float inp in
    let '(dept, inp) := read_line (Course.dept c) MAX_DEPT inp in
    let '(instructorId, inp) := read_line (Course.instructorId c) MAX_ID inp in
    let c := Course.Make code title credit dept instructorId in
    let '(ok, fs) := file_append fs FILE_COURSE Course.size (Course.image c) in
    if (ok =? 0)%Z then (CourseWriteError, inp, fs)
    else (CourseAdded, inp, fs).

(** A run of add operations from one input stream. *)
Inductive add_op := AddStudent | AddCourse.

Definition run_add (op : add_op) (inp : list byte) (fs : gmap string file)
    : message * list byte * gmap string file :=
  match op with
  | AddStudent => add_student inp fs
  | AddCourse => add_course inp fs
  end.

Fixpoint run_adds (ops : list add_op) (inp : list byte)
    (fs : gmap string file) : list byte * gmap string file :=
  match ops with
  | [] => (inp, fs)
  | op :: ops' =>
      let '(_, inp, fs) := run_add op inp fs in
      run_adds ops' inp fs
  end.
End Crud.

Definition enroll_student (inp : list byte) (fs : gmap string file)
    : message * list byte * gmap string file :=
  let e := Enrollment.zero in
  let '(studentId, inp) := read_line (Enrollment.studentId e) MAX_ID inp in
  if (fst (file_find_first fs FILE_STUD Student.size pred_student_by_id studentId) <? 0)%Z
  then (StudentNotFound, inp, fs)
  else
    let '(courseCode, inp) := read_line (Enrollment.courseCode e) MAX_CODE inp in
    if (fst (file_find_first fs FILE_COURSE Course.size pred_course_by_code courseCode) <? 0)%Z
    then (CourseNotFound, inp, fs)
    else
      let '(term, inp) := read_line (Enrollment.term e) MAX_TERM inp in
      let grade := strcpy (Enrollment.grade e) (lit "NA") in
      let e := Enrollment.Make studentId courseCode term grade in
      let key := EnrKey.Make (strncpy MAX_ID studentId)
                   (strncpy MAX_CODE courseCode) (strncpy MAX_TERM term) in
      if (fst (file_find_first fs FILE_ENR Enrollment.size pred_enr_by_key key) >=? 0)%Z
      then (AlreadyEnrolled, inp, fs)
      else
        let '(ok, fs) := file_append fs FILE_ENR Enrollment.size (Enrollment.image e) in
        if (ok =? 0)%Z then (EnrollmentWriteError, inp, fs)
        else (EnrollmentAdded, inp, fs).

(** ** Transcript *)

(** A printed course line; [tr_gp] is the grade point when one is shown. *)
Record trow := TRow
  { tr_code : list byte; tr_term : list byte; tr_credit : spec_float;
    tr_grade : list byte; tr_gp : option spec_float }.

(** The last line: the CGPA with the total credits, or the notice. *)
Inductive cgpa_line :=
  | CGPA (gpa : spec_float) (totalCred : spec_float)
  | NoGradedCredits.

Inductive transcript_out :=
  | TNoEnrollments
  | TReport (rows : list trow) (final : cgpa_line).

(** The locals of [transcript_for_student] across the loop. *)
Record tstate := TState
  { ts_c : list byte; ts_totalCred : spec_float; ts_totalPts : spec_float;
    ts_rows : list trow }.

Definition transcript_body (fs : gmap string file) (sid : list byte)
    (st : tstate) (buf : list byte) : tstate :=
  let e := Enrollment.view buf in
  if (strcmp (Enrollment.studentId e) sid =? 0)%Z then
    let '(idx, out) :=
      file_find_first fs FILE_COURSE Course.size pred_course_by_code
        (Enrollment.courseCode e) in
    let cbuf := from_option (λ b, b) (ts_c st) out in
    if (idx >=? 0)%Z then
      let c := Course.view cbuf in
      let pts := grade_to_points (Enrollment.grade e) in
      let row := TRow (c_str (Course.code c)) (c_str (Enrollment.term e))
                   (Course.credit c) (c_str (Enrollment.grade e)) in
      if F32.leb F32.zero pts then
        TState cbuf
          (F32.add (ts_totalCred st) (Course.credit c))
          (F32.add (ts_totalPts st) (F32.mul pts (Course.credit c)))
          (ts_rows st ++ [row (Some pts)])
      else
        TState cbuf (ts_totalCred st) (ts_totalPts st) (ts_rows st ++ [row None])
    else TState cbuf (ts_totalCred st) (ts_totalPts st) (ts_rows st)
  else st.

Definition transcript_for_student (fs : gmap string file) (sid : list byte)
    : transcript_out :=
  match fopen_rb fs FILE_ENR with
  | None => TNoEnrollments
  | Some data =>
      let st0 := TState (replicate Course.size NUL) F32.zero F32.zero [] in
      let st := foldl (transcript_body fs sid) st0 (records Enrollment.size data) in
      TReport (ts_rows st)
        (if F32.ltb F32.zero (ts_totalCred st)
         then CGPA (F32.div (ts_totalPts st) (ts_totalCred st)) (ts_totalCred st)
         else NoGradedCredits)
  end.

(** ** Term leaderboard *)

Definition ACCS_LEN : nat := 2048.

Record lrow := LRow
  { lr_rank : Z; lr_id : list byte; lr_name : option (list byte);
    lr_gpa : spec_float; lr_cred : spec_float }.

(** [LRanOff]: the loop stored past the end of [accs], which C leaves
    undefined. *)
Inductive leaderboard_out :=
  | LNoEnrollments
  | LRanOff
  | LRanking (rows : list lrow).

(** The search loop over [accs[0..n)]: the first index whose [sid]
    compares equal, or -1. *)
Fixpoint acc_search (accs : list Acc.t) (sid : list byte) (i : Z) : Z :=
  match accs with
  | [] => (-1)%Z
  | a :: accs' =>
      if (strcmp (Acc.sid a) sid =? 0)%Z then i
      else acc_search accs' sid (i + 1)%Z
  end.

Definition acc_bump (gp credit : spec_float) (a : Acc.t) : Acc.t :=
  Acc.Make (Acc.sid a) (F32.add (Acc.pts a) (F32.mul gp credit))
    (F32.add (Acc.cred a) credit).

(** The locals across the scan: the course buffer and [accs[0..n)]. *)
Record lstate := LState { ls_c : list byte; ls_accs : list Acc.t }.

Definition leaderboard_body (fs : gmap string file) (term : list byte)
    (st : option lstate) (buf : list byte) : option lstate :=
  match st with
  | None => None
  | Some st =>
      let e := Enrollment.view buf in
      if (strcmp (Enrollment.term e) term =? 0)%Z then
        let '(idx, out) :=
          file_find_first fs FILE_COURSE Course.size pred_course_by_code
            (Enrollment.courseCode e) in
        let cbuf := from_option (λ b, b) (ls_c st) out in
        if (idx >=? 0)%Z then
          let c := Course.view cbuf in
          let gp := grade_to_points (Enrollment.grade e) in
          if F32.ltb gp F32.zero then Some (LState cbuf (ls_accs st))
          else
            let accs := ls_accs st in
            let n := length accs in
            let found := acc_search accs (Enrollment.studentId e) 0 in
            if (found <? 0)%Z then
              if (n <? ACCS_LEN)%nat then
                let fresh := Acc.Make (strncpy MAX_ID (Enrollment.studentId e))
                               F32.zero F32.zero in
                Some (LState cbuf
                        (alter (acc_bump gp (Course.credit c)) n (accs ++ [fresh])))
              else None
            else
              Some (LState cbuf
                      (alter (acc_bump gp (Course.credit c)) (Z.to_nat found) accs))
        else Some (LState cbuf (ls_accs st))
      else Some st
  end.

Definition gpa_of (a : Acc.t) : spec_float :=
  if F32.ltb F32.zero (Acc.cred a) then F32.div (Acc.pts a) (Acc.cred a)
  else F32.zero.

(** The inner loop of the bubble sort: [a] is [accs[j]] and [l] the
    elements after it. *)
Fixpoint bubble (a : Acc.t) (l : list Acc.t) : list Acc.t :=
  match l with
  | [] => [a]
  | b :: l' =>
      let g1 := gpa_of a in
      let g2 := gpa_of b in
      if F32.ltb g1 g2 then b :: bubble a l' else a :: bubble b l'
  end.

Definition bubble_pass (accs : list Acc.t) : list Acc.t :=
  match accs with
  | [] => []
  | a :: l => bubble a l
  end.

Definition bubble_sort (accs : list Acc.t) : list Acc.t :=
  Nat.iter (length accs) bubble_pass accs.

Definition leaderboard_row (fs : gmap string file) (i : nat) (a : Acc.t)
    : lrow :=
  let gpa := gpa_of a in
  let '(idx, out) :=
    file_find_first fs FILE_STUD Student.size pred_student_by_id (Acc.sid a) in
  if (idx >=? 0)%Z then
    let s := Student.view (from_option (λ b, b) (replicate Student.size NUL) out) in
    LRow (Z.of_nat i + 1) (c_str (Student.id s)) (Some (c_str (Student.name s)))
      gpa (Acc.cred a)
  else LRow (Z.of_nat i + 1) (c_str (Acc.sid a)) None gpa (Acc.cred a).

Definition gpa_leaderboard (fs : gmap string file) (term : list byte)
    : leaderboard_out :=
  match fopen_rb fs FILE_ENR with
  | None => LNoEnrollments
  | Some data =>
      let st0 := Some (LState (replicate Course.size NUL) []) in
      match foldl (leaderboard_body fs term) st0 (records Enrollment.size data) with
      | None => LRanOff
      | Some st => LRanking (imap (leaderboard_row fs) (bubble_sort (ls_accs st)))
      end
  end.

(** ** A small data set: the scenario of the specification *)

Definition text (n : nat) (s : string) : list byte := strncpy n (lit s).

Definition mk_student (id name : string) : list byte :=
  Student.image
    (Student.Make (text MAX_ID id) (text MAX_NAME name) (text MAX_DEPT "EEE")
       241 (text MAX_EMAIL "")).

Definition mk_course (code : string) (credit : spec_float) : list byte :=
  Course.image
    (Course.Make (text MAX_CODE code) (text MAX_TITLE "") credit
       (text MAX_DEPT "EEE") (text MAX_ID "")).

Definition mk_enrollment (sid code term grade : string) : list byte :=
  Enrollment.image
    (Enrollment.Make (text MAX_ID sid) (text MAX_CODE code)
       (text MAX_TERM term) (text 3 grade)).

Definition scenario_fs : gmap string file :=
  <[FILE_STUD := File false (mk_student "S1" "One" ++ mk_student "S2" "Two")]>
  (<[FILE_COURSE := File false (mk_course "C1" (F32.of_Z 3) ++ mk_course "C2" (F32.of_Z 3))]>
  (<[FILE_ENR := File false (mk_enrollment "S1" "C1" "T1" "A"
                               ++ mk_enrollment "S1" "C2" "T1" "B+"
                               ++ mk_enrollment "S2" "C1" "T1" "A")]> ∅)).

(** ** Notions used to state the properties *)

(** The records a full scan of a store delivers (none when the file does
    not open). *)
Definition scan (fs : gmap string file) (path : string) (recSize : nat)
    : list (list byte) :=
  from_option (records recSize) [] (fopen_rb fs path).

(** The prior content of a file, empty when the file is absent. *)
Definition content (fs : gmap string file) (path : string) : list byte :=
  from_option f_data [] (fs !! path).

(** A file of whole records: its size is a multiple of the record width. *)
Definition whole_records (recSize : nat) (data : list byte) : Prop :=
  (length data `mod` recSize = 0)%nat.

(** The table of the specification, in hundredths of a point. *)
Definition grade_table : list (string * Z) :=
  [("A", 400); ("A-", 370); ("B+", 330); ("B", 300); ("B-", 270);
   ("C+", 230); ("C", 200); ("C-", 170); ("D", 100); ("F", 0)]%Z.

(** The points the table gives a symbol, if it lists the symbol. *)
Definition table_points (g : list byte) : option spec_float :=
  (λ e : string * Z, F32.decimal (snd e) 100) <$>
  find (λ e : string * Z, bool_decide (c_str g = lit (fst e))) grade_table.

(** The result for a symbol that is not a grade: [-1.0f]. *)
Definition Invalid : spec_float := F32.decimal (-10) 10.

(** The salt, repeated over the 32 bytes of a stored password. *)
Definition salt_stream : list byte := SALT ++ SALT ++ SALT ++ SALT.

(** The key of a record as the predicates read it, and the keys a scan
    of each store meets. *)
Definition student_key (buf : list byte) : list byte :=
  c_str (Student.id (Student.view buf)).

Definition course_key (buf : list byte) : list byte :=
  c_str (Course.code (Course.view buf)).

Definition enrollment_key (buf : list byte)
    : list byte * list byte * list byte :=
  let e := Enrollment.view buf in
  (c_str (Enrollment.studentId e), c_str (Enrollment.courseCode e),
   c_str (Enrollment.term e)).

Definition student_keys (fs : gmap string file) : list (list byte) :=
  student_key <$> scan fs FILE_STUD Student.size.

Definition course_keys (fs : gmap string file) : list (list byte) :=
  course_key <$> scan fs FILE_COURSE Course.size.

Definition enrollment_keys (fs : gmap string file)
    : list (list byte * list byte * list byte) :=
  enrollment_key <$> scan fs FILE_ENR Enrollment.size.

(** The first line of the input, as an add operation reads its key. *)
Definition key_line (inp : list byte) : list byte * list byte :=
  read_line (replicate MAX_ID NUL) MAX_ID inp.

Definition keys_of (op : add_op) (fs : gmap string file) : list (list byte) :=
  match op with
  | AddStudent => student_keys fs
  | AddCourse => course_keys fs
  end.

Definition duplicate_message (op : add_op) : message :=
  match op with
  | AddStudent => StudentExists
  | AddCourse => CourseExists
  end.

Definition keys_unique (fs : gmap string file) : Prop :=
  NoDup (student_keys fs) ∧ NoDup (course_keys fs).

Definition stores_whole (fs : gmap string file) : Prop :=
  whole_records Student.size (content fs FILE_STUD) ∧
  whole_records Course.size (content fs FILE_COURSE).

(** The enrollment that the three lines of the input ask for, and the
    input left after them. *)
Definition enroll_request (inp : list byte) : Enrollment.t * list byte :=
  let z := Enrollment.zero in
  let '(studentId, inp) := read_line (Enrollment.studentId z) MAX_ID inp in
  let '(courseCode, inp) := read_line (Enrollment.courseCode z) MAX_CODE inp in
  let '(term, inp) := read_line (Enrollment.term z) MAX_TERM inp in
  (Enrollment.Make studentId courseCode term
     (strcpy (Enrollment.grade z) (lit "NA")), inp).

(** The first course record whose code is [code], as a lookup in the
    Course store finds it. *)
Definition find_course (fs : gmap string file) (code : list byte)
    : option (list byte) :=
  find (λ cb, bool_decide (course_key cb = c_str code))
       (scan fs FILE_COURSE Course.size).

(** An enrollment that counts towards an average: its course resolves and
    its grade is in the table.  The entry is the student, the grade points
    and the credit of the course. *)
Definition graded_entry (fs : gmap string file) (buf : list byte)
    : option (list byte * spec_float * spec_float) :=
  let e := Enrollment.view buf in
  cb ← find_course fs (Enrollment.courseCode e);
  gp ← table_points (Enrollment.grade e);
  Some (c_str (Enrollment.studentId e), gp, Course.credit (Course.view cb)).

(** The graded entries of a student, and those of a term, in store
    order. *)
Definition student_entries (fs : gmap string file) (sid : list byte)
    : list (list byte * spec_float * spec_float) :=
  omap (λ buf,
          if bool_decide (c_str (Enrollment.studentId (Enrollment.view buf)) = c_str sid)
          then graded_entry fs buf else None)
       (scan fs FILE_ENR Enrollment.size).

Definition term_entries (fs : gmap string file) (term : list byte)
    : list (list byte * spec_float * spec_float) :=
  omap (λ buf,
          if bool_decide (c_str (Enrollment.term (Enrollment.view buf)) = c_str term)
          then graded_entry fs buf else None)
       (scan fs FILE_ENR Enrollment.size).

(** [sum(credit)] and [sum(points * credit)], added up in list order from
    0.0 in binary32. *)
Definition total_credits (l : list (list byte * spec_float * spec_float))
    : spec_float :=
  foldl (λ acc x, F32.add acc x.2) F32.zero l.

Definition total_points (l : list (list byte * spec_float * spec_float))
    : spec_float :=
  foldl (λ acc x, F32.add acc (F32.mul x.1.2 x.2)) F32.zero l.

(** The last line of a transcript whose totals are those of [l]. *)
Definition cgpa_of (l : list (list byte * spec_float * spec_float))
    : cgpa_line :=
  if F32.ltb F32.zero (total_credits l)
  then CGPA (F32.div (total_points l) (total_credits l)) (total_credits l)
  else NoGradedCredits.

(** The students of a list of entries, each once, in the order of their
    first entry. *)
Definition first_seen (l : list (list byte)) : list (list byte) :=
  foldl (λ seen x, if bool_decide (x ∈ seen) then seen else seen ++ [x]) [] l.

Definition entries_of (sid : list byte)
    (l : list (list byte * spec_float * spec_float))
    : list (list byte * spec_float * spec_float) :=
  filter (λ x, x.1.1 = sid) l.

(** Per student, the totals of points and of credits over the entries of
    that student. *)
Definition term_totals (l : list (list byte * spec_float * spec_float))
    : list (list byte * spec_float * spec_float) :=
  (λ sid, (sid, total_points (entries_of sid l), total_credits (entries_of sid l)))
    <$> first_seen (l.*1.*1).

(** [points / credits], and 0 when the credits are not positive. *)
Definition gpa_value (t : list byte * spec_float * spec_float) : spec_float :=
  if F32.ltb F32.zero t.2 then F32.div t.1.2 t.2 else F32.zero.

(** What a line of the leaderboard shows of a student's totals. *)
Definition ranked (t : list byte * spec_float * spec_float)
    : list byte * spec_float * spec_float :=
  (t.1.1, gpa_value t, t.2).

Definition row_view (r : lrow) : list byte * spec_float * spec_float :=
  (lr_id r, lr_gpa r, lr_cred r).

Definition acc_view (a : Acc.t) : list byte * spec_float * spec_float :=
  (c_str (Acc.sid a), Acc.pts a, Acc.cred a).

(** Adding an entry of points [gp] and credit [cr] to a student's
    totals. *)
Definition bump_totals (gp cr : spec_float)
    (t : list byte * spec_float * spec_float)
    : list byte * spec_float * spec_float :=
  (t.1.1, F32.add t.1.2 (F32.mul gp cr), F32.add t.2 cr).

(** The order of two GPAs, and a list of GPAs from highest to lowest. *)
Definition gpa_le (x y : spec_float) : Prop := F32.leb x y = true.

Definition descending (l : list spec_float) : Prop :=
  StronglySorted (λ x y, gpa_le y x) l.

(** An accumulator ranked at or above another, and one whose GPA is a
    number. *)
Definition above (a b : Acc.t) : Prop := gpa_le (gpa_of b) (gpa_of a).

Definition sound (a : Acc.t) : Prop := F32.is_nan (gpa_of a) = false.

(** A key that orders the binary32 values other than NaN as [<] does:
    sign class, then exponent, then mantissa, the last two negated for a
    negative value. *)
Definition order_key (x : spec_float) : Z * Z * Z :=
  match x with
  | S754_zero _ => (0, 0, 0)%Z
  | S754_infinity s => (if s then (-2)%Z else 2%Z, 0%Z, 0%Z)
  | S754_nan => (0, 0, 0)%Z
  | S754_finite s m e =>
      if s then ((-1)%Z, (- e)%Z, Zneg m) else (1%Z, e, Zpos m)
  end.

Definition lex_compare (a b : Z * Z * Z) : comparison :=
  match (a.1.1 ?= b.1.1)%Z with
  | Eq => match (a.1.2 ?= b.1.2)%Z with
          | Eq => (a.2 ?= b.2)%Z
          | c => c
          end
  | c => c
  end.

(** The state of the leaderboard scan after the entries [l]: [accs] holds
    their totals, unless they are of more students than [accs] has room
    for. *)
Definition tracks (st : option lstate)
    (l : list (list byte * spec_float * spec_float)) : Prop :=
  match st with
  | Some s =>
      acc_view <$> ls_accs s = term_totals l ∧ length (term_totals l) ≤ ACCS_LEN
  | None => ACCS_LEN < length (term_totals l)
  end.

(** ** Small stores used as concrete inputs *)

(** A user file that exists, holds one record and refuses to open. *)
Definition locked_users : gmap string file :=
  {[ FILE_USER := File true (replicate 84 x41) ]}.

(** Stores of 2-byte records: two records, one record, and a lone byte
    left by an interrupted append. *)
Definition two_records : gmap string file :=
  {[ FILE_STUD := File false [x01; x02; x03; x04] ]}.

Definition one_record : gmap string file :=
  {[ FILE_STUD := File false [x01; x02] ]}.

Definition torn_store : gmap string file :=
  {[ FILE_STUD := File false [x01; x02; x03] ]}.

(** ** Faculty and users *)

Module Faculty.
Record t := Make
  { id : list byte; name : list byte; dept : list byte; email : list byte }.
Definition size : nat := 176.
Definition zero : t :=
  Make (replicate MAX_ID NUL) (replicate MAX_NAME NUL)
       (replicate MAX_DEPT NUL) (replicate MAX_EMAIL NUL).
Definition image (f : t) : list byte := id f ++ name f ++ dept f ++ email f.
Definition view (buf : list byte) : t :=
  Make (slice 0 MAX_ID buf) (slice 16 MAX_NAME buf) (slice 80 MAX_DEPT buf)
       (slice 112 MAX_EMAIL buf).
End Faculty.

Definition ROLE_ADMIN : Z := 1.
Definition ROLE_FACULTY : Z := 2.
Definition ROLE_STUDENT : Z := 3.

(** [role] is the 4-byte enum after the user name; it is only compared
    with the three roles. *)
Module User.
Record t := Make
  { username : list byte; role : Z; refId : list byte; pass_obf : list byte }.
Definition size : nat := 84.
Definition zero : t :=
  Make (replicate MAX_USER NUL) 0 (replicate MAX_ID NUL)
       (replicate MAX_PASS NUL).
Definition image (u : t) : list byte :=
  username u ++ put_le 4 (role u) ++ refId u ++ pass_obf u.
Definition view (buf : list byte) : t :=
  Make (slice 0 MAX_USER buf) (get_le (slice 32 4 buf)) (slice 36 MAX_ID buf)
       (slice 52 MAX_PASS buf).
End User.

Definition pred_faculty_by_id (rec : list byte) (key : list byte) : bool :=
  let s := Faculty.view rec in
  (strcmp (Faculty.id s) key =? 0)%Z.

(** [u->username] is the string that starts at offset 0 of the record:
    [strcmp] reads it up to a NUL, on into [role] when the name fills its 32
    bytes. *)
Definition pred_user_by_username (rec : list byte) (key : list byte) : bool :=
  (strcmp (drop 0 rec) key =? 0)%Z.

(** ** Upper case *)

(** [toupper] in the "C" locale, the one in effect in a program that never
    calls [setlocale]: the letters a..z move to A..Z. *)
Definition toupper (c : byte) : byte :=
  let v := byte_val c in
  if (97 <=? v)%Z && (v <=? 122)%Z then byte_of_Z (v - 32) else c.

(** [upper(s)]: every character before the first NUL is replaced. *)
Fixpoint upper (s : list byte) : list byte :=
  match s with
  | [] => []
  | c :: s' => if Byte.eqb c NUL then s else toupper c :: upper s'
  end.

(** ** A struct held in memory *)

(** Storing the bytes [v] at offset [off] of the struct [buf]: an
    assignment to a field, or [strncpy] into one. *)
Definition store_at (buf : list byte) (off : nat) (v : list byte) : list byte :=
  take off buf ++ v ++ drop (off + length v) buf.

(** ** What the program prints *)

(** The fixed lines, other than those of [message]; prompts are left
    out. *)
Inductive notice :=
  | NotFound | LeaveBlank | Updated | WriteError
  | NoStudentsYet | StudentsHeader
  | FacultyExists | FacultyAdded | NoFacultyYet | FacultyHeader
  | FacultyNotFound | InstructorAssigned
  | NoCoursesYet | CoursesHeader
  | EnrollmentNotFound | InvalidGrade | GradeUpdated
  | NoEnrollments | NoStudentsEnrolled
  | Initialized | InvalidCredentials
  | Invalid_ | NoCourses | NoAssignedCourses | NotInstructor | GradeSaved
  | ProfileNotFound.

Inductive line :=
  | Told (m : message)
  | Note (n : notice)
  | StudentLine (id name dept : list byte) (batch : Z) (email : list byte)
  | FacultyLine (id name dept email : list byte)
  | CourseLine (code title : list byte) (credit : spec_float)
      (dept instructorId : list byte)
  | RosterHeader (code term : list byte)
  | RosterLine (id name grade : list byte)
  | RosterRanOff
  | TranscriptOut (t : transcript_out)
  | LeaderboardOut (l : leaderboard_out).

(** What [printf] writes for a [%s] given the field at offset [off] of the
    struct [buf]: the bytes from there up to the first NUL of the struct,
    whatever fields they cross.  When the struct holds no NUL from [off]
    on, the read leaves the struct, which C leaves undefined: [None]. *)
Definition printed (buf : list byte) (off : nat) : option (list byte) :=
  let rest := drop off buf in
  if bool_decide (NUL ∈ rest) then Some (c_str rest) else None.

Definition print_student (s : Student.t) : line :=
  StudentLine (c_str (Student.id s)) (c_str (Student.name s))
    (c_str (Student.dept s)) (Student.batch s) (c_str (Student.email s)).

Definition print_faculty (f : Faculty.t) : line :=
  FacultyLine (c_str (Faculty.id f)) (c_str (Faculty.name f))
    (c_str (Faculty.dept f)) (c_str (Faculty.email f)).

Definition print_course (c : Course.t) : line :=
  CourseLine (c_str (Course.code c)) (c_str (Course.title c)) (Course.credit c)
    (c_str (Course.dept c)) (c_str (Course.instructorId c)).

(** ** Listings *)

Definition list_students (fs : gmap string file) : list line :=
  match fopen_rb fs FILE_STUD with
  | None => [Note NoStudentsYet]
  | Some data =>
      Note StudentsHeader ::
      ((λ buf, print_student (Student.view buf)) <$> records Student.size data)
  end.

Definition list_faculty (fs : gmap string file) : list line :=
  match fopen_rb fs FILE_FAC with
  | None => [Note NoFacultyYet]
  | Some data =>
      Note FacultyHeader ::
      ((λ buf, print_faculty (Faculty.view buf)) <$> records Faculty.size data)
  end.

Definition list_courses (fs : gmap string file) : list line :=
  match fopen_rb fs FILE_COURSE with
  | None => [Note NoCoursesYet]
  | Some data =>
      Note CoursesHeader ::
      ((λ buf, print_course (Course.view buf)) <$> records Course.size data)
  end.

(** A session: the bytes of the [User] and the flag. *)
Module Session.
Record t := Make { user : list byte; logged : Z }.
End Session.

(** ** The operations of the menus *)

Section Operations.
Variable atoi : list byte → Z.
Variable atof : list byte → spec_float.
(** The bytes that an array of [n] chars holds before anything is stored in
    it. *)
Variable uninit : nat → list byte.

Definition edit_student (inp : list byte) (fs : gmap string file)
    : list line * list byte * gmap string file :=
  let '(id, inp) := read_line (uninit MAX_ID) MAX_ID inp in
  let '(idx, out) :=
    file_find_first fs FILE_STUD Student.size pred_student_by_id id in
  if (idx <? 0)%Z then ([Note NotFound], inp, fs)
  else
    let s := from_option (λ b, b) (uninit Student.size) out in
    let shown := print_student (Student.view s) in
    let '(buf, inp) := read_line (uninit 128) 128 inp in
    let s := if (strlen buf =? 0)%nat then s
             else store_at s 16 (strncpy MAX_NAME buf) in
    let '(buf, inp) := read_line buf 128 inp in
    let s := if (strlen buf =? 0)%nat then s
             else store_at s 80 (strncpy MAX_DEPT buf) in
    let '(buf, inp) := read_line buf 128 inp in
    let s := if (strlen buf =? 0)%nat then s
             else store_at s 116 (strncpy MAX_EMAIL buf) in
    let buf := <[0%nat := NUL]> buf in
    let '(buf, inp) := read_line buf 128 inp in
    let s := if (strlen buf =? 0)%nat then s
             else store_at s 112 (put_le 4 (atoi buf)) in
    let '(ok, fs) := file_write_at fs FILE_STUD Student.size idx s in
    ([shown; Note LeaveBlank; Note (if (ok =? 0)%Z then WriteError else Updated)],
     inp, fs).

Definition add_faculty (inp : list byte) (fs : gmap string file)
    : list line * list byte * gmap string file :=
  let f := Faculty.zero in
  let '(id, inp) := read_line (Faculty.id f) MAX_ID inp in
  if (fst (file_find_first fs FILE_FAC Faculty.size pred_faculty_by_id id) >=? 0)%Z
  then ([Note FacultyExists], inp, fs)
  else
    let '(name, inp) := read_line (Faculty.name f) MAX_NAME inp in
    let '(dept, inp) := read_line (Faculty.dept f) MAX_DEPT inp in
    let '(email, inp) := read_line (Faculty.email f) MAX_EMAIL inp in
    let f := Faculty.Make id name dept email in
    let '(ok, fs) := file_append fs FILE_FAC Faculty.size (Faculty.image f) in
    ([Note (if (ok =? 0)%Z then WriteError else FacultyAdded)], inp, fs).

Definition assign_instructor (inp : list byte) (fs : gmap string file)
    : list line * list byte * gmap string file :=
  let '(code, inp) := read_line (uninit MAX_CODE) MAX_CODE inp in
  let '(idx, out) :=
    file_find_first fs FILE_COURSE Course.size pred_course_by_code code in
  if (idx <? 0)%Z then ([Told CourseNotFound], inp, fs)
  else
    let c := from_option (λ b, b) (uninit Course.size) out in
    let '(fid, inp) := read_line (uninit MAX_ID) MAX_ID inp in
    if (fst (file_find_first fs FILE_FAC Faculty.size pred_faculty_by_id fid) <? 0)%Z
    then ([Note FacultyNotFound], inp, fs)
    else
      let c := store_at c 116 (strncpy MAX_ID fid) in
      let '(ok, fs) := file_write_at fs FILE_COURSE Course.size idx c in
      ([Note (if (ok =? 0)%Z then WriteError else InstructorAssigned)], inp, fs).

Definition set_grade (inp : list byte) (fs : gmap string file)
    : list line * list byte * gmap string file :=
  let '(sid, inp) := read_line (uninit MAX_ID) MAX_ID inp in
  let '(code, inp) := read_line (uninit MAX_CODE) MAX_CODE inp in
  let '(term, inp) := read_line (uninit MAX_TERM) MAX_TERM inp in
  let key := EnrKey.Make (strncpy MAX_ID sid) (strncpy MAX_CODE code)
               (strncpy MAX_TERM term) in
  let '(idx, out) :=
    file_find_first fs FILE_ENR Enrollment.size pred_enr_by_key key in
  if (idx <? 0)%Z then ([Note EnrollmentNotFound], inp, fs)
  else
    let e := from_option (λ b, b) (uninit Enrollment.size) out in
    let '(g, inp) := read_line (uninit 3) 3 inp in
    let g := upper g in
    if F32.ltb (grade_to_points g) F32.zero && negb (strcmp g (lit "NA") =? 0)%Z
    then ([Note InvalidGrade], inp, fs)
    else
      let e := store_at e 48 (strncpy 2 g ++ [NUL]) in
      let '(ok, fs) := file_write_at fs FILE_ENR Enrollment.size idx e in
      ([Note (if (ok =? 0)%Z then WriteError else GradeUpdated)], inp, fs).

(** ** Roster *)

(** The line [printf] writes for the student [s] and the enrollment [e]:
    [s.id], [s.name] and [e.grade], each read as a string from the start of
    its field; [RosterRanOff] when one of the reads leaves its struct. *)
Definition roster_row (s e : list byte) : line :=
  match printed s 0, printed s 16, printed e 48 with
  | Some id, Some name, Some grade => RosterLine id name grade
  | _, _, _ => RosterRanOff
  end.

(** The locals of [roster_for_course_term] across the loop. *)
Record rstate := RState
  { rs_s : list byte; rs_count : Z; rs_rows : list line }.

Definition roster_body (fs : gmap string file) (code term : list byte)
    (st : rstate) (buf : list byte) : rstate :=
  let e := Enrollment.view buf in
  if (strcmp (Enrollment.courseCode e) code =? 0)%Z
     && (strcmp (Enrollment.term e) term =? 0)%Z then
    let '(idx, out) :=
      file_find_first fs FILE_STUD Student.size pred_student_by_id
        (Enrollment.studentId e) in
    let sbuf := from_option (λ b, b) (rs_s st) out in
    if (idx >=? 0)%Z then
      RState sbuf (to_int (rs_count st + 1)) (rs_rows st ++ [roster_row sbuf buf])
    else RState sbuf (rs_count st) (rs_rows st)
  else st.

Definition roster_for_course_term (fs : gmap string file)
    (code term : list byte) : list line :=
  match fopen_rb fs FILE_ENR with
  | None => [Note NoEnrollments]
  | Some data =>
      let st0 := RState (uninit Student.size) 0 [] in
      let st := foldl (roster_body fs code term) st0
                  (records Enrollment.size data) in
      RosterHeader (c_str code) (c_str term) :: rs_rows st
        ++ (if (rs_count st =? 0)%Z then [Note NoStudentsEnrolled] else [])
  end.

(** ** Users *)

(** [refId] is [None] for a null pointer. *)
Definition add_user (username : list byte) (role : Z)
    (refId : option (list byte)) (pass : list byte) (fs : gmap string file)
    : gmap string file :=
  if (fst (file_find_first fs FILE_USER User.size pred_user_by_username username)
      >=? 0)%Z
  then fs
  else
    let u := User.zero in
    let u := User.Make (strncpy MAX_USER username) role
               (from_option (strncpy MAX_ID) (User.refId u) refId)
               (obfuscate pass) in
    snd (file_append fs FILE_USER User.size (User.image u)).

(** The admin is given the empty string as [refId]. *)
Definition bootstrap_if_empty (fs : gmap string file)
    : list line * gmap string file :=
  if (file_count_records fs FILE_USER User.size =? 0)%Z then
    let s1 := Student.Make (text MAX_ID "02124100034") (text MAX_NAME "Sabbir Ahmed")
                (text MAX_DEPT "EEE") 241 (text MAX_EMAIL "allexsabbir117@gmail.com") in
    let s2 := Student.Make (text MAX_ID "02124100001") (text MAX_NAME "Afsana Mim")
                (text MAX_DEPT "CSE") 231 (text MAX_EMAIL "mim@example.com") in
    let f1 := Faculty.Make (text MAX_ID "FAC-EEE-001") (text MAX_NAME "Dr. Rezwan Khan")
                (text MAX_DEPT "EEE") (text MAX_EMAIL "rezwan.khan@uiu.ac.bd") in
    let f2 := Faculty.Make (text MAX_ID "FAC-CSE-002") (text MAX_NAME "Dr. John Doe")
                (text MAX_DEPT "CSE") (text MAX_EMAIL "john.doe@uiu.ac.bd") in
    let c1 := Course.Make (text MAX_CODE "EEE-2101") (text MAX_TITLE "Circuits I")
                (F32.of_Z 3) (text MAX_DEPT "EEE") (text MAX_ID "FAC-EEE-001") in
    let c2 := Course.Make (text MAX_CODE "CSE-1101")
                (text MAX_TITLE "Intro to Programming")
                (F32.of_Z 3) (text MAX_DEPT "CSE") (text MAX_ID "FAC-CSE-002") in
    let fs := snd (file_append fs FILE_STUD Student.size (Student.image s1)) in
    let fs := snd (file_append fs FILE_STUD Student.size (Student.image s2)) in
    let fs := snd (file_append fs FILE_FAC Faculty.size (Faculty.image f1)) in
    let fs := snd (file_append fs FILE_FAC Faculty.size (Faculty.image f2)) in
    let fs := snd (file_append fs FILE_COURSE Course.size (Course.image c1)) in
    let fs := snd (file_append fs FILE_COURSE Course.size (Course.image c2)) in
    let e1 := Enrollment.Make (text MAX_ID "02124100034") (text MAX_CODE "EEE-2101")
                (text MAX_TERM "Fall-2025") (text 3 "A") in
    let e2 := Enrollment.Make (text MAX_ID "02124100034") (text MAX_CODE "CSE-1101")
                (text MAX_TERM "Fall-2025") (text 3 "B+") in
    let e3 := Enrollment.Make (text MAX_ID "02124100001") (text MAX_CODE "CSE-1101")
                (text MAX_TERM "Fall-2025") (text 3 "A-") in
    let fs := snd (file_append fs FILE_ENR Enrollment.size (Enrollment.image e1)) in
    let fs := snd (file_append fs FILE_ENR Enrollment.size (Enrollment.image e2)) in
    let fs := snd (file_append fs FILE_ENR Enrollment.size (Enrollment.image e3)) in
    let fs := add_user (lit "admin") ROLE_ADMIN (Some []) (lit "admin123") fs in
    let fs := add_user (lit "rezwan") ROLE_FACULTY (Some (lit "FAC-EEE-001"))
                (lit "teacher123") fs in
    let fs := add_user (lit "john") ROLE_FACULTY (Some (lit "FAC-CSE-002"))
                (lit "teacher123") fs in
    let fs := add_user (lit "sabbir") ROLE_STUDENT (Some (lit "02124100034"))
                (lit "student123") fs in
    let fs := add_user (lit "mim") ROLE_STUDENT (Some (lit "02124100001"))
                (lit "student123") fs in
    ([Note Initialized], fs)
  else ([], fs).


Definition login (inp : list byte) (fs : gmap string file)
    : Session.t * list line * list byte :=
  let s := Session.Make (replicate User.size NUL) 0 in
  let '(uname, inp) := read_line (uninit MAX_USER) MAX_USER inp in
  let '(pass, inp) := read_line (uninit MAX_PASS) MAX_PASS inp in
  let '(idx, out) :=
    file_find_first fs FILE_USER User.size pred_user_by_username uname in
  let u := from_option (λ b, b) (uninit User.size) out in
  if (idx >=? 0)%Z && verify_pass (User.pass_obf (User.view u)) pass
  then (Session.Make u 1, [], inp)
  else (s, [Note InvalidCredentials], inp).
(** ** Menus *)


(** The loop of choice 1 of the faculty menu: the courses printed and
    [any]. *)
Definition my_courses_body (refId : list byte) (st : list line * Z)
    (buf : list byte) : list line * Z :=
  let c := Course.view buf in
  if (strcmp (Course.instructorId c) refId =? 0)%Z
  then (st.1 ++ [print_course c], 1%Z)
  else st.

Fixpoint menu_faculty (fuel : nat) (u : list byte) (inp : list byte)
    (fs : gmap string file)
    : bool * list line * list byte * gmap string file :=
  match fuel with
  | O => (false, [], inp, fs)
  | S fuel' =>
      let refId := User.refId (User.view u) in
      let '(ch, inp) := read_int atoi inp in
      if (ch =? 0)%Z then (true, [], inp, fs)
      else
        let '(out, inp, fs) :=
          if (ch =? 1)%Z then
            match fopen_rb fs FILE_COURSE with
            | None => ([Note NoCourses], inp, fs)
            | Some data =>
                let '(rows, any) :=
                  foldl (my_courses_body refId) ([], 0%Z)
                    (records Course.size data) in
                (rows ++ (if (any =? 0)%Z then [Note NoAssignedCourses] else []),
                 inp, fs)
            end
          else if (ch =? 2)%Z then
            let '(code, inp) := read_line (uninit MAX_CODE) MAX_CODE inp in
            let '(term, inp) := read_line (uninit MAX_TERM) MAX_TERM inp in
            let '(cidx, cout) :=
              file_find_first fs FILE_COURSE Course.size pred_course_by_code code in
            let c := Course.view (from_option (λ b, b) (uninit Course.size) cout) in
            if (cidx <? 0)%Z || negb (strcmp (Course.instructorId c) refId =? 0)%Z
            then ([Note NotInstructor], inp, fs)
            else (roster_for_course_term fs code term, inp, fs)
          else if (ch =? 3)%Z then
            let '(code, inp) := read_line (uninit MAX_CODE) MAX_CODE inp in
            let '(term, inp) := read_line (uninit MAX_TERM) MAX_TERM inp in
            let '(cidx, cout) :=
              file_find_first fs FILE_COURSE Course.size pred_course_by_code code in
            let c := Course.view (from_option (λ b, b) (uninit Course.size) cout) in
            if (cidx <? 0)%Z || negb (strcmp (Course.instructorId c) refId =? 0)%Z
            then ([Note NotInstructor], inp, fs)
            else
              let '(sid, inp) := read_line (uninit MAX_ID) MAX_ID inp in
              let key := EnrKey.Make (strncpy MAX_ID sid) (strncpy MAX_CODE code)
                           (strncpy MAX_TERM term) in
              let '(idx, out) :=
                file_find_first fs FILE_ENR Enrollment.size pred_enr_by_key key in
              if (idx <? 0)%Z then ([Note EnrollmentNotFound], inp, fs)
              else
                let e := from_option (λ b, b) (uninit Enrollment.size) out in
                let '(g, inp) := read_line (uninit 3) 3 inp in
                let g := upper g in
                if F32.ltb (grade_to_points g) F32.zero
                   && negb (strcmp g (lit "NA") =? 0)%Z
                then ([Note InvalidGrade], inp, fs)
                else
                  let e := store_at e 48 (strncpy 2 g ++ [NUL]) in
                  let '(ok, fs) :=
                    file_write_at fs FILE_ENR Enrollment.size idx e in
                  ([Note (if (ok =? 0)%Z then WriteError else GradeSaved)], inp, fs)
          else ([Note Invalid_], inp, fs) in
        let '(quit, out', inp, fs) := menu_faculty fuel' u inp fs in
        (quit, out ++ out', inp, fs)
  end.

End Operations.

(** ** Notions used to state the properties of the operations *)

(** The characters of the input before its first newline. *)
Fixpoint first_line (inp : list byte) : list byte :=
  match inp with
  | [] => []
  | c :: rest => if Byte.eqb c NEWLINE then [] else c :: first_line rest
  end.

(** The strings that successive calls of [read_line] store in buffers of
    the given capacities, and the input left after them. *)
Fixpoint typed (caps : list nat) (inp : list byte)
    : list (list byte) * list byte :=
  match caps with
  | [] => ([], inp)
  | cap :: caps' =>
      let next :=
        typed caps' (drop ((cap - 1) `min` S (length (first_line inp))) inp) in
      (c_str (take (cap - 1) (first_line inp)) :: fst next, snd next)
  end.

(** The first record of a scan with a given key, and its index. *)
Definition first_with {K : Type} `{EqDecision K} (keyof : list byte → K)
    (k : K) (rs : list (list byte)) : option (nat * list byte) :=
  list_find (λ buf, keyof buf = k) rs.

(** The size of a file fits [long], as [ftell] and [fseek] need. *)
Definition fits_long (fs : gmap string file) (path : string) : Prop :=
  (Z.of_nat (length (content fs path)) ≤ LONG_MAX)%Z.

(** A grade that may be stored: a symbol of the table, or NA. *)
Definition storable (g : list byte) : Prop :=
  is_Some (table_points g) ∨ c_str g = lit "NA".

Global Instance storable_dec (g : list byte) : Decision (storable g).
Proof. unfold storable. apply _. Defined.

(** ** Small inputs *)

(** Stale bytes for the arrays that the program leaves uninitialised. *)
Definition stale (n : nat) : list byte := replicate n xcc.

(** The input made of the given lines, each ended by a newline. *)
Definition lines (ls : list string) : list byte :=
  concat ((λ l, lit l ++ [NEWLINE]) <$> ls).

(** The scenario after [edit_student] has given S1 a name of 70
    characters: the name field holds its first 64 and no terminator. *)
Definition long_name_fs : gmap string file :=
  snd (edit_student (λ _, 0%Z) stale
         (lit "S1" ++ [NEWLINE] ++ replicate 70 "n"%byte ++ [NEWLINE]
            ++ [NEWLINE; NEWLINE; NEWLINE])
         scenario_fs).

(** A crowded term: [k] students, each with an A in the one course of
    term T1.  The id of student [n] is three letters. *)
Definition crowd_id (n : nat) : list byte :=
  [byte_of_Z (65 + Z.of_nat (n / 256));
   byte_of_Z (65 + Z.of_nat ((n / 16) `mod` 16));
   byte_of_Z (65 + Z.of_nat (n `mod` 16))].

Definition crowd_enrollment (n : nat) : list byte :=
  Enrollment.image
    (Enrollment.Make (strncpy MAX_ID (crowd_id n)) (text MAX_CODE "C1")
       (text MAX_TERM "T1") (text 3 "A")).

Definition crowded_fs (k : nat) : gmap string file :=
  <[FILE_COURSE := File false (mk_course "C1" (F32.of_Z 3))]>
  (<[FILE_ENR := File false (concat (crowd_enrollment <$> seq 0 k))]> ∅).

(** A term with a tie: S2 is met first with a B, then S1 and S3 with an A
    each, all in the same course. *)
Definition tied_fs : gmap string file :=
  <[FILE_STUD := File false (mk_student "S1" "One" ++ mk_student "S2" "Two"
                               ++ mk_student "S3" "Three")]>
  (<[FILE_COURSE := File false (mk_course "C1" (F32.of_Z 3))]>
  (<[FILE_ENR := File false (mk_enrollment "S2" "C1" "T1" "B"
                               ++ mk_enrollment "S1" "C1" "T1" "A"
                               ++ mk_enrollment "S3" "C1" "T1" "A")]> ∅)).

(** The keys of the faculty and user stores. *)
Definition faculty_key (buf : list byte) : list byte :=
  c_str (Faculty.id (Faculty.view buf)).

Definition faculty_keys (fs : gmap string file) : list (list byte) :=
  faculty_key <$> scan fs FILE_FAC Faculty.size.

Definition user_key (buf : list byte) : list byte :=
  c_str (User.username (User.view buf)).

Definition user_keys (fs : gmap string file) : list (list byte) :=
  user_key <$> scan fs FILE_USER User.size.

(** An [atoi] for concrete runs: the value of the leading decimal digits
    of the string. *)
Fixpoint digits (acc : Z) (s : list byte) : Z :=
  match s with
  | [] => acc
  | c :: s' =>
      let v := byte_val c in
      if (48 <=? v)%Z && (v <=? 57)%Z then digits (10 * acc + (v - 48)) s'
      else acc
  end.

Definition atoi_digits (s : list byte) : Z := digits 0 s.

(** The [float] of a line of decimal digits. *)
Definition atof_digits (s : list byte) : spec_float := F32.of_Z (atoi_digits s).

(** A path that opens for writing: absent, or present and not refusing. *)
Definition unlocked (fs : gmap string file) (path : string) : Prop :=
  ∀ f, fs !! path = Some f → f_locked f = false.

(** The first student record whose id is [sid], as a lookup in the
    Student store finds it. *)
Definition find_student (fs : gmap string file) (sid : list byte)
    : option (list byte) :=
  find (λ sb, bool_decide (student_key sb = c_str sid))
       (scan fs FILE_STUD Student.size).

(** The line of the roster of ([code], [term]) that an enrollment record
    gives: one when the record is of that course and term and its student
    resolves, printed from the first student record with that id. *)
Definition roster_line (fs : gmap string file) (code term : list byte)
    (buf : list byte) : option line :=
  let e := Enrollment.view buf in
  if bool_decide (c_str (Enrollment.courseCode e) = c_str code
                  ∧ c_str (Enrollment.term e) = c_str term)
  then
    sb ← find_student fs (Enrollment.studentId e);
    Some (roster_row sb buf)
  else None.

(** The line of the transcript of [sid] that an enrollment record gives:
    one when the record is of that student and its course resolves; the
    grade points are shown for a grade of the table only. *)
Definition transcript_line (fs : gmap string file) (sid : list byte)
    (buf : list byte) : option trow :=
  let e := Enrollment.view buf in
  if bool_decide (c_str (Enrollment.studentId e) = c_str sid)
  then
    cb ← find_course fs (Enrollment.courseCode e);
    Some (TRow (c_str (Course.code (Course.view cb))) (c_str (Enrollment.term e))
            (Course.credit (Course.view cb)) (c_str (Enrollment.grade e))
            (table_points (Enrollment.grade e)))
  else None.

(** A file that opens for reading and holds at least one record of the
    given size. *)
Definition holds_a_record (fs : gmap string file) (path : string) (w : nat)
    : Prop :=
  ∃ data, fopen_rb fs path = Some data ∧ w ≤ length data.

(** The course with code [code] is taught by [refId]: the first course
    record with that code names [refId] as its instructor. *)
Definition teaches (fs : gmap string file) (refId code : list byte) : Prop :=
  ∃ cb, find_course fs code = Some cb ∧
        c_str (Course.instructorId (Course.view cb)) = c_str refId.

(** What a faculty session may have done to the files [fs], giving [fs']:
    nothing outside the enrollment file; in it, no record added, removed or
    moved, no student, course or term changed, and no record changed at all
    unless its course is taught by [refId]. *)
Definition graded_by (refId : list byte) (fs fs' : gmap string file) : Prop :=
  (∀ q, q ≠ FILE_ENR → fs' !! q = fs !! q) ∧
  length (content fs' FILE_ENR) = length (content fs FILE_ENR) ∧
  length (scan fs' FILE_ENR Enrollment.size) =
    length (scan fs FILE_ENR Enrollment.size) ∧
  ∀ i old new,
    scan fs FILE_ENR Enrollment.size !! i = Some old →
    scan fs' FILE_ENR Enrollment.size !! i = Some new →
    take 48 new = take 48 old ∧
    (new ≠ old →
     teaches fs refId (Enrollment.courseCode (Enrollment.view old))).

Global Instance spec_float_eq_dec : EqDecision spec_float.
Proof. solve_decision. Defined.





(** A value of type [float]: subnormal with exponent -149, or normal with
    a mantissa of 24 bits and an exponent that its field can hold. *)
Definition binary32 (x : spec_float) : bool :=
  match x with
  | S754_finite _ m e =>
      ((Zpos m <? 2 ^ 23)%Z && (e =? -149)%Z)
      || ((2 ^ 23 <=? Zpos m)%Z && (Zpos m <? 2 ^ 24)%Z
          && (-149 <=? e)%Z && (e <=? 104)%Z)
  | _ => true
  end.

(** * Properties *)

(** ** Machine integers *)

Lemma to_long_small (z : Z) :
  (LONG_MIN ≤ z ≤ LONG_MAX)%Z → to_long z = z.
Proof.
  unfold to_long, wrap_signed, LONG_MIN, LONG_MAX. intros H.
  rewrite Z.mod_small; lia.
Qed.

Lemma long_times_size_small (index : Z) (w : nat) :
  (LONG_MIN ≤ index * Z.of_nat w ≤ LONG_MAX)%Z →
  long_times_size index w = (index * Z.of_nat w)%Z.
Proof. apply to_long_small. Qed.

(** ** Reading records off a stream *)

Lemma fread_Some (w : nat) (s : list byte) :
  0 < w → w ≤ length s → fread w s = Some (take w s, drop w s).
Proof.
  intros Hw Hs. unfold fread.
  destruct (Nat.eqb_spec w 0); [lia|].
  destruct (Nat.ltb_spec (length s) w); [lia|]. reflexivity.
Qed.

Lemma fread_None (w : nat) (s : list byte) :
  length s < w → fread w s = None.
Proof.
  intros Hs. unfold fread.
  destruct (Nat.ltb_spec (length s) w); [|lia].
  by rewrite orb_true_r.
Qed.

Lemma fread_inv (w : nat) (s buf rest : list byte) :
  fread w s = Some (buf, rest) →
  0 < w ∧ w ≤ length s ∧ buf = take w s ∧ rest = drop w s.
Proof.
  unfold fread.
  destruct (Nat.eqb_spec w 0); [done|].
  destruct (Nat.ltb_spec (length s) w); [done|].
  intros [= <- <-]. repeat split; lia.
Qed.

Lemma fread_seq_fuel (w : nat) (f1 f2 : nat) (s : list byte) :
  length s ≤ f1 → length s ≤ f2 → fread_seq f1 w s = fread_seq f2 w s.
Proof.
  revert f2 s. induction f1 as [|f1 IH]; intros f2 s H1 H2.
  - destruct s; [|simpl in H1; lia].
    destruct f2; [done|]. simpl. by destruct w.
  - destruct f2 as [|f2].
    + destruct s; [|simpl in H2; lia]. simpl.
      destruct (fread w []) as [[buf rest]|] eqn:E; [|done].
      apply fread_inv in E. simpl in E. lia.
    + simpl. destruct (fread w s) as [[buf rest]|] eqn:E; [|done].
      apply fread_inv in E as (Hw & Hs & -> & ->).
      f_equal. apply IH; rewrite length_drop; lia.
Qed.

Lemma records_unfold (w : nat) (s : list byte) :
  records w s =
  match fread w s with
  | Some (buf, rest) => buf :: records w rest
  | None => []
  end.
Proof.
  unfold records. destruct (length s) as [|n] eqn:En.
  - destruct (fread w s) as [[buf rest]|] eqn:E; [|done].
    apply fread_inv in E. lia.
  - simpl. destruct (fread w s) as [[buf rest]|] eqn:E; [|done].
    apply fread_inv in E as (Hw & Hs & -> & ->).
    f_equal. apply fread_seq_fuel; rewrite length_drop; lia.
Qed.

Lemma records_short (w : nat) (s : list byte) :
  length s < w → records w s = [].
Proof. intros H. by rewrite records_unfold, fread_None. Qed.

Lemma records_cons (w : nat) (r s : list byte) :
  0 < w → length r = w → records w (r ++ s) = r :: records w s.
Proof.
  intros Hw Hr. rewrite records_unfold, fread_Some; [|done|rewrite length_app; lia].
  by rewrite take_app_length', drop_app_length'.
Qed.

Lemma records_app (w k : nat) (a b : list byte) :
  0 < w → length a = k * w → records w (a ++ b) = records w a ++ records w b.
Proof.
  intros Hw. revert a. induction k as [|k IH]; intros a Ha.
  - destruct a; [|simpl in Ha; lia]. reflexivity.
  - rewrite <- (take_drop w a), <- app_assoc.
    assert (length (take w a) = w) by (rewrite length_take; lia).
    rewrite records_cons by done.
    rewrite (records_cons w (take w a) (drop w a)) by done.
    rewrite IH; [done|]. rewrite length_drop. lia.
Qed.

Lemma records_one (w : nat) (r : list byte) :
  0 < w → length r = w → records w r = [r].
Proof.
  intros Hw Hr. rewrite <- (app_nil_r r) at 1.
  rewrite records_cons by done. reflexivity.
Qed.

Lemma length_records (w : nat) (s : list byte) :
  length (records w s) = length s / w.
Proof.
  destruct (Nat.eq_dec w 0) as [->|Hw].
  { rewrite records_unfold. unfold fread. simpl. done. }
  remember (length s) as n eqn:En. revert s En.
  induction n as [n IH] using lt_wf_ind. intros s ->.
  rewrite records_unfold. destruct (fread w s) as [[buf rest]|] eqn:E.
  - apply fread_inv in E as (_ & Hs & -> & ->). simpl.
    rewrite (IH (length (drop w s))); [|rewrite length_drop; lia|done].
    rewrite length_drop.
    replace (length s) with ((length s - w) + 1 * w) at 2 by lia.
    rewrite Nat.div_add by done. lia.
  - unfold fread in E. destruct (Nat.eqb_spec w 0); [lia|].
    destruct (Nat.ltb_spec (length s) w); [|done].
    by rewrite Nat.div_small.
Qed.

Lemma records_lookup (w i : nat) (s : list byte) :
  0 < w → (i + 1) * w ≤ length s →
  records w s !! i = Some (slice (i * w) w s).
Proof.
  intros Hw. revert s. induction i as [|i IH]; intros s Hs.
  - rewrite records_unfold, fread_Some by lia. reflexivity.
  - rewrite records_unfold, fread_Some by lia. simpl.
    rewrite IH by (rewrite length_drop; lia).
    unfold slice. rewrite drop_drop. repeat f_equal; lia.
Qed.

(** The scan of a file ignores what follows its last whole record. *)
Lemma records_whole_prefix (w : nat) (s : list byte) :
  0 < w → records w s = records w (take (length s / w * w) s).
Proof.
  intros Hw. rewrite <- (take_drop (length s / w * w) s) at 1.
  assert (length s / w * w ≤ length s) by (rewrite Nat.mul_comm; apply Nat.Div0.mul_div_le).
  rewrite (records_app w (length s / w)); [|done|rewrite length_take; lia].
  rewrite (records_short w (drop _ _)), app_nil_r; [done|].
  rewrite length_drop.
  pose proof (Nat.div_mod_eq (length s) w).
  pose proof (Nat.mod_upper_bound (length s) w). lia.
Qed.

(** ** The flat record store *)

Lemma fopen_rb_insert (fs : gmap string file) (path : string) (d : list byte) :
  fopen_rb (<[path := File false d]> fs) path = Some d.
Proof. unfold fopen_rb. by rewrite lookup_insert_eq. Qed.

Lemma fopen_rb_Some (fs : gmap string file) (path : string) (data : list byte) :
  fopen_rb fs path = Some data ↔ fs !! path = Some (File false data).
Proof.
  unfold fopen_rb. destruct (fs !! path) as [[[] d]|]; simpl; split;
    intros H; try done; by simplify_eq.
Qed.

Lemma scan_insert (fs : gmap string file) (path : string) (w : nat) (d : list byte) :
  scan (<[path := File false d]> fs) path w = records w d.
Proof. unfold scan. by rewrite fopen_rb_insert. Qed.

Lemma file_count_records_open (fs : gmap string file) (path : string)
    (w : nat) (data : list byte) :
  fopen_rb fs path = Some data →
  file_count_records fs path w = Z.of_nat (length data / w).
Proof.
  intros H. unfold file_count_records. rewrite H. simpl.
  destruct (Z.ltb_spec (Z.of_nat (length data)) 0); [lia|].
  destruct (Nat.eq_dec w 0) as [->|Hw]; [by destruct (Z.of_nat (length data))|].
  rewrite Z.quot_div_nonneg by lia.
  by rewrite Nat2Z.inj_div.
Qed.

Lemma file_count_records_scan (fs : gmap string file) (path : string) (w : nat) :
  file_count_records fs path w = Z.of_nat (length (scan fs path w)).
Proof.
  unfold scan. destruct (fopen_rb fs path) as [data|] eqn:E.
  - rewrite (file_count_records_open _ _ _ _ E). simpl.
    by rewrite length_records.
  - unfold file_count_records. by rewrite E.
Qed.

Lemma file_find_first_scan {K : Type} (fs : gmap string file) (path : string)
    (w : nat) (pred : list byte → K → bool) (key : K) :
  file_find_first fs path w pred key =
  find_loop (λ buf, pred buf key) (scan fs path w) 0.
Proof.
  unfold file_find_first, scan. by destruct (fopen_rb fs path).
Qed.

(** Within the range of [long], reading at an index is looking up the
    scan. *)
Lemma file_read_at_scan (fs : gmap string file) (path : string) (w : nat)
    (index : Z) :
  0 < w →
  (LONG_MIN ≤ index * Z.of_nat w ≤ LONG_MAX)%Z →
  file_read_at fs path w index =
  match (if (0 <=? index)%Z then scan fs path w !! Z.to_nat index else None) with
  | Some buf => (1%Z, Some buf)
  | None => (0%Z, None)
  end.
Proof.
  intros Hw Hr. unfold file_read_at, scan.
  destruct (fopen_rb fs path) as [data|]; simpl; [|by destruct (0 <=? index)%Z].
  rewrite long_times_size_small by done.
  destruct (Z.leb_spec 0 index) as [Hi|Hi].
  - destruct (Z.ltb_spec (index * Z.of_nat w) 0); [nia|].
    replace (Z.to_nat (index * Z.of_nat w)) with (Z.to_nat index * w) by nia.
    set (i := Z.to_nat index).
    destruct (decide ((i + 1) * w ≤ length data)) as [Hin|Hout].
    + rewrite fread_Some by (try rewrite length_drop; lia).
      by rewrite records_lookup.
    + rewrite fread_None by (rewrite length_drop; lia).
      rewrite lookup_ge_None_2; [done|]. rewrite length_records.
      apply Nat.lt_succ_r. apply Nat.Div0.div_lt_upper_bound. lia.
  - destruct (Z.ltb_spec (index * Z.of_nat w) 0); [done|nia].
Qed.

Lemma file_write_at_open (fs : gmap string file) (path : string) (w : nat)
    (index : Z) (rec data : list byte) :
  fopen_rb fs path = Some data → 0 < w → length rec = w →
  (0 ≤ index)%Z → (index * Z.of_nat w ≤ LONG_MAX)%Z →
  file_write_at fs path w index rec =
  (1%Z, <[path := File false (pwrite data (Z.to_nat index * w) rec)]> fs).
Proof.
  intros H Hw Hrec Hi Hr. unfold file_write_at. rewrite H.
  rewrite long_times_size_small by (unfold LONG_MIN; nia).
  destruct (Z.ltb_spec (index * Z.of_nat w) 0); [nia|].
  destruct (Nat.eqb_spec w 0); [lia|].
  rewrite take_ge by lia.
  by replace (Z.to_nat (index * Z.of_nat w)) with (Z.to_nat index * w) by nia.
Qed.

(** Overwriting a record that exists changes that record only. *)
Lemma records_pwrite_inside (w i : nat) (data rec : list byte) :
  0 < w → length rec = w → (i + 1) * w ≤ length data →
  length (pwrite data (i * w) rec) = length data ∧
  records w (pwrite data (i * w) rec) = <[i := rec]> (records w data).
Proof.
  intros Hw Hrec Hin. unfold pwrite.
  replace (i * w - length data) with 0 by lia. simpl.
  split.
  - rewrite !length_app, length_take, length_drop. lia.
  - assert (Hlen : length (take (i * w) data) = i * w)
      by (rewrite length_take; lia).
    rewrite (records_app w i) by done.
    rewrite records_cons by done.
    rewrite <- (take_drop (i * w) data) at 3.
    rewrite (records_app w i) by done.
    rewrite <- (take_drop w (drop (i * w) data)) at 1.
    rewrite (records_cons w (take w (drop (i * w) data)))
      by (try rewrite length_take, length_drop; lia).
    rewrite drop_drop, Hrec.
    assert (Hi : length (records w (take (i * w) data)) = i).
    { rewrite length_records, Hlen. by apply Nat.div_mul; lia. }
    rewrite insert_app_r_alt by lia.
    rewrite Hi, Nat.sub_diag. reflexivity.
Qed.

(** Writing past the last whole record is not refused: the file grows up
    to the written record. *)
Lemma records_pwrite_outside (w i : nat) (data rec : list byte) :
  0 < w → length rec = w → length data ≤ (i + 1) * w →
  length (pwrite data (i * w) rec) = (i + 1) * w.
Proof.
  intros Hw Hrec Hout. unfold pwrite.
  rewrite !length_app, length_take, length_replicate, length_drop. lia.
Qed.

Lemma file_append_open (fs : gmap string file) (path : string) (w : nat)
    (rec : list byte) (ok : Z) (fs' : gmap string file) :
  0 < w → length rec = w →
  file_append fs path w rec = (ok, fs') → ok ≠ 0%Z →
  fopen_ab fs path = Some (content fs path) ∧ ok = 1%Z ∧
  fs' = <[path := File false (content fs path ++ rec)]> fs.
Proof.
  intros Hw Hrec. unfold file_append, fopen_ab, content.
  destruct (Nat.eqb_spec w 0); [lia|].
  rewrite take_ge by lia.
  destruct (fs !! path) as [[[] d]|]; simpl; intros [= <- <-]; done.
Qed.

Lemma records_extend (w : nat) (a b : list byte) :
  0 < w → take (length (records w a)) (records w (a ++ b)) = records w a.
Proof.
  intros Hw. set (k := length a / w).
  assert (Hle : k * w ≤ length a)
    by (unfold k; rewrite Nat.mul_comm; apply Nat.Div0.mul_div_le).
  assert (Ha : records w a = records w (take (k * w) a))
    by by apply records_whole_prefix.
  assert (Hab : records w (a ++ b) =
                records w (take (k * w) a) ++ records w (drop (k * w) a ++ b)).
  { rewrite <- (records_app w k); [|done|rewrite length_take; lia].
    by rewrite app_assoc, take_drop. }
  rewrite Ha, Hab. apply take_app_length.
Qed.

(** C8, as amended.  [count()] is the file size divided by the record
    width, the number of records a scan delivers; it is 0 when the file is
    absent and also 0 when the file exists and cannot be opened: the code
    has one outcome for both, and reports no fault. *)
Theorem file_count_records_spec (fs : gmap string file) (path : string)
    (w : nat) :
  0 < w →
  (fs !! path = None → file_count_records fs path w = 0%Z) ∧
  (∀ data, fs !! path = Some (File true data) →
     file_count_records fs path w = 0%Z) ∧
  (∀ data, fs !! path = Some (File false data) →
     file_count_records fs path w = (Z.of_nat (length data) / Z.of_nat w)%Z ∧
     file_count_records fs path w = Z.of_nat (length (records w data))).
Proof.
  intros Hw. repeat split.
  - intros H. unfold file_count_records, fopen_rb. by rewrite H.
  - intros data H. unfold file_count_records, fopen_rb. by rewrite H.
  - apply fopen_rb_Some in H.
    rewrite (file_count_records_open _ _ _ _ H). by rewrite Nat2Z.inj_div.
  - apply fopen_rb_Some in H.
    rewrite (file_count_records_open _ _ _ _ H). by rewrite length_records.
Qed.

Lemma file_count_records_spec_witness :
  0 < 84 ∧
  file_count_records locked_users FILE_USER 84 = 0%Z.
Proof.
  split; [lia|].
  destruct (file_count_records_spec locked_users FILE_USER 84 ltac:(lia))
    as (_ & Hlocked & _).
  apply (Hlocked (replicate 84 x41)). reflexivity.
Defined.

(** C8, counterexample.  A user file that exists with one whole record
    and cannot be opened: [count()] returns 0, the very result it gives for
    a file that does not exist, where the claim has it fail with a fault
    distinct from 0. *)
Lemma file_count_records_locked_returns_0 :
  locked_users !! FILE_USER = Some (File true (replicate 84 x41)) ∧
  fopen_rb locked_users FILE_USER = None ∧
  file_count_records locked_users FILE_USER 84 = 0%Z ∧
  file_count_records locked_users FILE_USER 84 =
    file_count_records ∅ FILE_USER 84.
Proof. repeat split. Qed.

Lemma find_loop_index (pred : list byte → bool) (rs : list (list byte))
    (i idx : Z) (buf : list byte) :
  find_loop pred rs i = (idx, Some buf) →
  ∃ k : nat, idx = (i + Z.of_nat k)%Z ∧ rs !! k = Some buf.
Proof.
  revert i. induction rs as [|r rs IH]; intros i; simpl; [done|].
  destruct (pred r).
  - intros [= <- <-]. exists 0. split; [lia|done].
  - intros H. destruct (IH _ H) as (k & -> & Hk).
    exists (S k). split; [lia|done].
Qed.

Lemma records_lookup_inv (w k : nat) (s buf : list byte) :
  0 < w → records w s !! k = Some buf →
  k < length s / w ∧ buf = slice (k * w) w s.
Proof.
  intros Hw Hk. pose proof (lookup_lt_Some _ _ _ Hk) as Hlt.
  rewrite length_records in Hlt. split; [done|].
  pose proof (Nat.Div0.mul_div_le (length s) w).
  rewrite records_lookup in Hk by (try done; nia). by injection Hk.
Qed.

(** C9.  What follows the last whole record of a file is invisible:
    [count()] is the floor of size over width; a scan, [findFirst] with any
    predicate and key, and [readAt] at any index whose byte offset fits
    [long] all give what they give on the file cut after its last whole
    record; and a record that [findFirst] or [readAt] returns has an index
    below the count and lies within that cut. *)
Theorem partial_tail_invisible {K : Type} (fs : gmap string file)
    (path : string) (w : nat) (data : list byte)
    (pred : list byte → K → bool) (key : K) (index : Z) :
  0 < w →
  (LONG_MIN ≤ index * Z.of_nat w ≤ LONG_MAX)%Z →
  let n := length data / w in
  let whole := take (n * w) data in
  let fsA := <[path := File false data]> fs in
  let fsB := <[path := File false whole]> fs in
  file_count_records fsA path w = Z.of_nat n ∧
  file_count_records fsA path w = file_count_records fsB path w ∧
  scan fsA path w = scan fsB path w ∧
  file_find_first fsA path w pred key = file_find_first fsB path w pred key ∧
  file_read_at fsA path w index = file_read_at fsB path w index ∧
  (∀ idx buf, file_find_first fsA path w pred key = (idx, Some buf) →
     (0 ≤ idx < Z.of_nat n)%Z ∧ buf = slice (Z.to_nat idx * w) w whole) ∧
  (∀ buf, file_read_at fsA path w index = (1%Z, Some buf) →
     (0 ≤ index < Z.of_nat n)%Z ∧ buf = slice (Z.to_nat index * w) w whole).
Proof.
  intros Hw Hr n whole fsA fsB.
  assert (Hs : scan fsA path w = scan fsB path w).
  { unfold fsA, fsB. rewrite !scan_insert. by apply records_whole_prefix. }
  assert (Hwhole : length whole / w = n).
  { unfold whole. rewrite length_take.
    pose proof (Nat.Div0.mul_div_le (length data) w). fold n in H.
    rewrite Nat.min_l by (by rewrite Nat.mul_comm).
    apply Nat.div_mul. lia. }
  assert (Hin : ∀ k buf, scan fsA path w !! k = Some buf →
            k < n ∧ buf = slice (k * w) w whole).
  { intros k buf. rewrite Hs. unfold fsB. rewrite scan_insert.
    intros Hk. apply records_lookup_inv in Hk; [|done]. by rewrite Hwhole in Hk. }
  split; [apply file_count_records_open, fopen_rb_insert|].
  split; [by rewrite !file_count_records_scan, Hs|].
  split; [done|].
  split; [by rewrite !file_find_first_scan, Hs|].
  split; [by rewrite !file_read_at_scan, Hs|].
  split.
  - intros idx buf. rewrite file_find_first_scan.
    intros (k & -> & Hk)%find_loop_index.
    destruct (Hin _ _ Hk) as [Hlt ->]. split; [lia|].
    by replace (Z.to_nat (0 + Z.of_nat k)) with k by lia.
  - intros buf. rewrite file_read_at_scan by done.
    destruct (Z.leb_spec 0 index) as [Hi|Hi]; [|done].
    destruct (scan fsA path w !! Z.to_nat index) as [b|] eqn:Hk; [|done].
    intros [= <-]. destruct (Hin _ _ Hk) as [Hlt ->]. split; [lia|done].
Qed.

Lemma partial_tail_invisible_witness :
  0 < 2 ∧ (LONG_MIN ≤ 1 * Z.of_nat 2 ≤ LONG_MAX)%Z ∧
  file_count_records torn_store FILE_STUD 2 = 1%Z ∧
  file_read_at torn_store FILE_STUD 2 1 = (0%Z, None).
Proof.
  split; [lia|]. split; [done|].
  pose proof (partial_tail_invisible (K := list byte) ∅ FILE_STUD 2
                [x01; x02; x03] pred_student_by_id [] 1 ltac:(lia) ltac:(done))
    as (Hc & _ & _ & _ & Hread & _).
  split; [exact Hc | exact Hread].
Defined.

(** C5, as amended.  A successful [append(r)] returns 1, the success
    flag (the index is not returned); it writes [r] at the end of the file,
    creating the file when it does not exist; afterwards [count()] is
    [n + 1], with [n] the count before, and the records below [n] are
    unchanged; when the size of the file was a multiple of the record
    width, [readAt(n)] returns [r]. *)
Theorem file_append_spec (fs fs' : gmap string file) (path : string)
    (w : nat) (rec : list byte) (ok : Z) :
  0 < w → length rec = w →
  file_append fs path w rec = (ok, fs') → ok ≠ 0%Z →
  let n := file_count_records fs path w in
  ok = 1%Z ∧
  fs' = <[path := File false (content fs path ++ rec)]> fs ∧
  file_count_records fs' path w = (n + 1)%Z ∧
  take (Z.to_nat n) (scan fs' path w) = scan fs path w ∧
  (whole_records w (content fs path) → (n * Z.of_nat w ≤ LONG_MAX)%Z →
   file_read_at fs' path w n = (1%Z, Some rec)).
Proof.
  intros Hw Hrec Happ Hok n.
  destruct (file_append_open _ _ _ _ _ _ Hw Hrec Happ Hok) as (Hopen & -> & ->).
  assert (Hscan : scan fs path w = records w (content fs path)).
  { unfold scan, content. unfold fopen_ab in Hopen. unfold fopen_rb.
    destruct (fs !! path) as [[[] d]|]; simpl in *; done. }
  assert (Hn : n = Z.of_nat (length (content fs path) / w)).
  { unfold n. by rewrite file_count_records_scan, Hscan, length_records. }
  split; [done|]. split; [done|]. split; [|split].
  - rewrite (file_count_records_open _ _ _ _ (fopen_rb_insert _ _ _)).
    rewrite Hn, length_app, Hrec.
    replace (length (content fs path) + w)
      with (length (content fs path) + 1 * w) by lia.
    rewrite Nat.div_add by lia. lia.
  - rewrite scan_insert, Hscan, Hn, Nat2Z.id, <- length_records.
    by apply records_extend.
  - intros Hwhole Hr.
    rewrite file_read_at_scan by (unfold LONG_MIN; lia).
    rewrite scan_insert.
    assert (Hk : length (content fs path) = length (content fs path) / w * w).
    { unfold whole_records in Hwhole.
      pose proof (Nat.div_mod_eq (length (content fs path)) w). lia. }
    rewrite (records_app w _ _ _ Hw Hk), (records_one w rec Hw Hrec).
    destruct (Z.leb_spec 0 n); [|lia].
    rewrite Hn, Nat2Z.id, <- length_records.
    by rewrite list_lookup_middle.
Qed.

Lemma file_append_spec_witness :
  0 < 2 ∧ length [x41; x42] = 2 ∧
  fst (file_append two_records FILE_STUD 2 [x41; x42]) = 1%Z ∧
  file_count_records (snd (file_append two_records FILE_STUD 2 [x41; x42]))
    FILE_STUD 2 = 3%Z.
Proof.
  split; [lia|]. split; [reflexivity|].
  pose proof (file_append_spec two_records
                (snd (file_append two_records FILE_STUD 2 [x41; x42]))
                FILE_STUD 2 [x41; x42]
                (fst (file_append two_records FILE_STUD 2 [x41; x42]))
                ltac:(lia) eq_refl eq_refl ltac:(done))
    as (H1 & _ & H3 & _).
  split; [exact H1 | exact H3].
Defined.

(** C5, counterexample.  Appending to a store of two records returns 1
    where the claim has it return the index 2; and after an append to a
    store that ends in a lone byte, [readAt] at the prior count does not
    return the record that was appended. *)
Lemma file_append_returns_flag :
  file_count_records two_records FILE_STUD 2 = 2%Z ∧
  fst (file_append two_records FILE_STUD 2 [x41; x42]) = 1%Z ∧
  file_count_records torn_store FILE_STUD 2 = 1%Z ∧
  file_read_at (snd (file_append torn_store FILE_STUD 2 [x41; x42]))
    FILE_STUD 2 1 = (1%Z, Some [x03; x41]).
Proof. repeat split. Qed.

(** C6, as amended.  For an index whose byte offset fits [long]:
    [readAt] fails at every index at or past the count; [writeAt] at an
    index below the count succeeds and overwrites that record in place,
    the count and every other record unchanged; [writeAt] at or past the
    count of a file that opens is not refused: it succeeds and the file
    grows to [index + 1] records. *)
Theorem read_write_at_bounds (fs : gmap string file) (path : string)
    (w : nat) (index : Z) (rec : list byte) :
  0 < w → length rec = w → (index * Z.of_nat w ≤ LONG_MAX)%Z →
  let n := file_count_records fs path w in
  let r := file_write_at fs path w index rec in
  ((n ≤ index)%Z → file_read_at fs path w index = (0%Z, None)) ∧
  ((0 ≤ index < n)%Z →
     fst r = 1%Z ∧
     file_count_records (snd r) path w = n ∧
     scan (snd r) path w = <[Z.to_nat index := rec]> (scan fs path w) ∧
     ∀ q, q ≠ path → snd r !! q = fs !! q) ∧
  ((n ≤ index)%Z → is_Some (fopen_rb fs path) →
     fst r = 1%Z ∧ file_count_records (snd r) path w = (index + 1)%Z).
Proof.
  intros Hw Hrec Hr n r.
  assert (Hn : n = Z.of_nat (length (scan fs path w)))
    by apply file_count_records_scan.
  split; [|split].
  - intros Hge. rewrite file_read_at_scan by (unfold LONG_MIN; nia).
    destruct (Z.leb_spec 0 index); [|done].
    rewrite lookup_ge_None_2; [done|lia].
  - intros [Hi Hlt].
    destruct (fopen_rb fs path) as [data|] eqn:E.
    2:{ unfold scan in Hn. rewrite E in Hn. simpl in Hn. lia. }
    unfold r. rewrite (file_write_at_open _ _ _ _ _ _ E) by done. simpl.
    assert (Hs : scan fs path w = records w data) by (unfold scan; by rewrite E).
    rewrite Hs, length_records in Hn.
    assert (Hin : (Z.to_nat index + 1) * w ≤ length data).
    { pose proof (Nat.Div0.mul_div_le (length data) w).
      assert (Z.to_nat index + 1 ≤ length data / w) by lia. nia. }
    destruct (records_pwrite_inside w (Z.to_nat index) data rec Hw Hrec Hin)
      as [Hlen Hrecs].
    repeat split.
    + rewrite (file_count_records_open _ _ _ _ (fopen_rb_insert _ _ _)).
      by rewrite Hlen.
    + by rewrite scan_insert, Hs.
    + intros q Hq. by rewrite lookup_insert_ne.
  - intros Hge [data E].
    assert (Hs : scan fs path w = records w data) by (unfold scan; by rewrite E).
    rewrite Hs, length_records in Hn.
    unfold r. rewrite (file_write_at_open _ _ _ _ _ _ E) by (try done; lia).
    simpl. split; [done|].
    rewrite (file_count_records_open _ _ _ _ (fopen_rb_insert _ _ _)).
    rewrite records_pwrite_outside; try done.
    + rewrite Nat.div_mul by lia. lia.
    + pose proof (Nat.div_mod_eq (length data) w).
      pose proof (Nat.mod_upper_bound (length data) w).
      assert (length data / w ≤ Z.to_nat index) by lia. nia.
Qed.

Lemma read_write_at_bounds_witness :
  0 < 2 ∧ length [x41; x42] = 2 ∧ (0 * Z.of_nat 2 ≤ LONG_MAX)%Z ∧
  fst (file_write_at one_record FILE_STUD 2 0 [x41; x42]) = 1%Z ∧
  file_count_records (snd (file_write_at one_record FILE_STUD 2 0 [x41; x42]))
    FILE_STUD 2 = 1%Z.
Proof.
  split; [lia|]. split; [reflexivity|]. split; [done|].
  destruct (read_write_at_bounds one_record FILE_STUD 2 0 [x41; x42]
              ltac:(lia) eq_refl ltac:(done)) as (_ & Hin & _).
  destruct Hin as (H1 & H2 & _); [done|].
  split; [exact H1 | exact H2].
Defined.

(** C6, counterexample.  On a store of one record, [writeAt(5, r)] is not
    refused: it returns 1 and leaves a file of six records, the gap filled
    with zero bytes, where the claim has it fail and leave the store as it
    was. *)
Lemma file_write_at_extends :
  file_count_records one_record FILE_STUD 2 = 1%Z ∧
  fst (file_write_at one_record FILE_STUD 2 5 [x41; x42]) = 1%Z ∧
  snd (file_write_at one_record FILE_STUD 2 5 [x41; x42]) ≠ one_record ∧
  file_count_records (snd (file_write_at one_record FILE_STUD 2 5 [x41; x42]))
    FILE_STUD 2 = 6%Z ∧
  fopen_rb (snd (file_write_at one_record FILE_STUD 2 5 [x41; x42])) FILE_STUD =
    Some [x01; x02; x00; x00; x00; x00; x00; x00; x00; x00; x41; x42].
Proof.
  split; [reflexivity|]. split; [reflexivity|]. split; [|split; reflexivity].
  intros H. apply (f_equal (λ m, file_count_records m FILE_STUD 2)) in H.
  vm_compute in H. discriminate H.
Qed.

(** ** C strings *)

Lemma byte_eqb_spec (c d : byte) : reflect (c = d) (Byte.eqb c d).
Proof.
  destruct (Byte.eqb c d) eqn:E; constructor.
  - by apply Byte.byte_dec_bl.
  - by apply Byte.eqb_false.
Qed.

Lemma byte_val_inj (c d : byte) : byte_val c = byte_val d → c = d.
Proof.
  unfold byte_val. intros H. apply N2Z.inj in H.
  pose proof (Byte.of_to_N c) as Hc. rewrite H, Byte.of_to_N in Hc.
  by simplify_eq.
Qed.

Lemma strlen_le (s : list byte) : strlen s ≤ length s.
Proof.
  induction s as [|c s IH]; simpl; [lia|].
  destruct (Byte.eqb c NUL); lia.
Qed.

Lemma c_str_cons (c : byte) (s : list byte) :
  c_str (c :: s) = if Byte.eqb c NUL then [] else c :: c_str s.
Proof. unfold c_str. simpl. by destruct (Byte.eqb c NUL). Qed.

Lemma length_c_str (s : list byte) : length (c_str s) = strlen s.
Proof. unfold c_str. rewrite length_take. pose proof (strlen_le s). lia. Qed.

Lemma c_str_no_nul (s : list byte) : Forall (λ c, c ≠ NUL) (c_str s).
Proof.
  induction s as [|c s IH]; [constructor|].
  rewrite c_str_cons. destruct (byte_eqb_spec c NUL); [constructor|].
  by constructor.
Qed.

Lemma c_str_app_nul (l r : list byte) :
  Forall (λ c, c ≠ NUL) l → c_str (l ++ NUL :: r) = l.
Proof.
  induction 1 as [|c l Hc Hl IH]; [reflexivity|].
  simpl. rewrite c_str_cons. destruct (byte_eqb_spec c NUL); [done|].
  by rewrite IH.
Qed.

Lemma c_str_clean (l : list byte) :
  Forall (λ c, c ≠ NUL) l → c_str l = l.
Proof.
  induction 1 as [|c l Hc Hl IH]; [reflexivity|].
  rewrite c_str_cons. destruct (byte_eqb_spec c NUL); [done|].
  by rewrite IH.
Qed.

(** [strcmp] returns 0 exactly on equal strings. *)
Lemma strcmp_eq_0 (a b : list byte) :
  strcmp a b = 0%Z ↔ c_str a = c_str b.
Proof.
  revert b. induction a as [|c a IH]; intros b.
  - simpl. destruct b as [|d b]; simpl; [done|].
    rewrite c_str_cons. destruct (byte_eqb_spec d NUL) as [->|Hd]; [done|].
    split; [|done]. intros H. destruct Hd. apply byte_val_inj.
    change (byte_val NUL) with 0%Z. lia.
  - simpl. rewrite c_str_cons.
    destruct (byte_eqb_spec c (hd NUL b)) as [Hcd|Hcd].
    + destruct (byte_eqb_spec c NUL) as [->|Hc].
      * destruct b as [|d b]; [done|]. simpl in Hcd. subst d.
        by rewrite c_str_cons.
      * destruct b as [|d b]; [done|]. simpl in Hcd. subst d. simpl.
        rewrite c_str_cons. destruct (byte_eqb_spec c NUL); [done|].
        rewrite IH. split; [by intros ->|by intros [= ->]].
    + split.
      * intros H. destruct Hcd. apply byte_val_inj. lia.
      * intros H. destruct Hcd.
        destruct (byte_eqb_spec c NUL) as [->|Hc].
        -- destruct b as [|d b]; [done|]. simpl. rewrite c_str_cons in H.
           by destruct (byte_eqb_spec d NUL).
        -- destruct b as [|d b]; [done|]. simpl. rewrite c_str_cons in H.
           destruct (byte_eqb_spec d NUL); by simplify_eq.
Qed.

Lemma strcmp_eqb (a b : list byte) :
  (strcmp a b =? 0)%Z = bool_decide (c_str a = c_str b).
Proof.
  destruct (Z.eqb_spec (strcmp a b) 0) as [H|H].
  - by rewrite bool_decide_eq_true_2 by by apply strcmp_eq_0.
  - rewrite bool_decide_eq_false_2; [done|]. by rewrite <- strcmp_eq_0.
Qed.

(** ** The grade table *)

Lemma grade_to_points_table (g : list byte) :
  grade_to_points g = from_option (λ x, x) Invalid (table_points g).
Proof.
  unfold grade_to_points, table_points, grade_table.
  rewrite !strcmp_eqb.
  repeat match goal with
         | |- context [c_str (lit ?s)] => change (c_str (lit s)) with (lit s)
         end.
  cbn [find fst snd].
  repeat match goal with
         | |- context [bool_decide ?P] =>
             destruct (bool_decide P); [reflexivity|]
         end.
  reflexivity.
Qed.

(** C2.  The grade-to-points function is the fixed table: on each of the
    ten symbols it returns the binary32 value of the listed points (in
    hundredths: 400, 370, 330, 300, 270, 230, 200, 170, 100, 0), a value
    that passes the validity test [0 <= pts]; on every other string, "NA"
    among them, it returns [Invalid], which is below 0 and so fails that
    test, unlike the 0.00 of "F". *)
Theorem grade_to_points_spec (g : list byte) :
  (∀ sym h, (sym, h) ∈ grade_table → c_str g = lit sym →
     grade_to_points g = F32.decimal h 100 ∧
     F32.centi (grade_to_points g) = Some h ∧
     F32.leb F32.zero (grade_to_points g) = true ∧
     F32.ltb (grade_to_points g) F32.zero = false) ∧
  ((∀ sym h, (sym, h) ∈ grade_table → c_str g ≠ lit sym) →
     grade_to_points g = Invalid) ∧
  grade_to_points (lit "NA") = Invalid ∧
  grade_to_points (lit "Z") = Invalid ∧
  F32.leb F32.zero Invalid = false ∧ F32.ltb Invalid F32.zero = true ∧
  Invalid ≠ grade_to_points (lit "F").
Proof.
  split; [|split; [|repeat split; done]].
  - intros sym h Hin Hg. rewrite grade_to_points_table.
    unfold table_points, grade_table in *.
    rewrite Hg.
    repeat (apply elem_of_cons in Hin as [[= -> ->]|Hin];
            [vm_compute; done|]).
    by apply elem_of_nil in Hin.
  - intros Hnot. rewrite grade_to_points_table.
    unfold table_points. unfold grade_table at 1. cbn [find fst snd].
    repeat match goal with
           | |- context [bool_decide (c_str g = lit ?s)] =>
               destruct (decide (c_str g = lit s)) as [Hc|Hc];
               [ exfalso; eapply (Hnot s); [|exact Hc];
                 solve [repeat first [apply list_elem_of_here
                                     | apply list_elem_of_further]]
               | rewrite (bool_decide_eq_false_2 _ Hc); clear Hc ]
           end.
    reflexivity.
Qed.

Lemma grade_to_points_spec_witness :
  ("A-", 370%Z) ∈ grade_table ∧ c_str (lit "A-") = lit "A-" ∧
  F32.centi (grade_to_points (lit "A-")) = Some 370%Z.
Proof.
  assert (Hin : ("A-", 370%Z) ∈ grade_table)
    by (apply list_elem_of_further, list_elem_of_here).
  split; [exact Hin|]. split; [reflexivity|].
  destruct (grade_to_points_spec (lit "A-")) as (Htable & _).
  destruct (Htable "A-" 370%Z Hin eq_refl) as (_ & Hcenti & _).
  exact Hcenti.
Defined.

(** ** Password obfuscation *)

Lemma to_int_small (z : Z) : (0 ≤ z ≤ INT_MAX)%Z → to_int z = z.
Proof.
  unfold to_int, wrap_signed, INT_MAX. intros H.
  rewrite Z.mod_small; lia.
Qed.

Lemma strncpy_lookup (n i : nat) (p : list byte) :
  i < n →
  strncpy n p !! i = Some (if (i <? strlen p)%nat then nth i p NUL else NUL).
Proof.
  intros Hi. unfold strncpy. rewrite lookup_take_lt by done.
  destruct (Nat.ltb_spec i (strlen p)) as [Hlt|Hge].
  - rewrite lookup_app_l by (by rewrite length_c_str).
    unfold c_str. rewrite lookup_take_lt by done.
    pose proof (strlen_le p).
    destruct (lookup_lt_is_Some_2 p i ltac:(lia)) as [x Hx].
    by rewrite Hx, (nth_lookup_Some _ _ NUL _ Hx).
  - rewrite lookup_app_r by (by rewrite length_c_str).
    rewrite length_c_str. apply lookup_replicate_2. lia.
Qed.

Lemma length_strncpy (n : nat) (p : list byte) : length (strncpy n p) = n.
Proof.
  unfold strncpy. rewrite length_take, length_app, length_replicate. lia.
Qed.

(** The stored bytes are the plaintext, cut at 32 bytes and padded with
    zeros, xored with the repeated salt. *)
Lemma obfuscate_padded (p : list byte) :
  (Z.of_nat (strlen p) ≤ INT_MAX)%Z →
  obfuscate p = zip_with xor_byte (strncpy MAX_PASS p) salt_stream.
Proof.
  intros Hn. unfold obfuscate. rewrite to_int_small by lia.
  apply list_eq. intros i.
  rewrite list_lookup_fmap, lookup_zip_with.
  destruct (decide (i < MAX_PASS)) as [Hi|Hi].
  - rewrite lookup_seq_lt by done. simpl.
    rewrite strncpy_lookup by done. simpl.
    replace (Z.of_nat i <? Z.of_nat (strlen p))%Z with (i <? strlen p)%nat
      by (destruct (Nat.ltb_spec i (strlen p)), (Z.ltb_spec (Z.of_nat i) (Z.of_nat (strlen p))); lia).
    assert (Hs : salt_stream !! i = Some (nth (i `mod` 8) SALT NUL)).
    { unfold MAX_PASS in Hi. do 32 (destruct i as [|i]; [reflexivity|]). lia. }
    by rewrite Hs.
  - rewrite lookup_seq_ge by lia. simpl.
    rewrite (lookup_ge_None_2 (strncpy _ _)); [done|].
    rewrite length_strncpy. lia.
Qed.

Lemma strncpy_prefix (n : nat) (p q : list byte) :
  take n (c_str p) = take n (c_str q) → strncpy n p = strncpy n q.
Proof.
  intros H. unfold strncpy. rewrite !take_app, H.
  f_equal. f_equal.
  apply (f_equal length) in H. rewrite !length_take in H. lia.
Qed.

(** C10.  Verification round-trips: [verify_pass(obfuscate(p), p)] holds
    for every plaintext; and for plaintexts shorter than 2^31 the stored
    bytes are the zero-padded first 32 bytes of the plaintext xored with
    the salt, so two plaintexts whose first 32 characters are identical are
    accepted or refused together against any stored password. *)
Theorem verify_pass_obfuscate (p q obf : list byte) :
  verify_pass (obfuscate p) p = true ∧
  ((Z.of_nat (strlen p) ≤ INT_MAX)%Z → (Z.of_nat (strlen q) ≤ INT_MAX)%Z →
   obfuscate p = zip_with xor_byte (strncpy MAX_PASS p) salt_stream ∧
   (take MAX_PASS (c_str p) = take MAX_PASS (c_str q) →
    verify_pass obf p = verify_pass obf q)).
Proof.
  split.
  - unfold verify_pass, memcmp_eq. by apply bool_decide_eq_true_2.
  - intros Hp Hq. split; [by apply obfuscate_padded|].
    intros H. unfold verify_pass.
    rewrite !obfuscate_padded by done.
    by rewrite (strncpy_prefix _ _ _ H).
Qed.

Lemma verify_pass_obfuscate_witness :
  (Z.of_nat (strlen (lit "admin123")) ≤ INT_MAX)%Z ∧
  verify_pass (obfuscate (lit "admin123")) (lit "admin123") = true ∧
  verify_pass (obfuscate (lit "admin123")) (lit "admin123" ++ [NUL; x41]) = true.
Proof.
  destruct (verify_pass_obfuscate (lit "admin123") (lit "admin123" ++ [NUL; x41])
              (obfuscate (lit "admin123"))) as (Hrt & Hpre).
  split; [done|]. split; [exact Hrt|].
  destruct Hpre as (_ & Hsame); [done|done|].
  rewrite <- Hsame; [exact Hrt|reflexivity].
Defined.

(** ** Searching a store by key *)

Lemma find_loop_fst (pred : list byte → bool) (rs : list (list byte)) (i : Z) :
  (0 ≤ i)%Z →
  (fst (find_loop pred rs i) >=? 0)%Z = existsb pred rs ∧
  (fst (find_loop pred rs i) <? 0)%Z = negb (existsb pred rs).
Proof.
  revert i. induction rs as [|r rs IH]; intros i Hi; simpl; [done|].
  destruct (pred r); simpl.
  - split; [destruct (Z.geb_spec i 0)|destruct (Z.ltb_spec i 0)]; done || lia.
  - apply IH. lia.
Qed.

Lemma find_loop_snd (pred : list byte → bool) (rs : list (list byte)) (i : Z)
    (buf : list byte) :
  snd (find_loop pred rs i) = Some buf → buf ∈ rs ∧ pred buf = true.
Proof.
  revert i. induction rs as [|r rs IH]; intros i; simpl; [done|].
  destruct (pred r) eqn:E; simpl.
  - intros [= <-]. split; [apply list_elem_of_here|done].
  - intros H. destruct (IH _ H). split; [by apply list_elem_of_further|done].
Qed.

Lemma find_loop_found (pred : list byte → bool) (rs : list (list byte)) (i : Z) :
  (0 ≤ i)%Z → (0 ≤ fst (find_loop pred rs i))%Z →
  is_Some (snd (find_loop pred rs i)).
Proof.
  revert i. induction rs as [|r rs IH]; intros i Hi; simpl; [lia|].
  destruct (pred r); simpl; [by eexists|]. apply IH. lia.
Qed.

Lemma existsb_key {A K : Type} `{EqDecision K} (pred : A → bool)
    (keyof : A → K) (k : K) (rs : list A) :
  (∀ buf, pred buf = bool_decide (keyof buf = k)) →
  existsb pred rs = bool_decide (k ∈ keyof <$> rs).
Proof.
  intros Hp. induction rs as [|r rs IH].
  - symmetry. apply bool_decide_eq_false_2. by intros ?%elem_of_nil.
  - rewrite fmap_cons. cbn [existsb]. rewrite Hp, IH.
    destruct (decide (keyof r = k)) as [<-|Hne].
    + rewrite bool_decide_eq_true_2 by done. cbn [orb].
      symmetry. apply bool_decide_eq_true_2. apply list_elem_of_here.
    + rewrite bool_decide_eq_false_2 by done. cbn [orb].
      apply bool_decide_ext. rewrite elem_of_cons. split; [by right|].
      by intros [?|?].
Qed.

(** A search by key succeeds exactly when the key is among the keys that
    a scan of the store meets. *)
Lemma file_find_first_key {P K : Type} `{EqDecision K}
    (fs : gmap string file) (path : string) (w : nat)
    (pred : list byte → P → bool) (key : P) (keyof : list byte → K) (k : K) :
  (∀ buf, pred buf key = bool_decide (keyof buf = k)) →
  (fst (file_find_first fs path w pred key) >=? 0)%Z
    = bool_decide (k ∈ keyof <$> scan fs path w) ∧
  (fst (file_find_first fs path w pred key) <? 0)%Z
    = negb (bool_decide (k ∈ keyof <$> scan fs path w)).
Proof.
  intros Hp. rewrite file_find_first_scan.
  destruct (find_loop_fst (λ buf, pred buf key) (scan fs path w) 0 ltac:(lia))
    as [-> ->].
  by rewrite (existsb_key _ keyof k).
Qed.

Lemma pred_student_by_id_key (buf key : list byte) :
  pred_student_by_id buf key = bool_decide (student_key buf = c_str key).
Proof. unfold pred_student_by_id. apply strcmp_eqb. Qed.

Lemma pred_course_by_code_key (buf key : list byte) :
  pred_course_by_code buf key = bool_decide (course_key buf = c_str key).
Proof. unfold pred_course_by_code. apply strcmp_eqb. Qed.

Lemma c_str_strncpy (n : nat) (s : list byte) :
  c_str (strncpy n s) = take n (c_str s).
Proof.
  unfold strncpy. destruct (decide (n ≤ length (c_str s))) as [Hle|Hgt].
  - rewrite take_app_le by done.
    apply c_str_clean. apply Forall_take, c_str_no_nul.
  - rewrite take_app_ge by lia. rewrite (take_ge (c_str s)) by lia.
    rewrite take_replicate.
    replace ((n - length (c_str s)) `min` n) with (S (n - length (c_str s) - 1)) by lia.
    simpl. apply c_str_app_nul, c_str_no_nul.
Qed.

Lemma c_str_strncpy_fits (n : nat) (s : list byte) :
  length s ≤ n → c_str (strncpy n s) = c_str s.
Proof.
  intros H. rewrite c_str_strncpy. apply take_ge.
  rewrite length_c_str. pose proof (strlen_le s). lia.
Qed.

Lemma pred_enr_by_key_key (buf : list byte) (k : EnrKey.t) :
  pred_enr_by_key buf k =
  bool_decide (enrollment_key buf =
               (c_str (EnrKey.sid k), c_str (EnrKey.code k), c_str (EnrKey.term k))).
Proof.
  unfold pred_enr_by_key, enrollment_key. rewrite !strcmp_eqb.
  repeat case_bool_decide; simpl; try done; congruence.
Qed.

(** ** Reading a line *)

Lemma fgets_chars_length (n : nat) (inp : list byte) :
  length (fst (fgets_chars n inp)) ≤ n.
Proof.
  revert inp. induction n as [|n IH]; intros inp; simpl; [lia|].
  destruct inp as [|c rest]; simpl; [lia|].
  destruct (Byte.eqb c NEWLINE); simpl; [lia|].
  specialize (IH rest). destruct (fgets_chars n rest). simpl in *. lia.
Qed.

Lemma length_trim_newline (s : list byte) :
  length (trim_newline s) = length s.
Proof.
  unfold trim_newline.
  destruct (_ && _); [apply length_insert|done].
Qed.

Lemma length_read_line (buf : list byte) (cap : nat) (inp : list byte) :
  0 < cap → cap ≤ length buf → length (fst (read_line buf cap inp)) = length buf.
Proof.
  intros Hc Hb. unfold read_line, fgets.
  destruct inp as [|c rest]; simpl; [apply length_insert|].
  pose proof (fgets_chars_length (cap - 1) (c :: rest)) as Hl.
  destruct (fgets_chars (cap - 1) (c :: rest)) as [l r]. simpl in *.
  rewrite length_trim_newline, length_app. simpl. rewrite length_drop. lia.
Qed.

(** ** Records in memory *)

Lemma slice_app_at (off n : nat) (a r : list byte) :
  length a = off → slice off n (a ++ r) = take n r.
Proof. intros H. unfold slice. by rewrite drop_app_length'. Qed.

Lemma slice_app_head (n : nat) (a r : list byte) :
  length a = n → slice 0 n (a ++ r) = a.
Proof. intros H. unfold slice. rewrite drop_0. by apply take_app_length'. Qed.

Lemma length_put_le (n : nat) (z : Z) : length (put_le n z) = n.
Proof. revert z. induction n as [|n IH]; intros z; simpl; [done|]. by rewrite IH. Qed.

Lemma student_key_image (s : Student.t) :
  length (Student.id s) = MAX_ID →
  student_key (Student.image s) = c_str (Student.id s).
Proof.
  intros H. unfold student_key, Student.view, Student.image. simpl.
  by rewrite slice_app_head.
Qed.

Lemma course_key_image (c : Course.t) :
  length (Course.code c) = MAX_CODE →
  course_key (Course.image c) = c_str (Course.code c).
Proof.
  intros H. unfold course_key, Course.view, Course.image. simpl.
  by rewrite slice_app_head.
Qed.

Lemma enrollment_view_image (e : Enrollment.t) :
  length (Enrollment.studentId e) = MAX_ID →
  length (Enrollment.courseCode e) = MAX_CODE →
  length (Enrollment.term e) = MAX_TERM →
  length (Enrollment.grade e) = 3 →
  Enrollment.view (Enrollment.image e) = e.
Proof.
  intros H1 H2 H3 H4. destruct e as [a b c d]. simpl in *.
  unfold Enrollment.view, Enrollment.image. simpl. f_equal.
  - by rewrite slice_app_head.
  - rewrite slice_app_at by done. by rewrite take_app_length'.
  - rewrite (app_assoc a b), slice_app_at by (rewrite length_app; unfold MAX_ID, MAX_CODE in *; lia).
    by rewrite take_app_length'.
  - rewrite (app_assoc a b), (app_assoc (a ++ b) c), slice_app_at
      by (rewrite !length_app; unfold MAX_ID, MAX_CODE, MAX_TERM in *; lia).
    by apply take_ge; lia.
Qed.

(** ** Files after an update of one path *)

Lemma content_same (fs fs' : gmap string file) (q : string) :
  fs' !! q = fs !! q → content fs' q = content fs q.
Proof. unfold content. by intros ->. Qed.

Lemma scan_same (fs fs' : gmap string file) (q : string) (w : nat) :
  fs' !! q = fs !! q → scan fs' q w = scan fs q w.
Proof. unfold scan, fopen_rb. by intros ->. Qed.

(** Appending a record whose key no scan of the store meets keeps the
    keys distinct, on a store of whole records. *)
Lemma append_fresh_key {K : Type} `{EqDecision K} (fs : gmap string file)
    (path : string) (w : nat) (keyof : list byte → K) (rec : list byte) :
  0 < w → length rec = w →
  let r := file_append fs path w rec in
  (∀ q, q ≠ path → snd r !! q = fs !! q) ∧
  (fst r = 0%Z → snd r = fs) ∧
  (fst r ≠ 0%Z → snd r = <[path := File false (content fs path ++ rec)]> fs) ∧
  (whole_records w (content fs path) →
     whole_records w (content (snd r) path) ∧
     (fst r ≠ 0%Z → scan (snd r) path w = scan fs path w ++ [rec]) ∧
     (keyof rec ∉ keyof <$> scan fs path w →
      NoDup (keyof <$> scan fs path w) →
      NoDup (keyof <$> scan (snd r) path w))).
Proof.
  intros Hw Hrec r. unfold r, file_append, fopen_ab, whole_records.
  destruct (Nat.eqb_spec w 0); [lia|].
  rewrite take_ge by lia.
  assert (Hgrow : ∀ d, length d `mod` w = 0 →
            records w (d ++ rec) = records w d ++ [rec]).
  { intros d Hd.
    rewrite (records_app w (length d / w)), (records_one w rec); try done.
    pose proof (Nat.div_mod_eq (length d) w). lia. }
  assert (Hmod : ∀ d, length d `mod` w = 0 → length (d ++ rec) `mod` w = 0).
  { intros d Hd. rewrite length_app, Hrec.
    rewrite <- Nat.Div0.add_mod_idemp_r, Nat.Div0.mod_same, Nat.add_0_r. done. }
  assert (Hnd : ∀ l, keyof rec ∉ keyof <$> l → NoDup (keyof <$> l) →
            NoDup (keyof <$> (l ++ [rec]))).
  { intros l Hnot Hl. rewrite fmap_app. apply NoDup_app. split; [done|].
    split; [|apply NoDup_singleton].
    intros x Hx Hx'. apply list_elem_of_singleton in Hx'. by subst x. }
  unfold content, scan, fopen_rb.
  destruct (fs !! path) as [[[] d]|] eqn:E; simpl.
  - rewrite E. repeat split; try done.
  - rewrite !lookup_insert_eq. simpl.
    repeat split; try done; try (intros; by rewrite lookup_insert_ne).
    + by apply Hmod.
    + intros _. by apply Hgrow.
    + intros Hnot Hl. rewrite Hgrow by done. by apply Hnd.
  - rewrite !lookup_insert_eq. simpl.
    repeat split; try done; try (intros; by rewrite lookup_insert_ne).
    + rewrite Hrec. apply Nat.Div0.mod_same.
    + intros _. by apply records_one.
    + intros Hnot Hl. rewrite (records_one w rec Hw Hrec).
      apply NoDup_singleton.
Qed.

(** ** Adding students and courses *)

Lemma add_student_spec (atoi : list byte → Z) (inp : list byte)
    (fs : gmap string file) :
  let r := add_student atoi inp fs in
  (c_str (key_line inp).1 ∈ student_keys fs →
     r = (StudentExists, (key_line inp).2, fs)) ∧
  (∀ q, q ≠ FILE_STUD → r.2 !! q = fs !! q) ∧
  (whole_records Student.size (content fs FILE_STUD) →
   NoDup (student_keys fs) →
   whole_records Student.size (content r.2 FILE_STUD) ∧ NoDup (student_keys r.2)).
Proof.
  unfold add_student, key_line, read_int.
  change (Student.id Student.zero) with (replicate MAX_ID NUL).
  pose proof (length_read_line (replicate MAX_ID NUL) MAX_ID inp
                ltac:(unfold MAX_ID; lia) ltac:(by rewrite length_replicate)) as Hid.
  rewrite length_replicate in Hid.
  destruct (read_line (replicate MAX_ID NUL) MAX_ID inp) as [id inp1].
  simpl in Hid.
  destruct (file_find_first_key fs FILE_STUD Student.size pred_student_by_id
              id student_key (c_str id) (λ buf, pred_student_by_id_key buf id))
    as [-> _].
  fold (student_keys fs). case_bool_decide as Hin; cbv beta iota zeta; [done|].
  pose proof (length_read_line (Student.name Student.zero) MAX_NAME inp1
                ltac:(unfold MAX_NAME; lia) ltac:(done)) as Hname.
  destruct (read_line (Student.name Student.zero) MAX_NAME inp1) as [name inp2].
  pose proof (length_read_line (Student.dept Student.zero) MAX_DEPT inp2
                ltac:(unfold MAX_DEPT; lia) ltac:(done)) as Hdept.
  destruct (read_line (Student.dept Student.zero) MAX_DEPT inp2) as [dept inp3].
  destruct (read_line (replicate 64 NUL) 64 inp3) as [line inp4].
  pose proof (length_read_line (Student.email Student.zero) MAX_EMAIL inp4
                ltac:(unfold MAX_EMAIL; lia) ltac:(done)) as Hemail.
  destruct (read_line (Student.email Student.zero) MAX_EMAIL inp4) as [email inp5].
  simpl in Hname, Hdept, Hemail.
  set (s := Student.Make id name dept (atoi line) email).
  assert (Hlen : length (Student.image s) = Student.size).
  { unfold Student.image, s.
    cbn [Student.id Student.name Student.dept Student.batch Student.email].
    rewrite !length_app, length_put_le, Hid, Hname, Hdept, Hemail. reflexivity. }
  destruct (append_fresh_key fs FILE_STUD Student.size student_key
              (Student.image s) ltac:(unfold Student.size; lia) Hlen)
    as (Hoth & _ & _ & Hwhole).
  rewrite (student_key_image s Hid) in Hwhole.
  destruct (file_append fs FILE_STUD Student.size (Student.image s)) as [ok fs'].
  cbn [fst snd] in *.
  assert (Hsnd : (if (ok =? 0)%Z then (StudentWriteError, inp5, fs')
                  else (StudentAdded, inp5, fs')).2 = fs')
    by by destruct (ok =? 0)%Z.
  rewrite Hsnd. split; [done|]. split; [done|].
  intros Hw Hnd. destruct (Hwhole Hw) as (Hw' & _ & Hnd').
  split; [done|]. by apply Hnd'.
Qed.

Lemma add_course_spec (atof : list byte → spec_float) (inp : list byte)
    (fs : gmap string file) :
  let r := add_course atof inp fs in
  (c_str (key_line inp).1 ∈ course_keys fs →
     r = (CourseExists, (key_line inp).2, fs)) ∧
  (∀ q, q ≠ FILE_COURSE → r.2 !! q = fs !! q) ∧
  (whole_records Course.size (content fs FILE_COURSE) →
   NoDup (course_keys fs) →
   whole_records Course.size (content r.2 FILE_COURSE) ∧ NoDup (course_keys r.2)).
Proof.
  unfold add_course, key_line, read_float.
  change (Course.code Course.zero) with (replicate MAX_ID NUL).
  change MAX_CODE with MAX_ID.
  pose proof (length_read_line (replicate MAX_ID NUL) MAX_ID inp
                ltac:(unfold MAX_ID; lia) ltac:(by rewrite length_replicate)) as Hid.
  rewrite length_replicate in Hid.
  destruct (read_line (replicate MAX_ID NUL) MAX_ID inp) as [code inp1].
  simpl in Hid.
  destruct (file_find_first_key fs FILE_COURSE Course.size pred_course_by_code
              code course_key (c_str code) (λ buf, pred_course_by_code_key buf code))
    as [-> _].
  fold (course_keys fs). case_bool_decide as Hin; cbv beta iota zeta; [done|].
  pose proof (length_read_line (Course.title Course.zero) MAX_TITLE inp1
                ltac:(unfold MAX_TITLE; lia) ltac:(done)) as Htitle.
  destruct (read_line (Course.title Course.zero) MAX_TITLE inp1) as [title inp2].
  destruct (read_line (replicate 64 NUL) 64 inp2) as [line inp3].
  pose proof (length_read_line (Course.dept Course.zero) MAX_DEPT inp3
                ltac:(unfold MAX_DEPT; lia) ltac:(done)) as Hdept.
  destruct (read_line (Course.dept Course.zero) MAX_DEPT inp3) as [dept inp4].
  pose proof (length_read_line (Course.instructorId Course.zero) MAX_ID inp4
                ltac:(unfold MAX_ID; lia) ltac:(done)) as Hins.
  destruct (read_line (Course.instructorId Course.zero) MAX_ID inp4) as [ins inp5].
  simpl in Htitle, Hdept, Hins.
  set (c := Course.Make code title (atof line) dept ins).
  assert (Hlen : length (Course.image c) = Course.size).
  { unfold Course.image, c.
    cbn [Course.code Course.title Course.credit Course.dept Course.instructorId].
    rewrite !length_app, length_put_le, Hid, Htitle, Hdept, Hins. reflexivity. }
  destruct (append_fresh_key fs FILE_COURSE Course.size course_key
              (Course.image c) ltac:(unfold Course.size; lia) Hlen)
    as (Hoth & _ & _ & Hwhole).
  rewrite (course_key_image c Hid) in Hwhole.
  destruct (file_append fs FILE_COURSE Course.size (Course.image c)) as [ok fs'].
  cbn [fst snd] in *.
  assert (Hsnd : (if (ok =? 0)%Z then (CourseWriteError, inp5, fs')
                  else (CourseAdded, inp5, fs')).2 = fs')
    by by destruct (ok =? 0)%Z.
  rewrite Hsnd. split; [done|]. split; [done|].
  intros Hw Hnd. destruct (Hwhole Hw) as (Hw' & _ & Hnd').
  split; [done|]. by apply Hnd'.
Qed.

Lemma run_add_invariant (atoi : list byte → Z) (atof : list byte → spec_float)
    (op : add_op) (inp : list byte) (fs : gmap string file) :
  stores_whole fs → keys_unique fs →
  stores_whole (run_add atoi atof op inp fs).2 ∧
  keys_unique (run_add atoi atof op inp fs).2.
Proof.
  intros [Hws Hwc] [Hns Hnc]. unfold stores_whole, keys_unique.
  destruct op; simpl.
  - destruct (add_student_spec atoi inp fs) as (_ & Hoth & Hinv).
    destruct (Hinv Hws Hns) as [Hws' Hns'].
    assert (Hc : (add_student atoi inp fs).2 !! FILE_COURSE = fs !! FILE_COURSE)
      by by apply Hoth.
    unfold course_keys. rewrite (content_same _ _ _ Hc), (scan_same _ _ _ _ Hc).
    done.
  - destruct (add_course_spec atof inp fs) as (_ & Hoth & Hinv).
    destruct (Hinv Hwc Hnc) as [Hwc' Hnc'].
    assert (Hs : (add_course atof inp fs).2 !! FILE_STUD = fs !! FILE_STUD)
      by by apply Hoth.
    unfold student_keys. rewrite (content_same _ _ _ Hs), (scan_same _ _ _ _ Hs).
    done.
Qed.

(** C3.  Adding a record whose key equals the key of a record already in
    the store is refused with the duplicate message and leaves every store
    exactly as it was; hence, on stores of whole records, if the keys of
    each store are distinct before a sequence of add operations they are
    distinct after it. *)
Theorem add_preserves_unique_keys (atoi : list byte → Z)
    (atof : list byte → spec_float) (ops : list add_op) (inp : list byte)
    (fs : gmap string file) :
  (∀ op, c_str (key_line inp).1 ∈ keys_of op fs →
     run_add atoi atof op inp fs = (duplicate_message op, (key_line inp).2, fs)) ∧
  (stores_whole fs → keys_unique fs →
     keys_unique (run_adds atoi atof ops inp fs).2).
Proof.
  split.
  - intros [] Hin; simpl.
    + by apply add_student_spec.
    + by apply add_course_spec.
  - intros Hw Hu.
    cut (stores_whole (run_adds atoi atof ops inp fs).2 ∧
         keys_unique (run_adds atoi atof ops inp fs).2); [by intros []|].
    revert inp fs Hw Hu. induction ops as [|op ops IH]; intros inp fs Hw Hu.
    + done.
    + simpl. destruct (run_add_invariant atoi atof op inp fs Hw Hu) as [Hw' Hu'].
      destruct (run_add atoi atof op inp fs) as [[msg inp'] fs'].
      by apply IH.
Qed.

Lemma add_preserves_unique_keys_witness :
  c_str (key_line (lit "S1" ++ [NEWLINE])).1 ∈ keys_of AddStudent scenario_fs ∧
  stores_whole scenario_fs ∧ keys_unique scenario_fs ∧
  run_add (λ _, 0%Z) (λ _, F32.zero) AddStudent (lit "S1" ++ [NEWLINE]) scenario_fs
    = (StudentExists, [], scenario_fs) ∧
  keys_unique
    (run_adds (λ _, 0%Z) (λ _, F32.zero) [AddStudent; AddCourse]
       (lit "S1" ++ [NEWLINE]) scenario_fs).2.
Proof.
  assert (Hin : c_str (key_line (lit "S1" ++ [NEWLINE])).1
                  ∈ keys_of AddStudent scenario_fs)
    by (apply (bool_decide_unpack _); vm_compute; exact I).
  assert (Hw : stores_whole scenario_fs) by (split; vm_compute; reflexivity).
  assert (Hu : keys_unique scenario_fs)
    by (split; apply (bool_decide_unpack _); vm_compute; exact I).
  destruct (add_preserves_unique_keys (λ _, 0%Z) (λ _, F32.zero)
              [AddStudent; AddCourse] (lit "S1" ++ [NEWLINE]) scenario_fs)
    as [Hdup Hinv].
  split; [exact Hin|]. split; [exact Hw|]. split; [exact Hu|].
  split; [exact (Hdup AddStudent Hin) | exact (Hinv Hw Hu)].
Defined.

(** ** Enrolling *)

Lemma enroll_request_lengths (inp : list byte) :
  let e := (enroll_request inp).1 in
  length (Enrollment.studentId e) = MAX_ID ∧
  length (Enrollment.courseCode e) = MAX_CODE ∧
  length (Enrollment.term e) = MAX_TERM ∧
  length (Enrollment.grade e) = 3.
Proof.
  unfold enroll_request.
  pose proof (length_read_line (Enrollment.studentId Enrollment.zero) MAX_ID inp
                ltac:(unfold MAX_ID; lia) ltac:(done)) as H1.
  destruct (read_line (Enrollment.studentId Enrollment.zero) MAX_ID inp)
    as [sid inp1].
  pose proof (length_read_line (Enrollment.courseCode Enrollment.zero) MAX_CODE inp1
                ltac:(unfold MAX_CODE; lia) ltac:(done)) as H2.
  destruct (read_line (Enrollment.courseCode Enrollment.zero) MAX_CODE inp1)
    as [code inp2].
  pose proof (length_read_line (Enrollment.term Enrollment.zero) MAX_TERM inp2
                ltac:(unfold MAX_TERM; lia) ltac:(done)) as H3.
  destruct (read_line (Enrollment.term Enrollment.zero) MAX_TERM inp2)
    as [term inp3].
  done.
Qed.

Lemma enrollment_key_request (inp : list byte) :
  let e := (enroll_request inp).1 in
  enrollment_key (Enrollment.image e) =
  (c_str (Enrollment.studentId e), c_str (Enrollment.courseCode e),
   c_str (Enrollment.term e)).
Proof.
  intros e. destruct (enroll_request_lengths inp) as (H1 & H2 & H3 & H4).
  unfold enrollment_key. by rewrite enrollment_view_image.
Qed.

(** The message and the file system after [enroll_student], by the three
    checks in the order the source makes them. *)
Lemma enroll_student_result (inp : list byte) (fs : gmap string file) :
  let e := (enroll_request inp).1 in
  let r := enroll_student inp fs in
  (r.1.1, r.2) =
    (if bool_decide (c_str (Enrollment.studentId e) ∈ student_keys fs) then
       if bool_decide (c_str (Enrollment.courseCode e) ∈ course_keys fs) then
         if bool_decide (enrollment_key (Enrollment.image e) ∈ enrollment_keys fs)
         then (AlreadyEnrolled, fs)
         else
           let a := file_append fs FILE_ENR Enrollment.size (Enrollment.image e) in
           (if (a.1 =? 0)%Z then EnrollmentWriteError else EnrollmentAdded, a.2)
       else (CourseNotFound, fs)
     else (StudentNotFound, fs)) ∧
  (r.1.1 ≠ StudentNotFound → r.1.1 ≠ CourseNotFound →
   r.1.2 = (enroll_request inp).2).
Proof.
  intros e r. pose proof (enrollment_key_request inp) as Hkey.
  pose proof (enroll_request_lengths inp) as (H1 & H2 & H3 & _).
  fold e in Hkey, H1, H2, H3. revert Hkey H1 H2 H3.
  unfold r, e, enroll_student, enroll_request.
  destruct (read_line (Enrollment.studentId Enrollment.zero) MAX_ID inp)
    as [sid inp1].
  destruct (file_find_first_key fs FILE_STUD Student.size pred_student_by_id
              sid student_key (c_str sid) (λ buf, pred_student_by_id_key buf sid))
    as [_ ->].
  fold (student_keys fs).
  destruct (read_line (Enrollment.courseCode Enrollment.zero) MAX_CODE inp1)
    as [code inp2].
  destruct (file_find_first_key fs FILE_COURSE Course.size pred_course_by_code
              code course_key (c_str code) (λ buf, pred_course_by_code_key buf code))
    as [_ ->].
  fold (course_keys fs).
  destruct (read_line (Enrollment.term Enrollment.zero) MAX_TERM inp2)
    as [term inp3].
  cbn [fst snd Enrollment.studentId Enrollment.courseCode Enrollment.term].
  intros Hkey H1 H2 H3.
  case_bool_decide; cbn [negb]; [|done].
  case_bool_decide; cbn [negb]; [|done].
  set (e0 := Enrollment.Make sid code term _) in *.
  set (key := EnrKey.Make _ _ _).
  destruct (file_find_first_key fs FILE_ENR Enrollment.size pred_enr_by_key
              key enrollment_key (enrollment_key (Enrollment.image e0)))
    as [-> _].
  { intros buf. rewrite pred_enr_by_key_key, Hkey. unfold key.
    cbn [EnrKey.sid EnrKey.code EnrKey.term].
    by rewrite !c_str_strncpy_fits by lia. }
  fold (enrollment_keys fs).
  case_bool_decide; [done|].
  destruct (file_append fs FILE_ENR Enrollment.size (Enrollment.image e0))
    as [ok fs'].
  cbn [fst snd]. by destruct (ok =? 0)%Z.
Qed.

(** C4.  [enroll_student] appends the requested enrollment only when its
    student id is the key of a student record, its course code is the key
    of a course record and no enrollment has its (student, course, term);
    in every other case it answers with the rejection and no store changes.
    On an enrollment store of whole records, asking again for an enrollment
    that was just added is rejected as already enrolled. *)
Theorem enroll_student_spec (inp : list byte) (fs : gmap string file) :
  let e := (enroll_request inp).1 in
  let r := enroll_student inp fs in
  let admissible :=
    c_str (Enrollment.studentId e) ∈ student_keys fs ∧
    c_str (Enrollment.courseCode e) ∈ course_keys fs ∧
    enrollment_key (Enrollment.image e) ∉ enrollment_keys fs in
  (r.2 ≠ fs → r.1.1 = EnrollmentAdded) ∧
  (r.1.1 = EnrollmentAdded →
     admissible ∧
     r.2 = <[FILE_ENR := File false (content fs FILE_ENR ++ Enrollment.image e)]> fs) ∧
  (¬ admissible →
     (r.1.1 = StudentNotFound ∨ r.1.1 = CourseNotFound ∨ r.1.1 = AlreadyEnrolled) ∧
     r.2 = fs) ∧
  (r.1.1 = EnrollmentAdded →
   whole_records Enrollment.size (content fs FILE_ENR) →
   enroll_student inp r.2 = (AlreadyEnrolled, r.1.2, r.2)).
Proof.
  intros e r admissible.
  destruct (enroll_student_result inp fs) as [Hres Hinp].
  fold e r in Hres, Hinp.
  destruct (enroll_request_lengths inp) as (H1 & H2 & H3 & H4). fold e in H1, H2, H3, H4.
  assert (Hlen : length (Enrollment.image e) = Enrollment.size).
  { unfold Enrollment.image. rewrite !length_app, H1, H2, H3, H4. reflexivity. }
  destruct (append_fresh_key fs FILE_ENR Enrollment.size enrollment_key
              (Enrollment.image e) ltac:(unfold Enrollment.size; lia) Hlen)
    as (Hoth & Hfail & Hok & Hwhole).
  unfold admissible.
  destruct (decide (c_str (Enrollment.studentId e) ∈ student_keys fs)) as [Hs|Hs].
  2:{ rewrite bool_decide_eq_false_2 in Hres by done.
      injection Hres as Hm Hf. rewrite Hm, Hf.
      repeat split; solve [done | tauto | by left]. }
  destruct (decide (c_str (Enrollment.courseCode e) ∈ course_keys fs)) as [Hc|Hc].
  2:{ rewrite bool_decide_eq_true_2, bool_decide_eq_false_2 in Hres by done.
      injection Hres as Hm Hf. rewrite Hm, Hf.
      repeat split; solve [done | tauto | by (right; left)]. }
  destruct (decide (enrollment_key (Enrollment.image e) ∈ enrollment_keys fs))
    as [Hk|Hk].
  { rewrite !bool_decide_eq_true_2 in Hres by done.
    injection Hres as Hm Hf. rewrite Hm, Hf.
    repeat split; solve [done | tauto | by (right; right)]. }
  rewrite !bool_decide_eq_true_2, bool_decide_eq_false_2 in Hres by done.
  cbv zeta in Hres.
  destruct (Z.eqb_spec (file_append fs FILE_ENR Enrollment.size (Enrollment.image e)).1 0)
    as [H0|H0]; injection Hres as Hm Hf.
  { rewrite Hm, Hf, (Hfail H0). repeat split; solve [done | tauto]. }
  rewrite Hm, Hf, (Hok H0). split; [done|]. split; [done|]. split; [tauto|].
  intros _ Hw.
  destruct (Hwhole Hw) as (_ & Hscan & _). specialize (Hscan H0).
  rewrite (Hok H0) in Hscan.
  set (fs' := <[FILE_ENR := _]> fs) in *.
  destruct (enroll_student_result inp fs') as [Hres' Hinp'].
  fold e in Hres'.
  assert (Hs' : student_keys fs' = student_keys fs).
  { unfold student_keys. f_equal. apply scan_same. by apply lookup_insert_ne. }
  assert (Hc' : course_keys fs' = course_keys fs).
  { unfold course_keys. f_equal. apply scan_same. by apply lookup_insert_ne. }
  assert (Hk' : enrollment_key (Enrollment.image e) ∈ enrollment_keys fs').
  { unfold enrollment_keys. rewrite Hscan, fmap_app.
    apply elem_of_app. right. apply list_elem_of_here. }
  rewrite Hs', Hc', !bool_decide_eq_true_2 in Hres' by done.
  injection Hres' as Hm' Hf'.
  rewrite Hinp by (rewrite Hm; done).
  rewrite <- Hinp' by (rewrite Hm'; done).
  destruct (enroll_student inp fs') as [[m i] f]. simpl in *. by subst.
Qed.

Lemma enroll_student_spec_witness :
  (enroll_student (lit "S2" ++ [NEWLINE] ++ lit "C2" ++ [NEWLINE] ++ lit "T1" ++ [NEWLINE])
     scenario_fs).1.1 = EnrollmentAdded ∧
  whole_records Enrollment.size (content scenario_fs FILE_ENR) ∧
  (enroll_student (lit "S2" ++ [NEWLINE] ++ lit "C2" ++ [NEWLINE] ++ lit "T1" ++ [NEWLINE])
     (enroll_student (lit "S2" ++ [NEWLINE] ++ lit "C2" ++ [NEWLINE] ++ lit "T1" ++ [NEWLINE])
        scenario_fs).2).1.1 = AlreadyEnrolled.
Proof.
  assert (Hadd : (enroll_student
                    (lit "S2" ++ [NEWLINE] ++ lit "C2" ++ [NEWLINE] ++ lit "T1" ++ [NEWLINE])
                    scenario_fs).1.1 = EnrollmentAdded)
    by (vm_compute; reflexivity).
  assert (Hw : whole_records Enrollment.size (content scenario_fs FILE_ENR))
    by (vm_compute; reflexivity).
  destruct (enroll_student_spec
              (lit "S2" ++ [NEWLINE] ++ lit "C2" ++ [NEWLINE] ++ lit "T1" ++ [NEWLINE])
              scenario_fs) as (_ & _ & _ & Hagain).
  split; [exact Hadd|]. split; [exact Hw|].
  by rewrite (Hagain Hadd Hw).
Defined.

(** ** Grades that count *)

(** The validity test of the source, [0 <= pts], holds exactly for the
    symbols of the table. *)
Lemma grade_to_points_valid (g : list byte) :
  match table_points g with
  | Some p =>
      grade_to_points g = p ∧ F32.leb F32.zero p = true ∧
      F32.ltb p F32.zero = false
  | None =>
      grade_to_points g = Invalid ∧
      F32.leb F32.zero (grade_to_points g) = false ∧
      F32.ltb (grade_to_points g) F32.zero = true
  end.
Proof.
  rewrite grade_to_points_table. unfold table_points, grade_table.
  cbn [find fst snd].
  repeat match goal with
         | |- context [bool_decide ?P] =>
             destruct (bool_decide P); [vm_compute; done|]
         end.
  vm_compute. done.
Qed.

(** ** Looking a record up *)

Lemma find_loop_find (pred : list byte → bool) (rs : list (list byte)) (i : Z) :
  (0 ≤ i)%Z →
  (find_loop pred rs i).2 = find pred rs ∧
  ((find_loop pred rs i).1 >=? 0)%Z =
    match find pred rs with Some _ => true | None => false end.
Proof.
  revert i. induction rs as [|r rs IH]; intros i Hi; simpl; [done|].
  destruct (pred r); simpl.
  - split; [done|]. destruct (Z.geb_spec i 0); [done|lia].
  - apply IH. lia.
Qed.

Lemma find_pointwise {A : Type} (f g : A → bool) (l : list A) :
  (∀ x, f x = g x) → find f l = find g l.
Proof.
  intros H. induction l as [|x l IH]; simpl; [done|]. by rewrite H, IH.
Qed.

Lemma file_find_course (fs : gmap string file) (code : list byte) :
  let r := file_find_first fs FILE_COURSE Course.size pred_course_by_code code in
  r.2 = find_course fs code ∧
  (r.1 >=? 0)%Z = match find_course fs code with Some _ => true | None => false end.
Proof.
  intros r. unfold r, find_course. rewrite file_find_first_scan.
  rewrite (find_pointwise _ (λ buf, pred_course_by_code buf code))
    by (intros; symmetry; apply pred_course_by_code_key).
  by apply find_loop_find.
Qed.

(** ** Transcript *)

(** One turn of the loop adds the entry of the record, if it has one for
    this student, to both totals. *)
Lemma transcript_body_totals (fs : gmap string file) (sid : list byte)
    (st : tstate) (buf : list byte) :
  let st' := transcript_body fs sid st buf in
  let entry :=
    if bool_decide (c_str (Enrollment.studentId (Enrollment.view buf)) = c_str sid)
    then graded_entry fs buf else None in
  ts_totalCred st' =
    from_option (λ x, F32.add (ts_totalCred st) x.2) (ts_totalCred st) entry ∧
  ts_totalPts st' =
    from_option (λ x, F32.add (ts_totalPts st) (F32.mul x.1.2 x.2))
      (ts_totalPts st) entry.
Proof.
  unfold transcript_body, graded_entry. rewrite strcmp_eqb.
  case_bool_decide; [|done].
  destruct (file_find_course fs
              (Enrollment.courseCode (Enrollment.view buf))) as [Hout Hidx].
  destruct (file_find_first fs FILE_COURSE Course.size pred_course_by_code
              (Enrollment.courseCode (Enrollment.view buf))) as [idx out].
  simpl in Hout, Hidx. rewrite Hidx, Hout.
  destruct (find_course fs _) as [cb|]; simpl; [|done].
  pose proof (grade_to_points_valid
                (Enrollment.grade (Enrollment.view buf))) as Hg.
  destruct (table_points _) as [p|]; simpl.
  - destruct Hg as (Hgp & Hleb & _). simpl in Hgp. by rewrite Hgp, Hleb.
  - destruct Hg as (_ & Hleb & _). simpl in Hleb. by rewrite Hleb.
Qed.

Lemma transcript_loop_totals (fs : gmap string file) (sid : list byte)
    (rs : list (list byte)) (st : tstate) :
  let st' := foldl (transcript_body fs sid) st rs in
  let entries :=
    omap (λ buf,
            if bool_decide (c_str (Enrollment.studentId (Enrollment.view buf)) = c_str sid)
            then graded_entry fs buf else None) rs in
  ts_totalCred st' = foldl (λ acc x, F32.add acc x.2) (ts_totalCred st) entries ∧
  ts_totalPts st' =
    foldl (λ acc x, F32.add acc (F32.mul x.1.2 x.2)) (ts_totalPts st) entries.
Proof.
  revert st. induction rs as [|buf rs IH]; intros st; [done|].
  cbn [foldl omap list_omap].
  destruct (transcript_body_totals fs sid st buf) as [Hc Hp].
  destruct (IH (transcript_body fs sid st buf)) as [-> ->].
  rewrite Hc, Hp.
  by destruct (if bool_decide _ then graded_entry fs buf else None).
Qed.

Lemma graded_entry_valid (fs : gmap string file) (buf : list byte)
    (x : list byte * spec_float * spec_float) :
  graded_entry fs buf = Some x →
  table_points (Enrollment.grade (Enrollment.view buf)) = Some x.1.2 ∧
  x.1.2 ≠ Invalid ∧ F32.leb F32.zero x.1.2 = true.
Proof.
  unfold graded_entry. destruct (find_course fs _) as [cb|]; simpl; [|done].
  pose proof (grade_to_points_valid (Enrollment.grade (Enrollment.view buf))) as Hg.
  destruct (table_points _) as [p|]; simpl; [|done].
  intros [= <-]. simpl. destruct Hg as (_ & Hleb & _).
  split; [done|]. split; [|done]. intros ->. by vm_compute in Hleb.
Qed.

(** C1.  When the enrollment file opens, the transcript of a student is
    computed from that student's enrollments in store order: the totals add
    up [points * credit] and [credit] over the entries whose course resolves
    and whose grade is in the table, never over an Invalid grade; the last
    line is the CGPA [totalPts / totalCred] when the total of credits is
    positive, and the notice of no graded credits otherwise, in particular
    when nothing was accumulated.  (When the file does not open the function
    stops at once with the notice of no enrollments.)  In the scenario of the
    specification the CGPA of S1 is [(4.00*3 + 3.30*3) / 6] in binary32,
    which prints as 3.65 over 6.0 credits. *)
Theorem transcript_for_student_cgpa (fs : gmap string file) (sid : list byte) :
  match fopen_rb fs FILE_ENR with
  | Some _ =>
      ∃ rows, transcript_for_student fs sid =
              TReport rows (cgpa_of (student_entries fs sid))
  | None => transcript_for_student fs sid = TNoEnrollments
  end ∧
  Forall (λ x, x.1.2 ≠ Invalid ∧ F32.leb F32.zero x.1.2 = true)
    (student_entries fs sid) ∧
  (F32.ltb F32.zero (total_credits (student_entries fs sid)) = true →
   cgpa_of (student_entries fs sid) =
   CGPA (F32.div (total_points (student_entries fs sid))
           (total_credits (student_entries fs sid)))
        (total_credits (student_entries fs sid))) ∧
  (student_entries fs sid = [] →
   cgpa_of (student_entries fs sid) = NoGradedCredits) ∧
  ∃ rows gpa cred,
    transcript_for_student scenario_fs (lit "S1") = TReport rows (CGPA gpa cred) ∧
    gpa = F32.div
            (F32.add (F32.add F32.zero (F32.mul (F32.decimal 400 100) (F32.of_Z 3)))
               (F32.mul (F32.decimal 330 100) (F32.of_Z 3)))
            (F32.add (F32.add F32.zero (F32.of_Z 3)) (F32.of_Z 3)) ∧
    F32.centi gpa = Some 365%Z ∧ F32.centi cred = Some 600%Z.
Proof.
  split; [|split; [|split; [|split]]].
  - unfold transcript_for_student, student_entries, scan, cgpa_of,
      total_credits, total_points.
    destruct (fopen_rb fs FILE_ENR) as [data|]; [|done].
    cbn [from_option]. eexists.
    destruct (transcript_loop_totals fs sid (records Enrollment.size data)
                (TState (replicate Course.size NUL) F32.zero F32.zero []))
      as [Hc Hp].
    cbv zeta in Hc, Hp. cbn [ts_totalCred ts_totalPts] in Hc, Hp.
    rewrite Hc, Hp. reflexivity.
  - unfold student_entries. apply Forall_forall. intros x Hx.
    apply list_elem_of_omap in Hx as (buf & _ & Hx).
    case_bool_decide; [|done].
    by destruct (graded_entry_valid _ _ _ Hx) as (_ & ? & ?).
  - intros H. unfold cgpa_of. by rewrite H.
  - intros ->. reflexivity.
  - do 3 eexists. split; [vm_compute; reflexivity|].
    split; [vm_compute; reflexivity|]. split; reflexivity.
Qed.

Lemma transcript_for_student_cgpa_witness :
  F32.ltb F32.zero (total_credits (student_entries scenario_fs (lit "S1"))) = true ∧
  cgpa_of (student_entries scenario_fs (lit "S1")) =
    CGPA (F32.div (total_points (student_entries scenario_fs (lit "S1")))
            (total_credits (student_entries scenario_fs (lit "S1"))))
         (total_credits (student_entries scenario_fs (lit "S1"))).
Proof.
  assert (Hpos : F32.ltb F32.zero
                   (total_credits (student_entries scenario_fs (lit "S1"))) = true)
    by (vm_compute; reflexivity).
  destruct (transcript_for_student_cgpa scenario_fs (lit "S1"))
    as (_ & _ & Hcgpa & _).
  split; [exact Hpos | exact (Hcgpa Hpos)].
Defined.

(** ** Totals per student *)

Lemma first_seen_snoc (l : list (list byte)) (x : list byte) :
  first_seen (l ++ [x]) =
  if bool_decide (x ∈ first_seen l) then first_seen l else first_seen l ++ [x].
Proof. unfold first_seen. by rewrite foldl_app. Qed.

Lemma elem_of_first_seen (l : list (list byte)) (x : list byte) :
  x ∈ first_seen l ↔ x ∈ l.
Proof.
  induction l as [|y l IH] using rev_ind; [done|].
  rewrite first_seen_snoc, elem_of_app, list_elem_of_singleton.
  case_bool_decide as Hy.
  - rewrite IH. split; [by left|]. intros [?| ->]; [done|]. by apply IH.
  - by rewrite elem_of_app, list_elem_of_singleton, IH.
Qed.

Lemma NoDup_first_seen (l : list (list byte)) : NoDup (first_seen l).
Proof.
  induction l as [|y l IH] using rev_ind; [constructor|].
  rewrite first_seen_snoc. case_bool_decide as Hy; [done|].
  apply NoDup_app. split; [done|]. split; [|apply NoDup_singleton].
  intros x Hx ->%list_elem_of_singleton. done.
Qed.

Lemma entries_of_snoc (sid : list byte)
    (l : list (list byte * spec_float * spec_float))
    (x : list byte * spec_float * spec_float) :
  entries_of sid (l ++ [x]) =
  if bool_decide (x.1.1 = sid) then entries_of sid l ++ [x] else entries_of sid l.
Proof.
  unfold entries_of. rewrite filter_app, filter_cons, filter_nil.
  case_bool_decide as H.
  - by rewrite decide_True.
  - by rewrite decide_False, app_nil_r.
Qed.

Lemma entries_of_absent (sid : list byte)
    (l : list (list byte * spec_float * spec_float)) :
  sid ∉ l.*1.*1 → entries_of sid l = [].
Proof.
  intros H. unfold entries_of. induction l as [|x l IH]; [done|].
  rewrite !fmap_cons, not_elem_of_cons in H. destruct H as [Hx Hl].
  rewrite filter_cons, decide_False by done. by apply IH.
Qed.

Lemma totals_snoc (sid : list byte)
    (l : list (list byte * spec_float * spec_float))
    (x : list byte * spec_float * spec_float) :
  (sid, total_points (entries_of sid (l ++ [x])),
   total_credits (entries_of sid (l ++ [x]))) =
  if bool_decide (x.1.1 = sid)
  then bump_totals x.1.2 x.2
         (sid, total_points (entries_of sid l), total_credits (entries_of sid l))
  else (sid, total_points (entries_of sid l), total_credits (entries_of sid l)).
Proof.
  rewrite entries_of_snoc. case_bool_decide; [|done].
  unfold total_points, total_credits, bump_totals. by rewrite !foldl_app.
Qed.

(** The totals after one more entry: a student seen before has the entry
    added to its totals; a new student comes last, with the entry alone. *)
Lemma term_totals_snoc (l : list (list byte * spec_float * spec_float))
    (x : list byte * spec_float * spec_float) :
  term_totals (l ++ [x]) =
  if bool_decide (x.1.1 ∈ (term_totals l).*1.*1)
  then (λ t, if bool_decide (t.1.1 = x.1.1) then bump_totals x.1.2 x.2 t else t)
         <$> term_totals l
  else term_totals l ++ [bump_totals x.1.2 x.2 (x.1.1, F32.zero, F32.zero)].
Proof.
  assert (Hkeys : (term_totals l).*1.*1 = first_seen (l.*1.*1)).
  { unfold term_totals. rewrite <- !list_fmap_compose.
    rewrite <- (list_fmap_id (first_seen _)) at 2. by apply list_fmap_ext. }
  rewrite Hkeys. unfold term_totals.
  rewrite !fmap_app. change ([x].*1.*1) with [x.1.1].
  rewrite first_seen_snoc.
  case_bool_decide as Hin.
  - etrans; [|apply list_fmap_compose]. apply list_fmap_ext.
    intros i sid _. simpl. rewrite totals_snoc.
    case_bool_decide as H1; case_bool_decide as H2; try done; congruence.
  - rewrite fmap_app. f_equal.
    + apply list_fmap_ext. intros i sid Hsid. rewrite totals_snoc.
      case_bool_decide as H1; [|done]. subst sid.
      destruct Hin. eapply list_elem_of_lookup_2. done.
    + simpl. rewrite totals_snoc, bool_decide_eq_true_2 by done.
      rewrite entries_of_absent; [done|].
      by rewrite <- elem_of_first_seen.
Qed.

(** With distinct keys, altering the entry at the index of a key is
    altering every entry of that key. *)
Lemma alter_unique_key {A K : Type} `{EqDecision K} (key : A → K) (g : A → A)
    (ts : list A) (k : nat) (t : A) :
  NoDup (key <$> ts) → ts !! k = Some t →
  alter g k ts = (λ u, if bool_decide (key u = key t) then g u else u) <$> ts.
Proof.
  intros Hnd Hk. apply list_eq. intros j.
  rewrite list_lookup_fmap.
  destruct (decide (j = k)) as [->|Hne].
  - rewrite list_lookup_alter_eq, Hk. simpl.
    by rewrite bool_decide_eq_true_2.
  - rewrite list_lookup_alter_ne by done.
    destruct (ts !! j) as [u|] eqn:Hj; [|done]. simpl.
    rewrite bool_decide_eq_false_2; [done|].
    intros Heq. apply Hne.
    eapply (NoDup_lookup _ _ _ _ Hnd); rewrite list_lookup_fmap.
    + by rewrite Hj.
    + rewrite Hk. simpl. by rewrite Heq.
Qed.

Lemma acc_search_spec (accs : list Acc.t) (sid : list byte) (i : Z) :
  acc_search accs sid i =
  match list_find (λ a, c_str (Acc.sid a) = c_str sid) accs with
  | Some (k, _) => (i + Z.of_nat k)%Z
  | None => (-1)%Z
  end.
Proof.
  revert i. induction accs as [|a accs IH]; intros i; [done|].
  cbn [acc_search list_find]. rewrite strcmp_eqb.
  case_bool_decide as H.
  - rewrite decide_True by done. simpl. lia.
  - rewrite decide_False by done. rewrite IH.
    destruct (list_find _ accs) as [[k ?]|]; simpl; lia.
Qed.

(** ** The scan of the leaderboard *)

Lemma term_totals_keys (l : list (list byte * spec_float * spec_float)) :
  (term_totals l).*1.*1 = first_seen (l.*1.*1).
Proof.
  unfold term_totals. rewrite <- !list_fmap_compose.
  rewrite <- (list_fmap_id (first_seen _)) at 2. by apply list_fmap_ext.
Qed.

Lemma term_totals_grows (l : list (list byte * spec_float * spec_float))
    (x : list byte * spec_float * spec_float) :
  length (term_totals l) ≤ length (term_totals (l ++ [x])).
Proof.
  rewrite term_totals_snoc. case_bool_decide.
  - by rewrite length_fmap.
  - rewrite length_app. lia.
Qed.

Lemma acc_view_bump (gp cr : spec_float) (a : Acc.t) :
  acc_view (acc_bump gp cr a) = bump_totals gp cr (acc_view a).
Proof. reflexivity. Qed.

Lemma length_slice (off n : nat) (buf : list byte) : length (slice off n buf) ≤ n.
Proof. unfold slice. rewrite length_take. lia. Qed.

(** One turn of the scan keeps [accs] on the totals of the entries met so
    far. *)
Lemma leaderboard_body_tracks (fs : gmap string file) (term : list byte)
    (st : option lstate) (buf : list byte)
    (l : list (list byte * spec_float * spec_float)) :
  let entry :=
    if bool_decide (c_str (Enrollment.term (Enrollment.view buf)) = c_str term)
    then graded_entry fs buf else None in
  tracks st l →
  tracks (leaderboard_body fs term st buf) (l ++ option_list entry).
Proof.
  intros entry Hst. unfold leaderboard_body.
  destruct st as [s|]; simpl in Hst.
  2:{ simpl. destruct entry; simpl; [|by rewrite app_nil_r].
      pose proof (term_totals_grows l p). lia. }
  destruct Hst as [Hv Hlen]. unfold entry, graded_entry. rewrite strcmp_eqb.
  case_bool_decide as Hterm; [|by rewrite app_nil_r].
  destruct (file_find_course fs
              (Enrollment.courseCode (Enrollment.view buf))) as [Hout Hidx].
  destruct (file_find_first fs FILE_COURSE Course.size pred_course_by_code
              (Enrollment.courseCode (Enrollment.view buf))) as [idx out].
  cbn [fst snd] in Hout, Hidx. rewrite Hidx, Hout.
  destruct (find_course fs _) as [cb|]; cbn [mbind option_bind from_option];
    [|by rewrite app_nil_r].
  pose proof (grade_to_points_valid
                (Enrollment.grade (Enrollment.view buf))) as Hg.
  destruct (table_points _) as [p|]; cbn [mbind option_bind option_list].
  2:{ destruct Hg as (_ & _ & ->). by rewrite app_nil_r. }
  destruct Hg as (-> & _ & ->).
  set (slot := Enrollment.studentId (Enrollment.view buf)).
  set (cr := Course.credit (Course.view cb)).
  assert (Hkeys : (λ a, c_str (Acc.sid a)) <$> ls_accs s = (term_totals l).*1.*1).
  { rewrite <- Hv, <- !list_fmap_compose. by apply list_fmap_ext. }
  assert (Hn : length (ls_accs s) = length (term_totals l))
    by by rewrite <- Hv, length_fmap.
  change (l ++ option_list (Some (c_str slot, p, cr)))
    with (l ++ [(c_str slot, p, cr)]).
  unfold tracks. rewrite acc_search_spec, term_totals_snoc. cbn [fst snd].
  destruct (list_find _ (ls_accs s)) as [[k a]|] eqn:Hfind.
  - apply list_find_Some in Hfind as (Hk & Ha & _).
    destruct (Z.ltb_spec (0 + Z.of_nat k) 0); [lia|].
    replace (Z.to_nat (0 + Z.of_nat k)) with k by lia.
    assert (Hin : c_str slot ∈ (term_totals l).*1.*1).
    { rewrite <- Hkeys, <- Ha. apply list_elem_of_fmap. exists a.
      split; [done|]. by eapply list_elem_of_lookup_2. }
    rewrite bool_decide_eq_true_2 by done. simpl. split.
    + rewrite (list_fmap_alter acc_view _ (bump_totals p cr))
        by (apply Forall_forall; intros; apply acc_view_bump).
      rewrite Hv.
      rewrite (alter_unique_key (λ t, t.1.1) _ _ k (acc_view a)).
      * apply list_fmap_ext. intros i t _. simpl. by rewrite Ha.
      * change (NoDup ((fst ∘ fst) <$> term_totals l)).
        rewrite list_fmap_compose, term_totals_keys. apply NoDup_first_seen.
      * by rewrite <- Hv, list_lookup_fmap, Hk.
    + by rewrite length_fmap.
  - apply list_find_None in Hfind.
    assert (Hnot : c_str slot ∉ (term_totals l).*1.*1).
    { rewrite <- Hkeys. intros (a & Ha & Hin)%list_elem_of_fmap.
      rewrite Forall_forall in Hfind. by apply (Hfind a). }
    rewrite bool_decide_eq_false_2 by done.
    destruct (Z.ltb_spec (-1) 0); [|lia].
    destruct (Nat.ltb_spec (length (ls_accs s)) ACCS_LEN) as [Hroom|Hfull]; simpl.
    + split; [|rewrite length_app; simpl; lia].
      replace (length (ls_accs s)) with (length (ls_accs s) + 0) at 1 by lia.
      rewrite alter_app_r, fmap_app, Hv. simpl. f_equal.
      unfold acc_view, bump_totals. simpl.
      rewrite c_str_strncpy_fits by apply length_slice. done.
    + rewrite length_app. simpl. lia.
Qed.

Lemma leaderboard_loop_tracks (fs : gmap string file) (term : list byte)
    (rs : list (list byte)) (st : option lstate)
    (l : list (list byte * spec_float * spec_float)) :
  tracks st l →
  tracks (foldl (leaderboard_body fs term) st rs)
    (l ++ omap (λ buf,
                  if bool_decide (c_str (Enrollment.term (Enrollment.view buf)) = c_str term)
                  then graded_entry fs buf else None) rs).
Proof.
  revert st l. induction rs as [|buf rs IH]; intros st l Hst.
  - simpl. by rewrite app_nil_r.
  - cbn [foldl omap list_omap].
    pose proof (leaderboard_body_tracks fs term st buf l Hst) as Hstep.
    cbv zeta in Hstep. apply IH in Hstep.
    destruct (if bool_decide _ then graded_entry fs buf else None);
      simpl in Hstep; [by rewrite <- app_assoc in Hstep|].
    by rewrite app_nil_r in Hstep.
Qed.

(** ** The order of binary32 values *)

Lemma SFcompare_key (x y : spec_float) :
  F32.is_nan x = false → F32.is_nan y = false →
  SFcompare x y = Some (lex_compare (order_key x) (order_key y)).
Proof.
  destruct x as [sx|sx| |sx mx ex], y as [sy|sy| |sy my ey]; try done;
    intros _ _; unfold lex_compare; simpl.
  - by destruct sy.
  - by destruct sy.
  - by destruct sx.
  - by destruct sx, sy.
  - by destruct sx, sy.
  - by destruct sx.
  - by destruct sx, sy.
  - destruct sx, sy; simpl; try reflexivity;
      try rewrite Z.compare_opp, (Z.compare_antisym ex ey);
      destruct (ex ?= ey)%Z; reflexivity.
Qed.

Lemma leb_not_nan (x y : spec_float) :
  F32.leb x y = true → F32.is_nan x = false ∧ F32.is_nan y = false.
Proof. by destruct x, y. Qed.

Ltac lex_cases :=
  unfold lex_compare in *;
  repeat match goal with
         | x : (Z * Z * Z)%type |- _ => destruct x as [[? ?] ?]
         end;
  cbn [fst snd] in *;
  repeat match goal with
         | H : context [(?a ?= ?b)%Z] |- _ => destruct (Z.compare_spec a b)
         | |- context [(?a ?= ?b)%Z] => destruct (Z.compare_spec a b)
         end;
  try done; try lia.

Lemma gpa_le_trans (x y z : spec_float) :
  gpa_le x y → gpa_le y z → gpa_le x z.
Proof.
  unfold gpa_le. intros Hxy Hyz.
  destruct (leb_not_nan _ _ Hxy) as [Hx Hy].
  destruct (leb_not_nan _ _ Hyz) as [_ Hz].
  revert Hxy Hyz. unfold F32.leb, SFleb.
  rewrite !SFcompare_key by done.
  generalize (order_key x) (order_key y) (order_key z). intros a b c.
  lex_cases.
Qed.

Lemma gpa_le_refl (x : spec_float) : F32.is_nan x = false → gpa_le x x.
Proof.
  intros Hx. unfold gpa_le, F32.leb, SFleb. rewrite SFcompare_key by done.
  generalize (order_key x). intros a. lex_cases.
Qed.

Lemma ltb_gpa_le (x y : spec_float) : F32.ltb x y = true → gpa_le x y.
Proof.
  unfold gpa_le, F32.ltb, F32.leb, SFltb, SFleb.
  by destruct (SFcompare x y) as [[]|].
Qed.

Lemma not_ltb_gpa_le (x y : spec_float) :
  F32.is_nan x = false → F32.is_nan y = false →
  F32.ltb x y = false → gpa_le y x.
Proof.
  intros Hx Hy. unfold gpa_le, F32.ltb, F32.leb, SFltb, SFleb.
  rewrite !SFcompare_key by done.
  generalize (order_key x) (order_key y). intros a b. lex_cases.
Qed.

Lemma gpa_le_not_ltb (x y : spec_float) : gpa_le y x → F32.ltb x y = false.
Proof.
  unfold gpa_le. intros Hyx. destruct (leb_not_nan _ _ Hyx) as [Hy Hx].
  revert Hyx. unfold F32.ltb, F32.leb, SFltb, SFleb.
  rewrite !SFcompare_key by done.
  generalize (order_key x) (order_key y). intros a b. lex_cases.
Qed.

(** ** The bubble sort *)

Section BubbleSort.
Implicit Types (a b m : Acc.t) (l p s : list Acc.t).

Lemma bubble_permutation a l : bubble a l ≡ₚ a :: l.
Proof.
  revert a. induction l as [|b l IH]; intros a; simpl; [done|].
  destruct (F32.ltb (gpa_of a) (gpa_of b)).
  - rewrite IH. apply Permutation_swap.
  - by rewrite IH.
Qed.

Lemma bubble_pass_permutation l : bubble_pass l ≡ₚ l.
Proof. destruct l; [done|]. apply bubble_permutation. Qed.

Lemma bubble_sort_permutation l : bubble_sort l ≡ₚ l.
Proof.
  unfold bubble_sort. generalize (length l). intros n.
  induction n as [|n IH]; [done|].
  by rewrite Nat.iter_succ, bubble_pass_permutation.
Qed.

(** A pass ends with an element that every element is ranked above. *)
Lemma bubble_last a l :
  Forall sound (a :: l) →
  ∃ p m, bubble a l = p ++ [m] ∧ Forall (λ x, above x m) (a :: l).
Proof.
  revert a. induction l as [|b l IH]; intros a Hs.
  - exists [], a. split; [done|]. constructor; [|done].
    apply gpa_le_refl. by inversion Hs.
  - apply Forall_cons in Hs as [Ha Hs]. pose proof Hs as Hbl.
    apply Forall_cons in Hs as [Hb Hs]. simpl.
    destruct (F32.ltb (gpa_of a) (gpa_of b)) eqn:E.
    + destruct (IH a) as (p & m & -> & Hm); [by constructor|].
      exists (b :: p), m. split; [done|].
      apply Forall_cons in Hm as [Ham Hm].
      constructor; [done|]. constructor; [|done].
      unfold above. eapply gpa_le_trans; [exact Ham|]. by apply ltb_gpa_le.
    + destruct (IH b Hbl) as (p & m & -> & Hm).
      exists (a :: p), m. split; [done|].
      constructor; [|done].
      apply Forall_cons in Hm as [Hbm _].
      unfold above. eapply gpa_le_trans; [exact Hbm|].
      by apply not_ltb_gpa_le.
Qed.

(** Carried into a sorted tail that it is ranked above, an element stays
    in front and the tail is untouched. *)
Lemma bubble_sorted_tail m s :
  Forall (above m) s → StronglySorted above s → bubble m s = m :: s.
Proof.
  revert m. induction s as [|b s IH]; intros m Hm Hs; [done|].
  apply Forall_cons in Hm as [Hb Hm].
  apply StronglySorted_inv in Hs as [Hs Hbs]. simpl.
  rewrite (gpa_le_not_ltb _ _ Hb). f_equal. by apply IH.
Qed.

Lemma bubble_app a l s p m :
  bubble a l = p ++ [m] → bubble a (l ++ s) = p ++ bubble m s.
Proof.
  revert a p. induction l as [|b l IH]; intros a p H.
  - simpl in H. destruct p as [|x p]; simpl in H.
    + injection H as ->. reflexivity.
    + injection H as _ H. by destruct p.
  - assert (Hne : ∀ c, bubble c l ≠ []).
    { intros c. destruct l; simpl; [done|]. by destruct (F32.ltb _ _). }
    simpl in *. destruct (F32.ltb (gpa_of a) (gpa_of b)).
    + destruct p as [|x p]; simpl in H; injection H as Hx H.
      * by destruct (Hne a).
      * subst x. simpl. f_equal. by apply IH.
    + destruct p as [|x p]; simpl in H; injection H as Hx H.
      * by destruct (Hne b).
      * subst x. simpl. f_equal. by apply IH.
Qed.

(** After [k] passes the last [k] elements are in their final place. *)
Lemma bubble_passes (k : nat) l :
  Forall sound l →
  ∃ p s, Nat.iter k bubble_pass l = p ++ s ∧ StronglySorted above s ∧
         (∀ x y, x ∈ p → y ∈ s → above x y) ∧ (p = [] ∨ k ≤ length s).
Proof.
  intros Hl. induction k as [|k IH].
  - exists l, []. rewrite app_nil_r.
    split; [done|]. split; [constructor|]. split; [|right; simpl; lia].
    by intros x y _ ?%elem_of_nil.
  - destruct IH as (p & s & Hk & Hs & Hps & Hlen).
    assert (Hsound : Forall sound (p ++ s)).
    { rewrite <- Hk. clear -Hl. induction k as [|k IH]; [done|].
      rewrite Nat.iter_succ. by rewrite bubble_pass_permutation. }
    rewrite Nat.iter_succ, Hk. destruct p as [|a p].
    + exists [], s. simpl.
      split; [|split; [done|split; [|by left]]].
      * destruct s as [|b s]; [done|]. simpl.
        apply StronglySorted_inv in Hs as [Hs Hb].
        by rewrite bubble_sorted_tail.
      * by intros x y ?%elem_of_nil.
    + apply Forall_app in Hsound as [Hp _].
      destruct (bubble_last a p Hp) as (q & m & Hq & Hm).
      assert (Hmem : ∀ x, x ∈ q ++ [m] → x ∈ a :: p).
      { intros x Hx. rewrite <- Hq in Hx. by rewrite bubble_permutation in Hx. }
      assert (Hms : Forall (above m) s).
      { apply Forall_forall. intros y Hy. apply Hps; [|done].
        apply Hmem. apply elem_of_app. right. apply list_elem_of_here. }
      simpl. rewrite (bubble_app _ _ _ _ _ Hq), (bubble_sorted_tail _ _ Hms Hs).
      exists q, (m :: s).
      split; [done|]. split; [by constructor|]. split.
      * intros x y Hx [->|Hy]%elem_of_cons.
        -- rewrite Forall_forall in Hm. apply Hm, Hmem, elem_of_app. by left.
        -- apply Hps; [|done]. apply Hmem, elem_of_app. by left.
      * right. simpl. destruct Hlen as [?|?]; [done|lia].
Qed.

Lemma bubble_sort_sorted l :
  Forall sound l → StronglySorted above (bubble_sort l).
Proof.
  intros Hl. destruct (bubble_passes (length l) l Hl) as (p & s & Hk & Hs & _ & Hlen).
  fold (bubble_sort l) in Hk.
  assert (Hn : length (p ++ s) = length l).
  { rewrite <- Hk. apply Permutation_length, bubble_sort_permutation. }
  rewrite length_app in Hn.
  destruct Hlen as [->|Hlen]; [by rewrite Hk|].
  destruct p; [by rewrite Hk|]. simpl in Hn. lia.
Qed.

(** The GPAs of the sorted accumulators run from highest to lowest. *)
Lemma bubble_sort_descending l :
  Forall (λ a, F32.is_nan (gpa_of a) = false) l →
  descending (gpa_of <$> bubble_sort l).
Proof.
  intros Hl. unfold descending.
  apply (StronglySorted_fmap gpa_of above); [done|].
  by apply bubble_sort_sorted.
Qed.

End BubbleSort.

(** ** The lines of the leaderboard *)

(** A line shows the student id of the accumulator, whether or not the
    Student store resolves it, with its GPA and its credits. *)
Lemma leaderboard_row_view (fs : gmap string file) (i : nat) (a : Acc.t) :
  row_view (leaderboard_row fs i a) = ranked (acc_view a) ∧
  lr_rank (leaderboard_row fs i a) = (Z.of_nat i + 1)%Z.
Proof.
  unfold leaderboard_row. rewrite file_find_first_scan.
  pose proof (find_loop_found (λ buf, pred_student_by_id buf (Acc.sid a))
                (scan fs FILE_STUD Student.size) 0 ltac:(lia)) as Hsome.
  pose proof (find_loop_snd (λ buf, pred_student_by_id buf (Acc.sid a))
                (scan fs FILE_STUD Student.size) 0) as Hpred.
  destruct (find_loop _ _ _) as [idx out]. cbn [fst snd] in *.
  destruct (Z.geb_spec idx 0) as [Hge|Hlt]; [|done].
  destruct Hsome as [sbuf ->]; [lia|].
  destruct (Hpred sbuf eq_refl) as [_ Hp].
  rewrite pred_student_by_id_key in Hp. apply bool_decide_eq_true_1 in Hp.
  unfold row_view, ranked, acc_view. cbn [lr_id lr_gpa lr_cred lr_rank fst snd from_option].
  unfold student_key in Hp. by rewrite Hp.
Qed.

Lemma leaderboard_rows_view (fs : gmap string file) (accs : list Acc.t) :
  row_view <$> imap (leaderboard_row fs) accs = ranked <$> (acc_view <$> accs) ∧
  lr_gpa <$> imap (leaderboard_row fs) accs = gpa_of <$> accs ∧
  ∀ i r, imap (leaderboard_row fs) accs !! i = Some r →
         lr_rank r = (Z.of_nat i + 1)%Z.
Proof.
  split; [|split].
  - apply list_eq. intros i.
    rewrite !list_lookup_fmap, list_lookup_imap.
    destruct (accs !! i) as [a|]; [|done]. simpl.
    by destruct (leaderboard_row_view fs i a) as [-> _].
  - apply list_eq. intros i.
    rewrite !list_lookup_fmap, list_lookup_imap.
    destruct (accs !! i) as [a|]; [|done]. simpl.
    destruct (leaderboard_row_view fs i a) as [Hv _].
    unfold row_view, ranked in Hv. by injection Hv as _ -> _.
  - intros i r. rewrite list_lookup_imap.
    destruct (accs !! i) as [a|]; [|done]. simpl. intros [= <-].
    by destruct (leaderboard_row_view fs i a) as [_ ->].
Qed.

(** Within the room of [accs].  When the enrollment file opens and the
    students with a graded entry in the term are no more than the 2048 that
    [accs] holds, the leaderboard lists exactly those students, each with the totals of its
    entries of that term whose course resolves and whose grade is in the
    table, its GPA [points / credits] (0 when the credits are not
    positive) and its rank; when no GPA is a NaN the lines run from the
    highest GPA to the lowest; a student with no such entry is on no line.
    In the scenario of the specification the lines are S2 (4.00 over 3
    credits), then S1 (3.65 over 6 credits). *)
Theorem gpa_leaderboard_ranking (fs : gmap string file) (term : list byte) :
  let entries := term_entries fs term in
  let totals := term_totals entries in
  match gpa_leaderboard fs term with
  | LNoEnrollments => fopen_rb fs FILE_ENR = None
  | LRanOff => is_Some (fopen_rb fs FILE_ENR) ∧ ACCS_LEN < length totals
  | LRanking rows =>
      is_Some (fopen_rb fs FILE_ENR) ∧ length totals ≤ ACCS_LEN ∧
      row_view <$> rows ≡ₚ ranked <$> totals ∧
      (∀ i r, rows !! i = Some r → lr_rank r = (Z.of_nat i + 1)%Z) ∧
      (Forall (λ t, F32.is_nan (gpa_value t) = false) totals →
       descending (lr_gpa <$> rows)) ∧
      (∀ sid, sid ∉ entries.*1.*1 → sid ∉ lr_id <$> rows)
  end ∧
  Forall (λ x, x.1.2 ≠ Invalid ∧ F32.leb F32.zero x.1.2 = true) entries ∧
  (let g1 := F32.div
               (F32.add (F32.add F32.zero (F32.mul (F32.decimal 400 100) (F32.of_Z 3)))
                  (F32.mul (F32.decimal 330 100) (F32.of_Z 3)))
               (F32.add (F32.add F32.zero (F32.of_Z 3)) (F32.of_Z 3)) in
   gpa_leaderboard scenario_fs (lit "T1") =
     LRanking [LRow 1 (lit "S2") (Some (lit "Two")) (F32.of_Z 4) (F32.of_Z 3);
               LRow 2 (lit "S1") (Some (lit "One")) g1 (F32.of_Z 6)] ∧
   F32.centi (F32.of_Z 4) = Some 400%Z ∧ F32.centi g1 = Some 365%Z).
Proof.
  intros entries totals. split; [|split].
  - unfold gpa_leaderboard.
    destruct (fopen_rb fs FILE_ENR) as [data|] eqn:Hopen; [|done].
    pose proof (leaderboard_loop_tracks fs term (records Enrollment.size data)
                  (Some (LState (replicate Course.size NUL) [])) []
                  ltac:(split; [done|simpl; lia])) as Htr.
    rewrite app_nil_l in Htr.
    assert (He : omap (λ buf,
                  if bool_decide (c_str (Enrollment.term (Enrollment.view buf)) = c_str term)
                  then graded_entry fs buf else None) (records Enrollment.size data)
                 = entries).
    { unfold entries, term_entries, scan. by rewrite Hopen. }
    rewrite He in Htr.
    destruct (foldl _ _ _) as [st|]; unfold tracks in Htr; fold totals in Htr.
    2:{ split; [by eexists|done]. }
    destruct Htr as [Hv Hlen].
    destruct (leaderboard_rows_view fs (bubble_sort (ls_accs st)))
      as (Hrows & Hgpas & Hrank).
    split; [by eexists|]. split; [done|]. split; [|split; [done|split]].
    + rewrite Hrows, <- Hv. by rewrite bubble_sort_permutation.
    + intros Hnan. rewrite Hgpas. apply bubble_sort_descending.
      rewrite <- Hv in Hnan. by rewrite Forall_fmap in Hnan.
    + intros sid Hsid Hin. apply Hsid.
      rewrite <- elem_of_first_seen, <- term_totals_keys. fold totals.
      assert (Hids : lr_id <$> imap (leaderboard_row fs) (bubble_sort (ls_accs st))
                     = (row_view <$> imap (leaderboard_row fs)
                                       (bubble_sort (ls_accs st))).*1.*1).
      { rewrite <- !list_fmap_compose. by apply list_fmap_ext. }
      rewrite Hids, Hrows, bubble_sort_permutation, Hv in Hin.
      revert Hin. rewrite <- !list_fmap_compose. done.
  - unfold entries, term_entries. apply Forall_forall. intros x Hx.
    apply list_elem_of_omap in Hx as (buf & _ & Hx).
    case_bool_decide; [|done].
    by destruct (graded_entry_valid _ _ _ Hx) as (_ & ? & ?).
  - split; [vm_compute; reflexivity|]. split; vm_compute; reflexivity.
Qed.

Lemma gpa_leaderboard_ranking_witness :
  Forall (λ t, F32.is_nan (gpa_value t) = false)
    (term_totals (term_entries scenario_fs (lit "T1"))) ∧
  descending
    [F32.of_Z 4;
     F32.div
       (F32.add (F32.add F32.zero (F32.mul (F32.decimal 400 100) (F32.of_Z 3)))
          (F32.mul (F32.decimal 330 100) (F32.of_Z 3)))
       (F32.add (F32.add F32.zero (F32.of_Z 3)) (F32.of_Z 3))].
Proof.
  assert (Hnan : Forall (λ t, F32.is_nan (gpa_value t) = false)
                   (term_totals (term_entries scenario_fs (lit "T1"))))
    by (apply (bool_decide_unpack _); vm_compute; exact I).
  split; [exact Hnan|].
  pose proof (gpa_leaderboard_ranking scenario_fs (lit "T1")) as Hthm.
  cbv zeta in Hthm. destruct Hthm as (Hmatch & _ & Hscen & _).
  rewrite Hscen in Hmatch.
  destruct Hmatch as (_ & _ & _ & _ & Hdesc & _).
  exact (Hdesc Hnan).
Defined.

(** C7.  The leaderboard is not produced for every term.  [accs] has room
    for 2048 students and the scan never compares [n] with that bound: the
    run stores past the end of [accs] exactly when the enrollment file
    opens and more than 2048 students have a graded entry in the term.  It
    does on the enrollment file of 2049 students, each with an A in the one
    course of term T1. *)
Theorem gpa_leaderboard_overflow :
  (∀ fs term,
     gpa_leaderboard fs term = LRanOff ↔
     is_Some (fopen_rb fs FILE_ENR) ∧
     ACCS_LEN < length (term_totals (term_entries fs term))) ∧
  length (scan (crowded_fs 2049) FILE_ENR Enrollment.size) = 2049 ∧
  gpa_leaderboard (crowded_fs 2049) (lit "T1") = LRanOff.
Proof.
  split; [|split; vm_compute; reflexivity].
  intros fs term.
  pose proof (proj1 (gpa_leaderboard_ranking fs term)) as H. cbv zeta in H.
  destruct (gpa_leaderboard fs term) as [| |rows].
  - split; [done|]. rewrite H. by intros [[? ?] _].
  - done.
  - split; [done|]. destruct H as (_ & Hle & _). lia.
Qed.

(** ** Reading a line, in full *)

Lemma strlen_app_nul (l r : list byte) : strlen (l ++ NUL :: r) = strlen l.
Proof.
  induction l as [|c l IH]; [reflexivity|].
  simpl. destruct (Byte.eqb c NUL); [done|]. by rewrite IH.
Qed.

Lemma c_str_app_prefix (l r : list byte) : c_str (l ++ NUL :: r) = c_str l.
Proof.
  induction l as [|c l IH]; [reflexivity|].
  simpl. rewrite !c_str_cons. destruct (Byte.eqb c NUL); [done|]. by rewrite IH.
Qed.

Lemma c_str_idemp (s : list byte) : c_str (c_str s) = c_str s.
Proof. apply c_str_clean, c_str_no_nul. Qed.

Lemma first_line_no_newline (inp : list byte) : NEWLINE ∉ first_line inp.
Proof.
  induction inp as [|c inp IH]; simpl; [by intros ?%elem_of_nil|].
  destruct (byte_eqb_spec c NEWLINE) as [->|Hc]; [by intros ?%elem_of_nil|].
  rewrite elem_of_cons. by intros [?|?].
Qed.

Lemma first_line_split (inp : list byte) :
  inp = first_line inp ∨ ∃ rest, inp = first_line inp ++ NEWLINE :: rest.
Proof.
  induction inp as [|c inp IH]; simpl; [by left|].
  destruct (byte_eqb_spec c NEWLINE) as [->|Hc]; [right; by eexists|].
  destruct IH as [IH|[rest IH]]; [left|right; exists rest]; simpl; congruence.
Qed.

Lemma fgets_chars_spec (n : nat) (inp : list byte) :
  let k := n `min` S (length (first_line inp)) in
  fgets_chars n inp = (take k inp, drop k inp).
Proof.
  revert inp. induction n as [|n IH]; intros inp; [by destruct inp|].
  destruct inp as [|c rest]; [cbv zeta; by rewrite take_nil, drop_nil|]. simpl.
  destruct (Byte.eqb c NEWLINE); [simpl; by rewrite Nat.min_0_r|].
  rewrite IH. reflexivity.
Qed.

Lemma elem_of_take_1 {A : Type} (x : A) (n : nat) (l : list A) :
  x ∈ take n l → x ∈ l.
Proof. intros (i & Hi & _)%elem_of_take. by eapply list_elem_of_lookup_2. Qed.

Lemma elem_of_c_str (c : byte) (s : list byte) : c ∈ c_str s → c ∈ s.
Proof. unfold c_str. apply elem_of_take_1. Qed.

(** [trim_newline] removes the newline that ends the string, if there is
    one, and nothing else. *)
Lemma c_str_trim_newline (s : list byte) :
  c_str (trim_newline s) =
  if bool_decide (last (c_str s) = Some NEWLINE)
  then take (strlen s - 1) (c_str s) else c_str s.
Proof.
  unfold trim_newline.
  assert (Hlast : last (c_str s) = if (strlen s =? 0)%nat then None
                                   else s !! (strlen s - 1)).
  { rewrite last_lookup, length_c_str. unfold c_str.
    destruct (Nat.eqb_spec (strlen s) 0) as [->|Hn]; [done|].
    rewrite lookup_take_lt by lia. f_equal. lia. }
  rewrite Hlast.
  destruct (Nat.eqb_spec (strlen s) 0) as [H0|Hn]; simpl.
  { done. }
  case_bool_decide as Hnl; simpl; [|done].
  pose proof (strlen_le s) as Hle.
  rewrite insert_take_drop by lia.
  rewrite c_str_app_nul.
  - unfold c_str. rewrite take_take. f_equal. lia.
  - replace (take (strlen s - 1) s) with (take (strlen s - 1) (c_str s))
      by (unfold c_str; rewrite take_take; f_equal; lia).
    apply Forall_take, c_str_no_nul.
Qed.

Lemma last_c_str_no_newline (l : list byte) :
  NEWLINE ∉ l → last (c_str l) ≠ Some NEWLINE.
Proof.
  intros Hl H. apply Hl. apply elem_of_c_str.
  rewrite last_lookup in H. by apply list_elem_of_lookup_2 in H.
Qed.

Lemma read_line_c_str (buf : list byte) (cap : nat) (inp : list byte) :
  c_str (fst (read_line buf cap inp)) = c_str (take (cap - 1) (first_line inp)).
Proof.
  unfold read_line, fgets.
    destruct inp as [|c0 inp0] eqn:Einp.
    { simpl. rewrite take_nil. destruct buf; reflexivity. }
    rewrite <- Einp. clear Einp.
    rewrite fgets_chars_spec. cbv zeta. cbn [fst snd].
    rewrite c_str_trim_newline.
    cbn [app]. rewrite strlen_app_nul, c_str_app_prefix.
    set (fl := first_line inp).
    pose proof (first_line_no_newline inp) as Hnn. fold fl in Hnn.
    destruct (decide (cap - 1 ≤ length fl)) as [Hshort|Hlong].
    - rewrite Nat.min_l by lia.
      assert (Htk : take (cap - 1) inp = take (cap - 1) fl).
      { destruct (first_line_split inp) as [E|[rest E]]; fold fl in E.
        - by rewrite <- E.
        - rewrite E at 1. by rewrite take_app_le. }
      rewrite Htk. rewrite bool_decide_eq_false_2; [done|].
      apply last_c_str_no_newline. by intros ?%elem_of_take_1.
    - rewrite Nat.min_r by lia. rewrite (take_ge fl) by lia.
      destruct (first_line_split inp) as [E|[rest E]]; fold fl in E.
      + rewrite take_ge by (rewrite E; lia). rewrite E.
        rewrite bool_decide_eq_false_2; [done|].
        by apply last_c_str_no_newline.
      + assert (Htk : take (S (length fl)) inp = fl ++ [NEWLINE]).
        { rewrite E at 1. rewrite take_app_ge by lia.
          replace (S (length fl) - length fl) with 1 by lia. reflexivity. }
        rewrite Htk. clear Htk.
        destruct (decide (NUL ∈ fl)) as [Hnul|Hnul].
        * apply list_elem_of_split in Hnul as (a & b & Hab).
          rewrite Hab. rewrite <- !app_assoc. cbn [app].
          rewrite !c_str_app_prefix, bool_decide_eq_false_2; [done|].
          apply last_c_str_no_newline. intros Ha. apply Hnn.
          rewrite Hab. apply elem_of_app. by left.
        * assert (Hfl : Forall (λ c, c ≠ NUL) fl).
          { apply Forall_forall. intros x Hx ->. done. }
          assert (Hall : Forall (λ c, c ≠ NUL) (fl ++ [NEWLINE])).
          { apply Forall_app. split; [done|]. by repeat constructor. }
          rewrite (c_str_clean _ Hall), (c_str_clean _ Hfl).
          rewrite last_snoc, bool_decide_eq_true_2 by done.
          replace (strlen (fl ++ [NEWLINE])) with (S (length fl))
            by (rewrite <- length_c_str, (c_str_clean _ Hall), length_app;
                simpl; lia).
          replace (S (length fl) - 1) with (length fl) by lia.
          by rewrite take_app_length.
Qed.

Lemma read_line_rest (buf : list byte) (cap : nat) (inp : list byte) :
  snd (read_line buf cap inp) =
  drop ((cap - 1) `min` S (length (first_line inp))) inp.
Proof.
  unfold read_line, fgets.
  destruct inp as [|c0 inp0] eqn:Einp; [by rewrite drop_nil|].
  rewrite <- Einp. by rewrite fgets_chars_spec.
Qed.

Lemma strlen_read_line (buf : list byte) (cap : nat) (inp : list byte) :
  strlen (fst (read_line buf cap inp)) ≤ cap - 1.
Proof.
  rewrite <- length_c_str, read_line_c_str, length_c_str.
  pose proof (strlen_le (take (cap - 1) (first_line inp))) as Hs.
  rewrite length_take in Hs. lia.
Qed.

(** X1.  [read_line] stores the characters of the input up to its first
    newline, cut at [cap - 1], as a string without the newline; it consumes
    those characters and the newline only when the line is shorter than
    [cap - 1], so that the rest of a longer line, its newline included,
    stays in the input for the next read; it writes within the [cap] bytes
    of the buffer and leaves a terminated string there. *)
Theorem read_line_spec (buf : list byte) (cap : nat) (inp : list byte) :
  let r := read_line buf cap inp in
  c_str (fst r) = c_str (take (cap - 1) (first_line inp)) ∧
  snd r = drop ((cap - 1) `min` S (length (first_line inp))) inp ∧
  (NEWLINE ∉ c_str (fst r)) ∧
  (0 < cap ≤ length buf → length (fst r) = length buf ∧ strlen (fst r) < cap).
Proof.
  intros r. split; [apply read_line_c_str|]. split; [apply read_line_rest|].
  split.
  - unfold r. rewrite read_line_c_str. intros H%elem_of_c_str%elem_of_take_1.
    by apply (first_line_no_newline inp).
  - intros [Hc Hb]. split; [by apply length_read_line|].
    pose proof (strlen_read_line buf cap inp). unfold r. lia.
Qed.

Lemma read_line_spec_witness :
  (0 < 3 ≤ length [x00; x00; x00]) ∧
  c_str (fst (read_line [x00; x00; x00] 3 (lit "A-" ++ [NEWLINE; x31]))) = lit "A-" ∧
  snd (read_line [x00; x00; x00] 3 (lit "A-" ++ [NEWLINE; x31])) = [NEWLINE; x31] ∧
  strlen (fst (read_line [x00; x00; x00] 3 (lit "A-" ++ [NEWLINE; x31]))) < 3.
Proof.
  destruct (read_line_spec [x00; x00; x00] 3 (lit "A-" ++ [NEWLINE; x31]))
    as (H1 & H2 & _ & H4).
  assert (Hc : 0 < 3 ≤ length [x00; x00; x00]) by (simpl; lia).
  split; [exact Hc|]. split; [exact H1|]. split; [exact H2|].
  exact (proj2 (H4 Hc)).
Defined.

(** ** Bytes *)

Lemma to_N_of_N_small (x : N) :
  (x ≤ 255)%N → Byte.to_N (default NUL (Byte.of_N x)) = x.
Proof.
  intros Hx. destruct (Byte.of_N x) as [b|] eqn:E.
  - by apply Byte.to_of_N.
  - apply Byte.of_N_None_iff in E. lia.
Qed.

Lemma to_N_inj (a b : byte) : Byte.to_N a = Byte.to_N b → a = b.
Proof.
  intros H. pose proof (Byte.of_to_N a) as Ha.
  rewrite H, Byte.of_to_N in Ha. by simplify_eq.
Qed.

Lemma byte_val_byte_of_Z (z : Z) :
  (0 ≤ z ≤ 255)%Z → byte_val (byte_of_Z z) = z.
Proof.
  intros Hz. unfold byte_val, byte_of_Z.
  rewrite to_N_of_N_small by lia. lia.
Qed.

Lemma byte_val_range (c : byte) : (0 ≤ byte_val c ≤ 255)%Z.
Proof. unfold byte_val. pose proof (Byte.to_N_bounded c). lia. Qed.

Lemma lxor_byte_bound (x y : N) :
  (x ≤ 255)%N → (y ≤ 255)%N → (N.lxor x y ≤ 255)%N.
Proof.
  intros Hx Hy.
  destruct (N.eq_dec (N.lxor x y) 0%N) as [->|Hne]; [lia|].
  assert (N.lxor x y < 2 ^ 8)%N; [|lia].
  apply N.log2_lt_pow2; [lia|].
  pose proof (N.log2_lxor x y) as Hl.
  assert (Hb : ∀ z, (z ≤ 255)%N → (N.log2 z < 8)%N).
  { intros z Hz. destruct (N.eq_dec z 0%N) as [->|Hz0]; [done|].
    apply N.log2_lt_pow2; lia. }
  pose proof (Hb x Hx). pose proof (Hb y Hy). lia.
Qed.

Lemma to_N_xor_byte (a b : byte) :
  Byte.to_N (xor_byte a b) = N.lxor (Byte.to_N a) (Byte.to_N b).
Proof.
  unfold xor_byte. apply to_N_of_N_small.
  apply lxor_byte_bound; apply Byte.to_N_bounded.
Qed.

Lemma xor_byte_cancel (a b : byte) : xor_byte (xor_byte a b) b = a.
Proof.
  apply to_N_inj. rewrite !to_N_xor_byte.
  by rewrite N.lxor_assoc, N.lxor_nilpotent, N.lxor_0_r.
Qed.

Lemma zip_xor_cancel (s k : list byte) :
  length s ≤ length k →
  zip_with xor_byte (zip_with xor_byte s k) k = s.
Proof.
  revert k. induction s as [|a s IH]; intros [|b k] Hl; simpl in *;
    try done; try lia.
  rewrite xor_byte_cancel, IH by lia. done.
Qed.

(** ** Passwords, both ways *)

(** X2.  The stored bytes hide nothing: xored with the salt again they
    are the plaintext, cut at 32 bytes and padded with zeros; a password of
    at most 32 characters is read back whole. *)
Theorem obfuscate_reveals (p : list byte) :
  (Z.of_nat (strlen p) ≤ INT_MAX)%Z →
  zip_with xor_byte (obfuscate p) salt_stream = strncpy MAX_PASS p ∧
  c_str (zip_with xor_byte (obfuscate p) salt_stream) = take MAX_PASS (c_str p).
Proof.
  intros Hp. rewrite obfuscate_padded by done.
  rewrite zip_xor_cancel by (rewrite length_strncpy; done).
  split; [done|]. apply c_str_strncpy.
Qed.

Lemma obfuscate_reveals_witness :
  (Z.of_nat (strlen (lit "admin123")) ≤ INT_MAX)%Z ∧
  c_str (zip_with xor_byte (obfuscate (lit "admin123")) salt_stream) =
    take MAX_PASS (c_str (lit "admin123")).
Proof.
  assert (H : (Z.of_nat (strlen (lit "admin123")) ≤ INT_MAX)%Z) by done.
  split; [exact H|]. exact (proj2 (obfuscate_reveals (lit "admin123") H)).
Defined.

Lemma length_obfuscate (p : list byte) : length (obfuscate p) = MAX_PASS.
Proof. unfold obfuscate. by rewrite length_map, length_seq. Qed.

Lemma verify_pass_iff (p q : list byte) :
  (Z.of_nat (strlen p) ≤ INT_MAX)%Z → (Z.of_nat (strlen q) ≤ INT_MAX)%Z →
  verify_pass (obfuscate p) q = true ↔
  take MAX_PASS (c_str p) = take MAX_PASS (c_str q).
Proof.
  intros Hp Hq. unfold verify_pass, memcmp_eq.
  rewrite bool_decide_eq_true.
  rewrite !take_ge by (by rewrite length_obfuscate).
  rewrite !obfuscate_padded by done.
  split.
  - intros H.
    apply (f_equal (λ l, zip_with xor_byte l salt_stream)) in H.
    rewrite !zip_xor_cancel in H by (rewrite length_strncpy; done).
    by rewrite <- !c_str_strncpy, H.
  - intros H. by rewrite (strncpy_prefix _ _ _ H).
Qed.

(** X3.  A password is accepted against the stored bytes of [p] exactly
    when it agrees with [p] on the first 32 characters: any other password
    is refused. *)
Theorem verify_pass_exact (p q : list byte) :
  (Z.of_nat (strlen p) ≤ INT_MAX)%Z → (Z.of_nat (strlen q) ≤ INT_MAX)%Z →
  (verify_pass (obfuscate p) q = true ↔
   take MAX_PASS (c_str p) = take MAX_PASS (c_str q)) ∧
  (strlen p < MAX_PASS → c_str q ≠ c_str p → verify_pass (obfuscate p) q = false).
Proof.
  intros Hp Hq. split; [by apply verify_pass_iff|].
  intros Hshort Hne. apply not_true_is_false. intros H.
  apply verify_pass_iff in H; [|done..].
  rewrite (take_ge (c_str p)) in H by (rewrite length_c_str; lia).
  apply Hne. symmetry.
  assert (Hlen : length (take MAX_PASS (c_str q)) = strlen p)
    by (by rewrite <- H, length_c_str).
  rewrite length_take, length_c_str in Hlen.
  rewrite H. apply take_ge. rewrite length_c_str. lia.
Qed.

Lemma verify_pass_exact_witness :
  (Z.of_nat (strlen (lit "admin123")) ≤ INT_MAX)%Z ∧
  (Z.of_nat (strlen (lit "admin124")) ≤ INT_MAX)%Z ∧
  strlen (lit "admin123") < MAX_PASS ∧
  c_str (lit "admin124") ≠ c_str (lit "admin123") ∧
  verify_pass (obfuscate (lit "admin123")) (lit "admin124") = false.
Proof.
  assert (Hp : (Z.of_nat (strlen (lit "admin123")) ≤ INT_MAX)%Z) by done.
  assert (Hq : (Z.of_nat (strlen (lit "admin124")) ≤ INT_MAX)%Z) by done.
  assert (Hs : strlen (lit "admin123") < MAX_PASS) by (vm_compute; lia).
  assert (Hne : c_str (lit "admin124") ≠ c_str (lit "admin123")) by done.
  split; [exact Hp|]. split; [exact Hq|]. split; [exact Hs|].
  split; [exact Hne|].
  exact (proj2 (verify_pass_exact _ _ Hp Hq) Hs Hne).
Defined.

(** ** Upper case *)

Lemma toupper_val (c : byte) :
  byte_val (toupper c) =
  if (97 <=? byte_val c)%Z && (byte_val c <=? 122)%Z
  then (byte_val c - 32)%Z else byte_val c.
Proof.
  unfold toupper.
  destruct (Z.leb_spec 97 (byte_val c)), (Z.leb_spec (byte_val c) 122);
    simpl; try done.
  apply byte_val_byte_of_Z. lia.
Qed.

Lemma toupper_not_nul (c : byte) : c ≠ NUL → toupper c ≠ NUL.
Proof.
  intros Hc H. apply (f_equal byte_val) in H. rewrite toupper_val in H.
  change (byte_val NUL) with 0%Z in H.
  destruct (Z.leb_spec 97 (byte_val c)), (Z.leb_spec (byte_val c) 122);
    simpl in H; try lia; apply Hc, byte_val_inj; by rewrite H.
Qed.

Lemma toupper_idemp (c : byte) : toupper (toupper c) = toupper c.
Proof.
  apply byte_val_inj. rewrite (toupper_val (toupper c)), (toupper_val c).
  destruct (Z.leb_spec 97 (byte_val c)), (Z.leb_spec (byte_val c) 122);
    simpl;
    repeat match goal with
           | |- context [Z.leb ?a ?b] => destruct (Z.leb_spec a b)
           end; simpl; lia.
Qed.

Lemma upper_cons (c : byte) (s : list byte) :
  upper (c :: s) = if Byte.eqb c NUL then c :: s else toupper c :: upper s.
Proof. reflexivity. Qed.

Lemma c_str_upper (s : list byte) : c_str (upper s) = toupper <$> c_str s.
Proof.
  induction s as [|c s IH]; [reflexivity|].
  rewrite upper_cons, (c_str_cons c s).
  destruct (byte_eqb_spec c NUL) as [->|Hc]; [reflexivity|].
  rewrite c_str_cons, fmap_cons.
  destruct (byte_eqb_spec (toupper c) NUL) as [H|_];
    [by apply toupper_not_nul in H|].
  by rewrite IH.
Qed.

Lemma length_upper (s : list byte) : length (upper s) = length s.
Proof.
  induction s as [|c s IH]; [reflexivity|].
  rewrite upper_cons. destruct (Byte.eqb c NUL); [done|]. simpl. by rewrite IH.
Qed.

Lemma strlen_upper (s : list byte) : strlen (upper s) = strlen s.
Proof. by rewrite <- !length_c_str, c_str_upper, length_fmap. Qed.

Lemma drop_upper (s : list byte) :
  drop (strlen s) (upper s) = drop (strlen s) s.
Proof.
  induction s as [|c s IH]; [reflexivity|].
  rewrite upper_cons. simpl.
  destruct (Byte.eqb c NUL); [done|]. simpl. exact IH.
Qed.

Lemma upper_idemp (s : list byte) : upper (upper s) = upper s.
Proof.
  induction s as [|c s IH]; [reflexivity|].
  rewrite upper_cons.
  destruct (byte_eqb_spec c NUL) as [->|Hc]; [reflexivity|].
  rewrite upper_cons.
  destruct (byte_eqb_spec (toupper c) NUL) as [H|_];
    [by apply toupper_not_nul in H|].
  by rewrite toupper_idemp, IH.
Qed.

(** X4.  [upper] turns the letters a..z of the string into A..Z and
    changes no other character; the length of the string, the terminator
    and the bytes after it stay as they were; a second call changes
    nothing. *)
Theorem upper_spec (s : list byte) :
  c_str (upper s) = toupper <$> c_str s ∧
  (∀ c, byte_val (toupper c) =
        if (97 <=? byte_val c)%Z && (byte_val c <=? 122)%Z
        then (byte_val c - 32)%Z else byte_val c) ∧
  length (upper s) = length s ∧
  strlen (upper s) = strlen s ∧
  drop (strlen s) (upper s) = drop (strlen s) s ∧
  upper (upper s) = upper s.
Proof.
  split; [apply c_str_upper|]. split; [apply toupper_val|].
  split; [apply length_upper|]. split; [apply strlen_upper|].
  split; [apply drop_upper|apply upper_idemp].
Qed.

(** ** Searching and updating in place *)

Lemma find_loop_least (pred : list byte → bool) (rs : list (list byte)) (i : Z) :
  match find_loop pred rs i with
  | (idx, Some buf) =>
      ∃ k : nat, idx = (i + Z.of_nat k)%Z ∧ rs !! k = Some buf ∧
        pred buf = true ∧
        ∀ j b, j < k → rs !! j = Some b → pred b = false
  | (idx, None) => idx = (-1)%Z ∧ Forall (λ b, pred b = false) rs
  end.
Proof.
  revert i. induction rs as [|r rs IH]; intros i; simpl; [done|].
  destruct (pred r) eqn:E.
  - exists 0. split; [lia|]. split; [done|]. split; [done|]. lia.
  - specialize (IH (i + 1)%Z).
    destruct (find_loop pred rs (i + 1)) as [idx [buf|]].
    + destruct IH as (k & -> & Hk & Hp & Hleast).
      exists (S k). split; [lia|]. split; [done|]. split; [done|].
      intros [|j] b Hj; simpl; [by intros [= <-]|].
      apply Hleast. lia.
    + destruct IH as [-> Hall]. split; [done|]. by constructor.
Qed.

Lemma scan_length_bound (fs : gmap string file) (path : string) (w : nat) :
  0 < w → length (scan fs path w) * w ≤ length (content fs path).
Proof.
  intros Hw. unfold scan, content, fopen_rb.
  destruct (fs !! path) as [[[] d]|]; simpl; try lia.
  rewrite length_records, Nat.mul_comm. apply Nat.Div0.mul_div_le.
Qed.

(** X5.  [file_find_first] returns the least index whose record
    satisfies the predicate, with that record; [file_read_at] at that index
    reads the same record; the result is -1, with no record, exactly when no
    whole record of the file satisfies the predicate (none does when the
    file does not open). *)
Theorem file_find_first_least {K : Type} (fs : gmap string file)
    (path : string) (w : nat) (pred : list byte → K → bool) (key : K) :
  match file_find_first fs path w pred key with
  | (idx, Some buf) =>
      (0 ≤ idx)%Z ∧ scan fs path w !! Z.to_nat idx = Some buf ∧
      pred buf key = true ∧
      (∀ j b, j < Z.to_nat idx → scan fs path w !! j = Some b →
              pred b key = false) ∧
      (0 < w → (Z.of_nat (length (content fs path)) ≤ LONG_MAX)%Z →
       file_read_at fs path w idx = (1%Z, Some buf))
  | (idx, None) =>
      idx = (-1)%Z ∧ Forall (λ b, pred b key = false) (scan fs path w)
  end.
Proof.
  rewrite file_find_first_scan.
  pose proof (find_loop_least (λ buf, pred buf key) (scan fs path w) 0) as H.
  destruct (find_loop _ _ _) as [idx [buf|]]; [|done].
  destruct H as (k & -> & Hk & Hp & Hleast).
  replace (Z.to_nat (0 + Z.of_nat k)) with k by lia.
  split; [lia|]. split; [done|]. split; [done|]. split; [done|].
  intros Hw Hsize.
  pose proof (scan_length_bound fs path w Hw) as Hb.
  pose proof (lookup_lt_Some _ _ _ Hk) as Hlt.
  rewrite file_read_at_scan by (try done; unfold LONG_MIN; nia).
  destruct (Z.leb_spec 0 (0 + Z.of_nat k)); [|lia].
  replace (Z.to_nat (0 + Z.of_nat k)) with k by lia. by rewrite Hk.
Qed.

Lemma file_find_first_least_witness :
  0 < 2 ∧
  (Z.of_nat (length (content two_records FILE_STUD)) ≤ LONG_MAX)%Z ∧
  file_find_first two_records FILE_STUD 2
    (λ buf (k : byte), bool_decide (buf !! 0 = Some k)) x03 = (1%Z, Some [x03; x04]) ∧
  file_read_at two_records FILE_STUD 2 1 = (1%Z, Some [x03; x04]).
Proof.
  assert (Hw : 0 < 2) by lia.
  assert (Hs : (Z.of_nat (length (content two_records FILE_STUD)) ≤ LONG_MAX)%Z)
    by done.
  split; [exact Hw|]. split; [exact Hs|]. split; [reflexivity|].
  pose proof (file_find_first_least two_records FILE_STUD 2
                (λ buf (k : byte), bool_decide (buf !! 0 = Some k)) x03) as H.
  change (file_find_first two_records FILE_STUD 2
            (λ buf (k : byte), bool_decide (buf !! 0 = Some k)) x03)
    with (1%Z, Some [x03; x04]) in H.
  destruct H as (_ & _ & _ & _ & H). exact (H Hw Hs).
Defined.

Lemma records_replicate (w k : nat) (c : byte) :
  0 < w → records w (replicate (k * w) c) = replicate k (replicate w c).
Proof.
  intros Hw. induction k as [|k IH]; [by rewrite records_short by (simpl; lia)|].
  replace (S k * w) with (w + k * w) by lia.
  rewrite replicate_add, records_cons by (try rewrite length_replicate; done).
  by rewrite IH.
Qed.

(** X6.  Writing at an index past the count of a file of whole records
    adds the records in between as records of zero bytes, after the records
    that were there and before the written one. *)
Theorem file_write_at_gap (fs : gmap string file) (path : string) (w : nat)
    (index : Z) (rec data : list byte) :
  0 < w → length rec = w → fopen_rb fs path = Some data →
  whole_records w data →
  (file_count_records fs path w ≤ index)%Z →
  (index * Z.of_nat w ≤ LONG_MAX)%Z →
  let r := file_write_at fs path w index rec in
  fst r = 1%Z ∧
  scan (snd r) path w =
    scan fs path w
      ++ replicate (Z.to_nat index - length (scan fs path w)) (replicate w NUL)
      ++ [rec].
Proof.
  intros Hw Hrec Ho Hwhole Hidx Hr r.
  rewrite (file_count_records_open _ _ _ _ Ho) in Hidx.
  unfold r. rewrite (file_write_at_open _ _ _ _ _ _ Ho) by (try done; lia).
  split; [done|]. cbn [snd]. rewrite scan_insert.
  unfold scan. rewrite Ho. cbn [from_option].
  rewrite length_records.
  unfold whole_records in Hwhole.
  pose proof (Nat.div_mod_eq (length data) w) as Hd.
  set (n := length data / w) in *.
  assert (Hlen : length data = n * w) by lia.
  set (i := Z.to_nat index). assert (Hni : n ≤ i) by lia.
  unfold pwrite. rewrite take_ge by nia. rewrite (drop_ge data) by nia.
  rewrite app_nil_r.
  replace (i * w - length data) with ((i - n) * w) by nia.
  rewrite (records_app w n) by done.
  rewrite (records_app w (i - n)) by (try rewrite length_replicate; done).
  by rewrite records_replicate, (records_one w rec) by done.
Qed.

Lemma file_write_at_gap_witness :
  0 < 2 ∧ length [x41; x42] = 2 ∧
  fopen_rb one_record FILE_STUD = Some [x01; x02] ∧
  whole_records 2 [x01; x02] ∧
  (file_count_records one_record FILE_STUD 2 ≤ 3)%Z ∧
  (3 * Z.of_nat 2 ≤ LONG_MAX)%Z ∧
  scan (snd (file_write_at one_record FILE_STUD 2 3 [x41; x42])) FILE_STUD 2 =
    scan one_record FILE_STUD 2
      ++ replicate (Z.to_nat 3 - length (scan one_record FILE_STUD 2))
           (replicate 2 NUL)
      ++ [[x41; x42]].
Proof.
  assert (H1 : 0 < 2) by lia.
  assert (H2 : length [x41; x42] = 2) by reflexivity.
  assert (H3 : fopen_rb one_record FILE_STUD = Some [x01; x02]) by reflexivity.
  assert (H4 : whole_records 2 [x01; x02]) by reflexivity.
  assert (H5 : (file_count_records one_record FILE_STUD 2 ≤ 3)%Z) by done.
  assert (H6 : (3 * Z.of_nat 2 ≤ LONG_MAX)%Z) by done.
  repeat (split; [assumption|]).
  exact (proj2 (file_write_at_gap one_record FILE_STUD 2 3 [x41; x42] [x01; x02]
                  H1 H2 H3 H4 H5 H6)).
Defined.

(** ** Records found and rewritten *)

Lemma records_length (w : nat) (s b : list byte) :
  0 < w → b ∈ records w s → length b = w.
Proof.
  intros Hw (k & Hk)%list_elem_of_lookup_1.
  destruct (records_lookup_inv _ _ _ _ Hw Hk) as [Hlt ->].
  unfold slice. rewrite length_take, length_drop.
  pose proof (Nat.Div0.mul_div_le (length s) w). nia.
Qed.

Lemma scan_length (fs : gmap string file) (path : string) (w : nat)
    (b : list byte) :
  0 < w → b ∈ scan fs path w → length b = w.
Proof.
  intros Hw. unfold scan. destruct (fopen_rb fs path); simpl.
  - by apply records_length.
  - by intros ?%elem_of_nil.
Qed.

Lemma scan_content (fs : gmap string file) (path : string) (data : list byte) :
  fopen_rb fs path = Some data → content fs path = data.
Proof. intros H%fopen_rb_Some. unfold content. by rewrite H. Qed.

Lemma find_loop_list_find (pred : list byte → bool) (P : list byte → Prop)
    `{∀ b, Decision (P b)} (rs : list (list byte)) (i : Z) :
  (∀ b, pred b = bool_decide (P b)) →
  find_loop pred rs i =
  match list_find P rs with
  | Some (k, b) => ((i + Z.of_nat k)%Z, Some b)
  | None => ((-1)%Z, None)
  end.
Proof.
  intros Hp. revert i. induction rs as [|r rs IH]; intros i; [done|].
  cbn [find_loop list_find]. rewrite Hp.
  destruct (decide (P r)) as [Hr|Hr].
  - rewrite bool_decide_eq_true_2 by done. by rewrite Z.add_0_r.
  - rewrite bool_decide_eq_false_2 by done. rewrite IH.
    destruct (list_find P rs) as [[k b]|]; simpl; [|done].
    f_equal. lia.
Qed.

(** A search by key finds the first record with that key. *)
Lemma file_find_first_with {P K : Type} `{EqDecision K}
    (fs : gmap string file) (path : string) (w : nat)
    (pred : list byte → P → bool) (key : P) (keyof : list byte → K) (k : K) :
  (∀ buf, pred buf key = bool_decide (keyof buf = k)) →
  file_find_first fs path w pred key =
  match first_with keyof k (scan fs path w) with
  | Some (i, b) => (Z.of_nat i, Some b)
  | None => ((-1)%Z, None)
  end.
Proof.
  intros Hp. rewrite file_find_first_scan. unfold first_with.
  rewrite (find_loop_list_find _ (λ buf, keyof buf = k)) by done.
  by destruct (list_find _ _) as [[i b]|].
Qed.

Lemma first_with_Some {K : Type} `{EqDecision K} (keyof : list byte → K)
    (k : K) (rs : list (list byte)) (i : nat) (b : list byte) :
  first_with keyof k rs = Some (i, b) →
  rs !! i = Some b ∧ keyof b = k ∧
  ∀ j c, j < i → rs !! j = Some c → keyof c ≠ k.
Proof.
  unfold first_with. intros (Hi & Hk & Hleast)%list_find_Some.
  split; [done|]. split; [done|]. intros j c Hj Hc. by eapply Hleast.
Qed.

Lemma first_with_None {K : Type} `{EqDecision K} (keyof : list byte → K)
    (k : K) (rs : list (list byte)) :
  first_with keyof k rs = None ↔ k ∉ keyof <$> rs.
Proof.
  unfold first_with. rewrite list_find_None, Forall_forall. split.
  - intros H (b & -> & Hb)%list_elem_of_fmap. by apply (H b).
  - intros H b Hb Hk. apply H. apply list_elem_of_fmap. by exists b.
Qed.

(** Rewriting a record that a scan delivers: the write succeeds and
    changes that record only. *)
Lemma update_in_place (fs : gmap string file) (path : string) (w i : nat)
    (old new : list byte) :
  0 < w → length new = w → fits_long fs path →
  scan fs path w !! i = Some old →
  let r := file_write_at fs path w (Z.of_nat i) new in
  fst r = 1%Z ∧
  scan (snd r) path w = <[i := new]> (scan fs path w) ∧
  (∀ q, q ≠ path → snd r !! q = fs !! q) ∧
  length (content (snd r) path) = length (content fs path).
Proof.
  intros Hw Hnew Hfit Hi r. unfold fits_long in Hfit.
  destruct (fopen_rb fs path) as [data|] eqn:Ho;
    [|by unfold scan in Hi; rewrite Ho in Hi].
  rewrite (scan_content _ _ _ Ho) in Hfit.
  assert (Hs : scan fs path w = records w data) by (unfold scan; by rewrite Ho).
  rewrite Hs in Hi.
  destruct (records_lookup_inv _ _ _ _ Hw Hi) as [Hlt _].
  assert (Hin : (i + 1) * w ≤ length data).
  { pose proof (Nat.Div0.mul_div_le (length data) w). nia. }
  unfold r. rewrite (file_write_at_open _ _ _ _ _ _ Ho) by (try done; nia).
  rewrite Nat2Z.id. cbn [fst snd].
  destruct (records_pwrite_inside w i data new Hw Hnew Hin) as [Hlen Hrecs].
  split; [done|]. split; [by rewrite scan_insert, Hs|].
  split; [intros q Hq; by rewrite lookup_insert_ne|].
  unfold content. rewrite lookup_insert_eq. simpl.
  apply fopen_rb_Some in Ho. by rewrite Ho.
Qed.

(** ** Fields of a struct in memory *)

Lemma length_store_at (buf : list byte) (off : nat) (v : list byte) :
  off + length v ≤ length buf → length (store_at buf off v) = length buf.
Proof.
  intros H. unfold store_at.
  rewrite !length_app, length_take, length_drop. lia.
Qed.

Lemma slice_store_at_same (buf : list byte) (off : nat) (v : list byte) :
  off ≤ length buf → slice off (length v) (store_at buf off v) = v.
Proof.
  intros H. unfold slice, store_at.
  rewrite drop_app_length' by (rewrite length_take; lia).
  by rewrite take_app_length.
Qed.

Lemma slice_store_at_eq (buf : list byte) (off n : nat) (v : list byte) :
  length v = n → off ≤ length buf → slice off n (store_at buf off v) = v.
Proof. intros <-. apply slice_store_at_same. Qed.

Lemma slice_store_at_before (buf : list byte) (off o n : nat) (v : list byte) :
  o + n ≤ off → off ≤ length buf →
  slice o n (store_at buf off v) = slice o n buf.
Proof.
  intros Ho Hb. unfold slice, store_at.
  rewrite drop_app_le by (rewrite length_take; lia).
  rewrite take_app_le by (rewrite length_drop, length_take; lia).
  rewrite <- (take_drop off buf) at 2.
  rewrite drop_app_le by (rewrite length_take; lia).
  rewrite take_app_le by (rewrite length_drop, length_take; lia).
  done.
Qed.

Lemma slice_store_at_after (buf : list byte) (off o n : nat) (v : list byte) :
  off + length v ≤ o → off ≤ length buf →
  slice o n (store_at buf off v) = slice o n buf.
Proof.
  intros Ho Hb. unfold slice, store_at.
  rewrite drop_app_ge by (rewrite length_take; lia).
  rewrite length_take, Nat.min_l by lia.
  rewrite drop_app_ge by lia.
  rewrite drop_drop. do 2 f_equal. lia.
Qed.

Lemma take_store_at (buf : list byte) (off n : nat) (v : list byte) :
  n ≤ off → off ≤ length buf → take n (store_at buf off v) = take n buf.
Proof.
  intros Hn Hb.
  pose proof (slice_store_at_before buf off 0 n v ltac:(lia) Hb) as H.
  unfold slice in H. by rewrite !drop_0 in H.
Qed.

(** ** Entering a grade *)

(** Destructs the next [read_line] of the goal, keeping what it stored and
    what it left. *)
Ltac read_one b inp' Hb Hrest Hlen :=
  match goal with
  | |- context [read_line ?buf ?cap ?inp] =>
      pose proof (read_line_c_str buf cap inp) as Hb;
      pose proof (read_line_rest buf cap inp) as Hrest;
      pose proof (strlen_read_line buf cap inp) as Hlen;
      destruct (read_line buf cap inp) as [b inp'];
      cbn [fst snd] in Hb, Hrest, Hlen
  end.

Lemma typed_cons_inv (cap : nat) (caps : list nat) (inp l : list byte)
    (ls : list (list byte)) (rest : list byte) :
  typed (cap :: caps) inp = (l :: ls, rest) →
  c_str (take (cap - 1) (first_line inp)) = l ∧
  typed caps (drop ((cap - 1) `min` S (length (first_line inp))) inp) = (ls, rest).
Proof.
  cbn [typed]. intros [= <- <- <-]. split; [done|]. by destruct (typed _ _).
Qed.

Lemma typed_nil_inv (inp rest : list byte) : typed [] inp = ([], rest) → inp = rest.
Proof. by intros [= <-]. Qed.

Lemma strncpy_c_str (n : nat) (s : list byte) :
  strncpy n (c_str s) = strncpy n s.
Proof. unfold strncpy. by rewrite c_str_idemp. Qed.

Lemma table_points_c_str (g : list byte) :
  table_points (c_str g) = table_points g.
Proof. unfold table_points. by rewrite c_str_idemp. Qed.

Lemma c_str_take_line (n : nat) (l : list byte) :
  length (c_str (take n l)) ≤ n.
Proof.
  rewrite length_c_str. pose proof (strlen_le (take n l)) as H.
  rewrite length_take in H. lia.
Qed.

Lemma enrollment_key_store_grade (old v : list byte) :
  48 ≤ length old →
  enrollment_key (store_at old 48 v) = enrollment_key old.
Proof.
  intros H. unfold enrollment_key, Enrollment.view.
  cbn [Enrollment.studentId Enrollment.courseCode Enrollment.term].
  unfold MAX_ID, MAX_CODE, MAX_TERM.
  by rewrite !slice_store_at_before by lia.
Qed.

Lemma pred_enr_typed (buf b1 b2 b3 : list byte) :
  strlen b1 ≤ MAX_ID - 1 → strlen b2 ≤ MAX_CODE - 1 → strlen b3 ≤ MAX_TERM - 1 →
  pred_enr_by_key buf
    (EnrKey.Make (strncpy MAX_ID b1) (strncpy MAX_CODE b2) (strncpy MAX_TERM b3))
  = bool_decide (enrollment_key buf = (c_str b1, c_str b2, c_str b3)).
Proof.
  intros H1 H2 H3. rewrite pred_enr_by_key_key.
  cbn [EnrKey.sid EnrKey.code EnrKey.term].
  rewrite !c_str_strncpy.
  by rewrite !take_ge by (rewrite length_c_str; unfold MAX_ID, MAX_CODE, MAX_TERM in *; lia).
Qed.

(** The test on the grade typed: refused unless it is a symbol of the
    table or NA. *)
Lemma grade_test (g : list byte) :
  F32.ltb (grade_to_points g) F32.zero && negb (strcmp g (lit "NA") =? 0)%Z
  = negb (bool_decide (storable g)).
Proof.
  rewrite strcmp_eqb.
  pose proof (grade_to_points_valid g) as Hg.
  destruct (table_points g) as [p|] eqn:E.
  - destruct Hg as (Hgp & _ & Hlt). rewrite Hgp, Hlt. simpl. symmetry.
    apply negb_false_iff, bool_decide_eq_true_2. left. rewrite E. by eexists.
  - destruct Hg as (_ & _ & ->). simpl.
    change (c_str (lit "NA")) with (lit "NA").
    case_bool_decide as Hna; simpl; symmetry.
    + apply negb_false_iff, bool_decide_eq_true_2. by right.
    + apply negb_true_iff, bool_decide_eq_false_2.
      intros [[? H]|?]; [|done]. rewrite E in H. done.
Qed.

Lemma storable_c_str (g : list byte) : storable (c_str g) ↔ storable g.
Proof. unfold storable. by rewrite table_points_c_str, c_str_idemp. Qed.

Lemma c_str_grade_field (old g : list byte) :
  48 ≤ length old → strlen g ≤ 2 →
  c_str (Enrollment.grade (Enrollment.view
           (store_at old 48 (strncpy 2 g ++ [NUL])))) = c_str g.
Proof.
  intros Ho Hg. unfold Enrollment.view. cbn [Enrollment.grade].
  rewrite slice_store_at_eq
    by (try done; by rewrite length_app, length_strncpy).
  rewrite c_str_app_prefix, c_str_strncpy.
  apply take_ge. by rewrite length_c_str.
Qed.

Lemma fmap_insert_same_key {K : Type} (keyof : list byte → K)
    (rs : list (list byte)) (i : nat) (old new : list byte) :
  rs !! i = Some old → keyof new = keyof old →
  keyof <$> <[i := new]> rs = keyof <$> rs.
Proof.
  intros Hi Hk. rewrite list_fmap_insert, Hk.
  apply list_insert_id. by rewrite list_lookup_fmap, Hi.
Qed.

Lemma set_grade_result (uninit : nat → list byte) (inp : list byte)
    (fs : gmap string file) (sid code term g rest : list byte) :
  fits_long fs FILE_ENR →
  typed [MAX_ID; MAX_CODE; MAX_TERM; 3] inp = ([sid; code; term; g], rest) →
  let G := toupper <$> g in
  let r := set_grade uninit inp fs in
  match first_with enrollment_key (sid, code, term)
          (scan fs FILE_ENR Enrollment.size) with
  | None => fst (fst r) = [Note EnrollmentNotFound] ∧ snd r = fs
  | Some (k, old) =>
      if bool_decide (storable G) then
        ∃ new,
          fst (fst r) = [Note GradeUpdated] ∧ snd (fst r) = rest ∧
          scan (snd r) FILE_ENR Enrollment.size =
            <[k := new]> (scan fs FILE_ENR Enrollment.size) ∧
          take 48 new = take 48 old ∧
          c_str (Enrollment.grade (Enrollment.view new)) = G ∧
          (∀ q, q ≠ FILE_ENR → snd r !! q = fs !! q)
      else fst (fst r) = [Note InvalidGrade] ∧ snd r = fs
  end ∧
  enrollment_keys (snd r) = enrollment_keys fs ∧
  length (content (snd r) FILE_ENR) = length (content fs FILE_ENR).
Proof.
  intros Hfit Htyped G r.
  apply typed_cons_inv in Htyped as [Hsid Htyped].
  apply typed_cons_inv in Htyped as [Hcode Htyped].
  apply typed_cons_inv in Htyped as [Hterm Htyped].
  apply typed_cons_inv in Htyped as [Hg Hrest%typed_nil_inv].
  unfold r, set_grade. clear r.
  read_one b1 i1 Hb1 Hr1 Hl1. read_one b2 i2 Hb2 Hr2 Hl2.
  read_one b3 i3 Hb3 Hr3 Hl3.
  rewrite (file_find_first_with fs FILE_ENR Enrollment.size pred_enr_by_key _
             enrollment_key (c_str b1, c_str b2, c_str b3))
    by (intros buf; by apply pred_enr_typed).
  subst i1 i2 i3. rewrite Hb1, Hb2, Hb3, Hsid, Hcode, Hterm.
  destruct (first_with enrollment_key (sid, code, term)
              (scan fs FILE_ENR Enrollment.size)) as [[k old]|] eqn:Ef;
    [|done].
  apply first_with_Some in Ef as (Hk & Hkey & _).
  assert (Hold : length old = Enrollment.size).
  { eapply scan_length; [unfold Enrollment.size; lia|].
    by eapply list_elem_of_lookup_2. }
  destruct (Z.ltb_spec (Z.of_nat k) 0) as [?|_]; [lia|].
  cbn [from_option].
  read_one b4 i4 Hb4 Hr4 Hl4.
  rewrite grade_test.
  assert (HG : c_str (upper b4) = G).
  { by rewrite c_str_upper, Hb4, Hg. }
  assert (Hst : storable (upper b4) ↔ storable G).
  { by rewrite <- storable_c_str, HG. }
  rewrite (bool_decide_ext _ _ Hst).
  case_bool_decide as Hok; cbn [negb]; [|done].
  set (new := store_at old 48 (strncpy 2 (upper b4) ++ [NUL])).
  assert (Hnew : length new = Enrollment.size).
  { unfold new. rewrite length_store_at; [done|].
    rewrite length_app, length_strncpy, Hold. simpl. unfold Enrollment.size. lia. }
  destruct (update_in_place fs FILE_ENR Enrollment.size k old new
              ltac:(unfold Enrollment.size; lia) Hnew Hfit Hk)
    as (Hone & Hscan & Hother & Hlen).
  destruct (file_write_at fs FILE_ENR Enrollment.size (Z.of_nat k) new)
    as [ok fs'].
  cbn [fst snd] in *. subst ok. cbn [Z.eqb].
  assert (Hk48 : 48 ≤ length old) by (rewrite Hold; unfold Enrollment.size; lia).
  split; [|split; [|done]].
  - exists new. split; [done|]. split; [by rewrite Hr4|].
    split; [done|]. split; [by apply take_store_at|].
    split; [|done]. unfold new. rewrite <- HG.
    apply c_str_grade_field; [done|]. by rewrite strlen_upper.
  - unfold enrollment_keys. rewrite Hscan.
    apply (fmap_insert_same_key _ _ _ old); [done|].
    by apply enrollment_key_store_grade.
Qed.

(** X7.  [set_grade] looks the enrollment up by the three lines typed.
    When there is none it changes nothing, and it changes nothing either
    when the grade typed, put in upper case, is neither a symbol of the
    table nor NA.  Otherwise it rewrites in place the first enrollment with
    that key: the student, course and term of the record are untouched and
    its grade is the grade typed in upper case; no other record, no other
    file and no key of the store changes. *)
Theorem set_grade_spec (uninit : nat → list byte) (inp : list byte)
    (fs : gmap string file) (sid code term g rest : list byte) :
  fits_long fs FILE_ENR →
  typed [MAX_ID; MAX_CODE; MAX_TERM; 3] inp = ([sid; code; term; g], rest) →
  let G := toupper <$> g in
  let r := set_grade uninit inp fs in
  match first_with enrollment_key (sid, code, term)
          (scan fs FILE_ENR Enrollment.size) with
  | None => fst (fst r) = [Note EnrollmentNotFound] ∧ snd r = fs
  | Some (k, old) =>
      if bool_decide (storable G) then
        ∃ new,
          fst (fst r) = [Note GradeUpdated] ∧ snd (fst r) = rest ∧
          scan (snd r) FILE_ENR Enrollment.size =
            <[k := new]> (scan fs FILE_ENR Enrollment.size) ∧
          take 48 new = take 48 old ∧
          c_str (Enrollment.grade (Enrollment.view new)) = G ∧
          (∀ q, q ≠ FILE_ENR → snd r !! q = fs !! q)
      else fst (fst r) = [Note InvalidGrade] ∧ snd r = fs
  end ∧
  enrollment_keys (snd r) = enrollment_keys fs ∧
  length (content (snd r) FILE_ENR) = length (content fs FILE_ENR).
Proof. apply set_grade_result. Qed.

Lemma set_grade_spec_witness :
  fits_long scenario_fs FILE_ENR ∧
  typed [MAX_ID; MAX_CODE; MAX_TERM; 3] (lines ["S1"; "C2"; "T1"; "a-"]) =
    ([lit "S1"; lit "C2"; lit "T1"; lit "a-"], [NEWLINE]) ∧
  enrollment_keys (snd (set_grade stale (lines ["S1"; "C2"; "T1"; "a-"]) scenario_fs))
    = enrollment_keys scenario_fs.
Proof.
  assert (H1 : fits_long scenario_fs FILE_ENR) by (by vm_compute).
  assert (H2 : typed [MAX_ID; MAX_CODE; MAX_TERM; 3]
                 (lines ["S1"; "C2"; "T1"; "a-"]) =
               ([lit "S1"; lit "C2"; lit "T1"; lit "a-"], [NEWLINE]))
    by (vm_compute; reflexivity).
  split; [exact H1|]. split; [exact H2|].
  exact (proj1 (proj2 (set_grade_spec stale _ scenario_fs _ _ _ _ _ H1 H2))).
Defined.

Lemma typed_four (c1 c2 c3 c4 : nat) (inp : list byte) :
  ∃ l1 l2 l3 l4 rest, typed [c1; c2; c3; c4] inp = ([l1; l2; l3; l4], rest).
Proof. cbn [typed fst snd]. by repeat eexists. Qed.

Lemma c_str_toupper (l : list byte) :
  c_str (toupper <$> c_str l) = toupper <$> c_str l.
Proof. by rewrite <- c_str_upper, c_str_idemp. Qed.

(** X8.  Every grade in the enrollment store stays a symbol of the table
    or NA: [enroll_student] stores NA, and [set_grade] stores only a grade
    that passed its test. *)
Theorem grades_stay_storable (uninit : nat → list byte) (inp : list byte)
    (fs : gmap string file) :
  let known (fs : gmap string file) :=
    Forall (λ buf, storable (Enrollment.grade (Enrollment.view buf)))
      (scan fs FILE_ENR Enrollment.size) in
  fits_long fs FILE_ENR →
  whole_records Enrollment.size (content fs FILE_ENR) →
  known fs →
  known (snd (set_grade uninit inp fs)) ∧ known (snd (enroll_student inp fs)).
Proof.
  intros known Hfit Hwhole Hknown. split.
  - destruct (typed_four MAX_ID MAX_CODE MAX_TERM 3 inp)
      as (sid & code & term & g & rest & Ht).
    pose proof (typed_cons_inv _ _ _ _ _ _ Ht) as [_ Ht1].
    pose proof (typed_cons_inv _ _ _ _ _ _ Ht1) as [_ Ht2].
    pose proof (typed_cons_inv _ _ _ _ _ _ Ht2) as [_ Ht3].
    pose proof (typed_cons_inv _ _ _ _ _ _ Ht3) as [Hg _].
    destruct (set_grade_result uninit inp fs _ _ _ _ _ Hfit Ht) as [Hres _].
    destruct (first_with _ _ _) as [[k old]|]; [|by destruct Hres as [_ ->]].
    case_bool_decide as Hok; [|by destruct Hres as [_ ->]].
    destruct Hres as (new & _ & _ & Hscan & _ & Hgrade & _).
    unfold known. rewrite Hscan. apply Forall_insert; [done|].
    apply storable_c_str. by rewrite Hgrade.
  - destruct (enroll_student_result inp fs) as [Hres _].
    cbv zeta in Hres. apply (f_equal snd) in Hres. cbn [snd] in Hres.
    unfold known. rewrite Hres.
    repeat case_bool_decide; cbn [snd]; try done.
    pose proof (enroll_request_lengths inp) as (Hl1 & Hl2 & Hl3 & Hl4).
    destruct (append_fresh_key fs FILE_ENR Enrollment.size enrollment_key
                (Enrollment.image (enroll_request inp).1))
      as (_ & Hfail & _ & Hw).
    { unfold Enrollment.size. lia. }
    { unfold Enrollment.image. rewrite !length_app, Hl1, Hl2, Hl3, Hl4. done. }
    destruct (Hw Hwhole) as (_ & Hgrow & _).
    destruct (Z.eq_dec (file_append fs FILE_ENR Enrollment.size
                (Enrollment.image (enroll_request inp).1)).1 0%Z) as [E|E].
    + by rewrite (Hfail E).
    + rewrite (Hgrow E). apply Forall_app. split; [done|].
      apply Forall_singleton.
      rewrite enrollment_view_image by done.
      right. unfold enroll_request.
      destruct (read_line _ _ _) as [a i1]. destruct (read_line _ _ _) as [b i2].
      destruct (read_line _ _ _) as [c i3]. reflexivity.
Qed.

Lemma grades_stay_storable_witness :
  fits_long scenario_fs FILE_ENR ∧
  whole_records Enrollment.size (content scenario_fs FILE_ENR) ∧
  Forall (λ buf, storable (Enrollment.grade (Enrollment.view buf)))
    (scan (snd (set_grade stale (lines ["S1"; "C2"; "T1"; "a-"]) scenario_fs))
       FILE_ENR Enrollment.size).
Proof.
  assert (H1 : fits_long scenario_fs FILE_ENR) by (by vm_compute).
  assert (H2 : whole_records Enrollment.size (content scenario_fs FILE_ENR))
    by (vm_compute; reflexivity).
  assert (H3 : Forall (λ buf, storable (Enrollment.grade (Enrollment.view buf)))
                 (scan scenario_fs FILE_ENR Enrollment.size)).
  { apply (bool_decide_unpack _). vm_compute. exact I. }
  split; [exact H1|]. split; [exact H2|].
  exact (proj1 (grades_stay_storable stale (lines ["S1"; "C2"; "T1"; "a-"])
                  scenario_fs H1 H2 H3)).
Defined.

(** ** Editing a student *)

Lemma get_le_put_le (n : nat) (z : Z) :
  get_le (put_le n z) = (z `mod` 256 ^ Z.of_nat n)%Z.
Proof.
  revert z. induction n as [|n IH]; intros z.
  - simpl. by rewrite Z.mod_1_r.
  - cbn [put_le get_le foldr]. fold (get_le (put_le n (z / 256))).
    rewrite IH, byte_val_byte_of_Z
      by (pose proof (Z.mod_pos_bound z 256); lia).
    rewrite Nat2Z.inj_succ, Z.pow_succ_r by lia.
    rewrite Z.rem_mul_r by lia. done.
Qed.

Lemma to_int_get_le_put_le (z : Z) : to_int (get_le (put_le 4 z)) = to_int z.
Proof.
  rewrite get_le_put_le. unfold to_int, wrap_signed.
  change (256 ^ Z.of_nat 4)%Z with (2 ^ 32)%Z.
  by rewrite Zplus_mod_idemp_l.
Qed.

Lemma strlen_eqb_0 (b : list byte) :
  (strlen b =? 0)%nat = bool_decide (c_str b = []).
Proof.
  rewrite <- length_c_str.
  destruct (c_str b) as [|c l]; symmetry;
    [by apply bool_decide_eq_true_2|by apply bool_decide_eq_false_2].
Qed.

Lemma student_key_store (old v : list byte) (off : nat) :
  MAX_ID ≤ off → off ≤ length old →
  student_key (store_at old off v) = student_key old.
Proof.
  intros H1 H2. unfold student_key, Student.view. cbn [Student.id].
  by rewrite slice_store_at_before by lia.
Qed.

(** Solves the side conditions on offsets and lengths of stores into a
    struct. *)
Ltac field_bounds :=
  rewrite ?length_strncpy, ?length_put_le;
  unfold MAX_ID, MAX_NAME, MAX_DEPT, MAX_EMAIL, MAX_CODE, MAX_TITLE,
    Student.size, Course.size in *;
  lia.

Ltac field_slices :=
  repeat first
    [ rewrite slice_store_at_eq by field_bounds
    | rewrite slice_store_at_before by field_bounds
    | rewrite slice_store_at_after by field_bounds ].

Lemma edit_student_result (atoi : list byte → Z) (uninit : nat → list byte)
    (inp : list byte) (fs : gmap string file)
    (id name dept email batch rest : list byte) :
  (∀ b, atoi b = atoi (c_str b)) →
  fits_long fs FILE_STUD →
  typed [MAX_ID; 128; 128; 128; 128] inp = ([id; name; dept; email; batch], rest) →
  let r := edit_student atoi uninit inp fs in
  match first_with student_key id (scan fs FILE_STUD Student.size) with
  | None => fst (fst r) = [Note NotFound] ∧ snd r = fs
  | Some (k, old) =>
      ∃ new,
        fst (fst r) =
          [print_student (Student.view old); Note LeaveBlank; Note Updated] ∧
        snd (fst r) = rest ∧
        scan (snd r) FILE_STUD Student.size =
          <[k := new]> (scan fs FILE_STUD Student.size) ∧
        (∀ q, q ≠ FILE_STUD → snd r !! q = fs !! q) ∧
        Student.id (Student.view new) = Student.id (Student.view old) ∧
        Student.name (Student.view new) =
          (if decide (name = []) then Student.name (Student.view old)
           else strncpy MAX_NAME name) ∧
        Student.dept (Student.view new) =
          (if decide (dept = []) then Student.dept (Student.view old)
           else strncpy MAX_DEPT dept) ∧
        Student.email (Student.view new) =
          (if decide (email = []) then Student.email (Student.view old)
           else strncpy MAX_EMAIL email) ∧
        Student.batch (Student.view new) =
          (if decide (batch = []) then Student.batch (Student.view old)
           else to_int (atoi batch))
  end ∧
  student_keys (snd r) = student_keys fs ∧
  length (content (snd r) FILE_STUD) = length (content fs FILE_STUD).
Proof.
  intros Hatoi Hfit Htyped r.
  apply typed_cons_inv in Htyped as [Hid Htyped].
  apply typed_cons_inv in Htyped as [Hname Htyped].
  apply typed_cons_inv in Htyped as [Hdept Htyped].
  apply typed_cons_inv in Htyped as [Hemail Htyped].
  apply typed_cons_inv in Htyped as [Hbatch Hrest%typed_nil_inv].
  unfold r, edit_student. clear r.
  read_one b1 i1 Hb1 Hr1 Hl1.
  rewrite (file_find_first_with fs FILE_STUD Student.size pred_student_by_id b1
             student_key (c_str b1))
    by (intros buf; apply pred_student_by_id_key).
  subst i1. rewrite Hb1, Hid.
  destruct (first_with student_key id (scan fs FILE_STUD Student.size))
    as [[k old]|] eqn:Ef; [|done].
  apply first_with_Some in Ef as (Hk & Hkey & _).
  assert (Hold : length old = Student.size).
  { eapply scan_length; [unfold Student.size; lia|].
    by eapply list_elem_of_lookup_2. }
  destruct (Z.ltb_spec (Z.of_nat k) 0) as [?|_]; [lia|].
  cbn [from_option].
  read_one b2 i2 Hb2 Hr2 Hl2. read_one b3 i3 Hb3 Hr3 Hl3.
  read_one b4 i4 Hb4 Hr4 Hl4. read_one b5 i5 Hb5 Hr5 Hl5.
  subst i2 i3 i4. rewrite Hname in Hb2. rewrite Hdept in Hb3.
  rewrite Hemail in Hb4. rewrite Hbatch in Hb5. rewrite Hrest in Hr5.
  rewrite !strlen_eqb_0, Hb2, Hb3, Hb4, Hb5.
  rewrite <- (strncpy_c_str _ b2), <- (strncpy_c_str _ b3),
    <- (strncpy_c_str _ b4), (Hatoi b5), Hb2, Hb3, Hb4, Hb5.
  set (s1 := if bool_decide (name = []) then old
             else store_at old 16 (strncpy MAX_NAME name)).
  set (s2 := if bool_decide (dept = []) then s1
             else store_at s1 80 (strncpy MAX_DEPT dept)).
  set (s3 := if bool_decide (email = []) then s2
             else store_at s2 116 (strncpy MAX_EMAIL email)).
  set (new := if bool_decide (batch = []) then s3
              else store_at s3 112 (put_le 4 (atoi batch))).
  clear Hid Hname Hdept Hemail Hbatch Hb1 Hb2 Hb3 Hb4 Hb5 Hl1 Hl2 Hl3 Hl4 Hl5
    Hrest.
  assert (Hs1 : length s1 = Student.size).
  { unfold s1. case_bool_decide; [done|].
    rewrite length_store_at; field_bounds. }
  assert (Hs2 : length s2 = Student.size).
  { unfold s2. case_bool_decide; [done|].
    rewrite length_store_at; field_bounds. }
  assert (Hs3 : length s3 = Student.size).
  { unfold s3. case_bool_decide; [done|].
    rewrite length_store_at; field_bounds. }
  assert (Hnew : length new = Student.size).
  { unfold new. case_bool_decide; [done|].
    rewrite length_store_at; field_bounds. }
  destruct (update_in_place fs FILE_STUD Student.size k old new
              ltac:(unfold Student.size; lia) Hnew Hfit Hk)
    as (Hone & Hscan & Hother & Hlen).
  destruct (file_write_at fs FILE_STUD Student.size (Z.of_nat k) new)
    as [ok fs'].
  cbn [fst snd] in *. subst ok. cbn [Z.eqb].
  assert (Hview :
    Student.id (Student.view new) = Student.id (Student.view old) ∧
    Student.name (Student.view new) =
      (if decide (name = []) then Student.name (Student.view old)
       else strncpy MAX_NAME name) ∧
    Student.dept (Student.view new) =
      (if decide (dept = []) then Student.dept (Student.view old)
       else strncpy MAX_DEPT dept) ∧
    Student.email (Student.view new) =
      (if decide (email = []) then Student.email (Student.view old)
       else strncpy MAX_EMAIL email) ∧
    Student.batch (Student.view new) =
      (if decide (batch = []) then Student.batch (Student.view old)
       else to_int (atoi batch))).
  { unfold Student.view.
    cbn [Student.id Student.name Student.dept Student.email Student.batch].
    clear Hscan Hother Hk Hkey Hfit.
    unfold new. case_bool_decide; case_decide; try done; field_slices;
      rewrite ?to_int_get_le_put_le;
      (unfold s3; case_bool_decide; case_decide; try done; field_slices;
       unfold s2; case_bool_decide; case_decide; try done; field_slices;
       unfold s1; case_bool_decide; case_decide; try done; field_slices;
       done). }
  split; [|split; [|done]].
  - exists new. split; [done|]. split; [done|]. split; [done|]. by split.
  - unfold student_keys. rewrite Hscan.
    apply (fmap_insert_same_key _ _ _ old); [done|].
    unfold student_key. by rewrite (proj1 Hview).
Qed.

Lemma digits_c_str (acc : Z) (s : list byte) :
  digits acc (c_str s) = digits acc s.
Proof.
  revert acc. induction s as [|c s IH]; intros acc; [reflexivity|].
  rewrite c_str_cons. destruct (byte_eqb_spec c NUL) as [->|Hc]; [reflexivity|].
  simpl. by rewrite IH.
Qed.

Lemma atoi_digits_c_str (b : list byte) : atoi_digits b = atoi_digits (c_str b).
Proof. unfold atoi_digits. by rewrite digits_c_str. Qed.

(** X9.  [edit_student] changes nothing when no student has the id
    typed.  Otherwise it rewrites in place the first record with that id:
    the id is untouched, a field whose line was left empty keeps its bytes,
    and a field whose line was filled holds that line, cut at the size of
    the field; no other record, no other file and no key of the store
    changes. *)
Theorem edit_student_spec (atoi : list byte → Z) (uninit : nat → list byte)
    (inp : list byte) (fs : gmap string file)
    (id name dept email batch rest : list byte) :
  (∀ b, atoi b = atoi (c_str b)) →
  fits_long fs FILE_STUD →
  typed [MAX_ID; 128; 128; 128; 128] inp = ([id; name; dept; email; batch], rest) →
  let r := edit_student atoi uninit inp fs in
  match first_with student_key id (scan fs FILE_STUD Student.size) with
  | None => fst (fst r) = [Note NotFound] ∧ snd r = fs
  | Some (k, old) =>
      ∃ new,
        fst (fst r) =
          [print_student (Student.view old); Note LeaveBlank; Note Updated] ∧
        snd (fst r) = rest ∧
        scan (snd r) FILE_STUD Student.size =
          <[k := new]> (scan fs FILE_STUD Student.size) ∧
        (∀ q, q ≠ FILE_STUD → snd r !! q = fs !! q) ∧
        Student.id (Student.view new) = Student.id (Student.view old) ∧
        Student.name (Student.view new) =
          (if decide (name = []) then Student.name (Student.view old)
           else strncpy MAX_NAME name) ∧
        Student.dept (Student.view new) =
          (if decide (dept = []) then Student.dept (Student.view old)
           else strncpy MAX_DEPT dept) ∧
        Student.email (Student.view new) =
          (if decide (email = []) then Student.email (Student.view old)
           else strncpy MAX_EMAIL email) ∧
        Student.batch (Student.view new) =
          (if decide (batch = []) then Student.batch (Student.view old)
           else to_int (atoi batch))
  end ∧
  student_keys (snd r) = student_keys fs ∧
  length (content (snd r) FILE_STUD) = length (content fs FILE_STUD).
Proof. apply edit_student_result. Qed.

Lemma edit_student_spec_witness :
  (∀ b, atoi_digits b = atoi_digits (c_str b)) ∧
  fits_long scenario_fs FILE_STUD ∧
  typed [MAX_ID; 128; 128; 128; 128] (lines ["S2"; "Second"; EmptyString; EmptyString; "251"]) =
    ([lit "S2"; lit "Second"; []; []; lit "251"], []) ∧
  student_keys (snd (edit_student atoi_digits stale
                       (lines ["S2"; "Second"; EmptyString; EmptyString; "251"]) scenario_fs))
    = student_keys scenario_fs.
Proof.
  assert (H1 : fits_long scenario_fs FILE_STUD) by (by vm_compute).
  assert (H2 : typed [MAX_ID; 128; 128; 128; 128]
                 (lines ["S2"; "Second"; EmptyString; EmptyString; "251"]) =
               ([lit "S2"; lit "Second"; []; []; lit "251"], []))
    by (vm_compute; reflexivity).
  split; [exact atoi_digits_c_str|]. split; [exact H1|]. split; [exact H2|].
  exact (proj1 (proj2 (edit_student_spec atoi_digits stale _ scenario_fs
                         _ _ _ _ _ _ atoi_digits_c_str H1 H2))).
Defined.

(** ** Assigning an instructor *)

Lemma pred_faculty_by_id_key (buf key : list byte) :
  pred_faculty_by_id buf key = bool_decide (faculty_key buf = c_str key).
Proof. unfold pred_faculty_by_id. apply strcmp_eqb. Qed.

Lemma c_str_take (n : nat) (s : list byte) :
  c_str (take n s) = take n (c_str s).
Proof.
  revert n. induction s as [|c s IH]; intros [|n]; try reflexivity.
  cbn [take]. rewrite !c_str_cons.
  destruct (Byte.eqb c NUL); [done|]. cbn [take]. by rewrite IH.
Qed.

Lemma strlen_line (b l : list byte) (cap : nat) :
  0 < cap → c_str b = c_str (take (cap - 1) l) → strlen b < cap.
Proof.
  intros Hc Hb. rewrite <- length_c_str, Hb, length_c_str.
  pose proof (strlen_le (take (cap - 1) l)) as H.
  rewrite length_take in H. lia.
Qed.

(** A name shorter than its field is decided inside the field. *)
Lemma pred_user_by_username_key (buf key : list byte) :
  strlen key < MAX_USER →
  pred_user_by_username buf key = bool_decide (user_key buf = c_str key).
Proof.
  intros Hk. unfold pred_user_by_username, user_key, User.view, slice.
  cbn [User.username]. rewrite !drop_0, strcmp_eqb, c_str_take.
  apply bool_decide_ext. split.
  - intros ->. apply take_ge. rewrite length_c_str. lia.
  - intros H.
    assert (Hl : length (c_str buf) < MAX_USER).
    { destruct (decide (length (c_str buf) < MAX_USER)) as [|Hge]; [done|].
      apply (f_equal length) in H.
      rewrite length_take, (length_c_str key) in H. lia. }
    by rewrite take_ge in H by lia.
Qed.

Lemma course_key_store (old v : list byte) (off : nat) :
  MAX_CODE ≤ off → off ≤ length old →
  course_key (store_at old off v) = course_key old.
Proof.
  intros H1 H2. unfold course_key, Course.view. cbn [Course.code].
  by rewrite slice_store_at_before by lia.
Qed.

Lemma assign_instructor_result (uninit : nat → list byte) (inp : list byte)
    (fs : gmap string file) (code fid rest : list byte) :
  fits_long fs FILE_COURSE →
  typed [MAX_CODE; MAX_ID] inp = ([code; fid], rest) →
  let r := assign_instructor uninit inp fs in
  match first_with course_key code (scan fs FILE_COURSE Course.size) with
  | None => fst (fst r) = [Told CourseNotFound] ∧ snd r = fs
  | Some (k, old) =>
      if bool_decide (fid ∈ faculty_keys fs) then
        ∃ new,
          fst (fst r) = [Note InstructorAssigned] ∧ snd (fst r) = rest ∧
          scan (snd r) FILE_COURSE Course.size =
            <[k := new]> (scan fs FILE_COURSE Course.size) ∧
          take 116 new = take 116 old ∧
          Course.instructorId (Course.view new) = strncpy MAX_ID fid ∧
          (∀ q, q ≠ FILE_COURSE → snd r !! q = fs !! q)
      else fst (fst r) = [Note FacultyNotFound] ∧ snd r = fs
  end ∧
  course_keys (snd r) = course_keys fs ∧
  (λ buf, Course.credit (Course.view buf)) <$> scan (snd r) FILE_COURSE Course.size
    = (λ buf, Course.credit (Course.view buf)) <$> scan fs FILE_COURSE Course.size ∧
  length (content (snd r) FILE_COURSE) = length (content fs FILE_COURSE).
Proof.
  intros Hfit Htyped r.
  apply typed_cons_inv in Htyped as [Hcode Htyped].
  apply typed_cons_inv in Htyped as [Hfid Hrest%typed_nil_inv].
  unfold r, assign_instructor. clear r.
  read_one b1 i1 Hb1 Hr1 Hl1.
  rewrite (file_find_first_with fs FILE_COURSE Course.size pred_course_by_code b1
             course_key (c_str b1))
    by (intros buf; apply pred_course_by_code_key).
  subst i1. rewrite Hb1, Hcode.
  destruct (first_with course_key code (scan fs FILE_COURSE Course.size))
    as [[k old]|] eqn:Ef; [|done].
  apply first_with_Some in Ef as (Hk & Hkey & _).
  assert (Hold : length old = Course.size).
  { eapply scan_length; [unfold Course.size; lia|].
    by eapply list_elem_of_lookup_2. }
  destruct (Z.ltb_spec (Z.of_nat k) 0) as [?|_]; [lia|].
  cbn [from_option].
  read_one b2 i2 Hb2 Hr2 Hl2.
  destruct (file_find_first_key fs FILE_FAC Faculty.size pred_faculty_by_id
              b2 faculty_key (c_str b2) (λ buf, pred_faculty_by_id_key buf b2))
    as [_ ->].
  fold (faculty_keys fs). rewrite Hb2, Hfid.
  rewrite <- (strncpy_c_str _ b2), Hb2, Hfid.
  case_bool_decide as Hfac; cbn [negb]; [|done].
  set (new := store_at old 116 (strncpy MAX_ID fid)).
  assert (Hnew : length new = Course.size).
  { unfold new. rewrite length_store_at; field_bounds. }
  destruct (update_in_place fs FILE_COURSE Course.size k old new
              ltac:(unfold Course.size; lia) Hnew Hfit Hk)
    as (Hone & Hscan & Hother & Hlen).
  destruct (file_write_at fs FILE_COURSE Course.size (Z.of_nat k) new)
    as [ok fs'].
  cbn [fst snd] in *. subst ok. cbn [Z.eqb].
  split; [|split; [|split; [|done]]].
  - exists new. split; [done|]. split; [congruence|]. split; [done|].
    split; [apply take_store_at; field_bounds|]. split; [|done].
    unfold Course.view. cbn [Course.instructorId]. unfold new.
    rewrite slice_store_at_eq; [done|field_bounds..].
  - unfold course_keys. rewrite Hscan.
    apply (fmap_insert_same_key _ _ _ old); [done|].
    apply course_key_store; field_bounds.
  - rewrite Hscan.
    apply (fmap_insert_same_key (λ buf, Course.credit (Course.view buf)) _ _ old);
      [done|].
    unfold Course.view. cbn [Course.credit]. unfold new.
    rewrite slice_store_at_before; [done|field_bounds..].
Qed.

(** X10.  [assign_instructor] rewrites a course only when the code typed
    is the key of a course and the id typed is the key of a faculty record;
    then the first course with that code has the id as its instructor and
    nothing else of it is touched: code, title, credit and department keep
    their bytes.  In every other case nothing changes; the keys and the
    credits of the course store are the same afterwards in all cases. *)
Theorem assign_instructor_spec (uninit : nat → list byte) (inp : list byte)
    (fs : gmap string file) (code fid rest : list byte) :
  fits_long fs FILE_COURSE →
  typed [MAX_CODE; MAX_ID] inp = ([code; fid], rest) →
  let r := assign_instructor uninit inp fs in
  match first_with course_key code (scan fs FILE_COURSE Course.size) with
  | None => fst (fst r) = [Told CourseNotFound] ∧ snd r = fs
  | Some (k, old) =>
      if bool_decide (fid ∈ faculty_keys fs) then
        ∃ new,
          fst (fst r) = [Note InstructorAssigned] ∧ snd (fst r) = rest ∧
          scan (snd r) FILE_COURSE Course.size =
            <[k := new]> (scan fs FILE_COURSE Course.size) ∧
          take 116 new = take 116 old ∧
          Course.instructorId (Course.view new) = strncpy MAX_ID fid ∧
          (∀ q, q ≠ FILE_COURSE → snd r !! q = fs !! q)
      else fst (fst r) = [Note FacultyNotFound] ∧ snd r = fs
  end ∧
  course_keys (snd r) = course_keys fs ∧
  (λ buf, Course.credit (Course.view buf)) <$> scan (snd r) FILE_COURSE Course.size
    = (λ buf, Course.credit (Course.view buf)) <$> scan fs FILE_COURSE Course.size ∧
  length (content (snd r) FILE_COURSE) = length (content fs FILE_COURSE).
Proof. apply assign_instructor_result. Qed.

Lemma assign_instructor_spec_witness :
  fits_long scenario_fs FILE_COURSE ∧
  typed [MAX_CODE; MAX_ID] (lines ["C1"; "F9"]) = ([lit "C1"; lit "F9"], []) ∧
  fst (fst (assign_instructor stale (lines ["C1"; "F9"]) scenario_fs))
    = [Note FacultyNotFound] ∧
  course_keys (snd (assign_instructor stale (lines ["C1"; "F9"]) scenario_fs))
    = course_keys scenario_fs.
Proof.
  assert (H1 : fits_long scenario_fs FILE_COURSE) by (by vm_compute).
  assert (H2 : typed [MAX_CODE; MAX_ID] (lines ["C1"; "F9"]) =
               ([lit "C1"; lit "F9"], [])) by (vm_compute; reflexivity).
  split; [exact H1|]. split; [exact H2|]. split; [vm_compute; reflexivity|].
  exact (proj1 (proj2 (assign_instructor_spec stale _ scenario_fs _ _ _ H1 H2))).
Defined.

(** ** Adding after a search *)

Lemma file_append_unlocked (fs : gmap string file) (path : string) (w : nat)
    (rec : list byte) :
  0 < w → unlocked fs path → fst (file_append fs path w rec) = 1%Z.
Proof.
  intros Hw Hu. unfold file_append, fopen_ab.
  destruct (fs !! path) as [[l d]|] eqn:E.
  - specialize (Hu _ E). simpl in Hu. subst l. simpl.
    by destruct (Nat.eqb_spec w 0); [lia|].
  - by destruct (Nat.eqb_spec w 0); [lia|].
Qed.

Lemma unlocked_append (fs : gmap string file) (path q : string) (w : nat)
    (rec : list byte) :
  unlocked fs q → unlocked (snd (file_append fs path w rec)) q.
Proof.
  intros Hu. unfold file_append, fopen_ab.
  destruct (fs !! path) as [[[] d]|] eqn:E; simpl; try done;
    destruct (w =? 0); simpl; intros f;
    (destruct (decide (q = path)) as [->|Hne];
     [rewrite lookup_insert_eq; by intros [= <-]
     |rewrite lookup_insert_ne by done; apply Hu]).
Qed.

Lemma first_with_snoc_fresh {K : Type} `{EqDecision K} (keyof : list byte → K)
    (rs : list (list byte)) (new : list byte) :
  keyof new ∉ keyof <$> rs →
  first_with keyof (keyof new) (rs ++ [new]) = Some (length rs, new).
Proof.
  intros Hfresh. unfold first_with.
  rewrite list_find_app_r by (by apply first_with_None).
  cbn [list_find]. rewrite decide_True by done. reflexivity.
Qed.

(** What an append after a failed search by key gives, on a file of whole
    records that opens for writing. *)
Lemma append_after_search {K : Type} `{EqDecision K} (fs : gmap string file)
    (path : string) (w : nat) (keyof : list byte → K) (new : list byte) :
  0 < w → length new = w → unlocked fs path →
  whole_records w (content fs path) →
  keyof new ∉ keyof <$> scan fs path w →
  let r := file_append fs path w new in
  fst r = 1%Z ∧
  scan (snd r) path w = scan fs path w ++ [new] ∧
  first_with keyof (keyof new) (scan (snd r) path w)
    = Some (length (scan fs path w), new) ∧
  (NoDup (keyof <$> scan fs path w) → NoDup (keyof <$> scan (snd r) path w)) ∧
  whole_records w (content (snd r) path) ∧
  (∀ q, q ≠ path → snd r !! q = fs !! q).
Proof.
  intros Hw Hlen Hu Hwhole Hfresh r.
  pose proof (file_append_unlocked fs path w new Hw Hu) as H1.
  destruct (append_fresh_key fs path w keyof new Hw Hlen)
    as (Hoth & _ & _ & Hw').
  destruct (Hw' Hwhole) as (Hwh & Hgrow & Hnd).
  fold r in H1, Hoth, Hwh, Hgrow, Hnd.
  assert (Hscan : scan r.2 path w = scan fs path w ++ [new])
    by (apply Hgrow; rewrite H1; lia).
  split; [done|]. split; [done|]. split; [|split; [|done]].
  - rewrite Hscan. by apply first_with_snoc_fresh.
  - by apply Hnd.
Qed.

Lemma fopen_rb_after_append (fs : gmap string file) (path : string) (w : nat)
    (new : list byte) :
  0 < w → length new = w → fst (file_append fs path w new) ≠ 0%Z →
  scan (snd (file_append fs path w new)) path w =
    records w (content fs path ++ new) ∧
  fopen_rb (snd (file_append fs path w new)) path =
    Some (content fs path ++ new).
Proof.
  intros Hw Hlen Hok.
  destruct (append_fresh_key fs path w (λ b, b) new Hw Hlen)
    as (_ & _ & Hset & _).
  rewrite (Hset Hok). unfold scan, fopen_rb.
  by rewrite lookup_insert_eq.
Qed.

Lemma faculty_view_image (f : Faculty.t) :
  length (Faculty.id f) = MAX_ID → length (Faculty.name f) = MAX_NAME →
  length (Faculty.dept f) = MAX_DEPT → length (Faculty.email f) = MAX_EMAIL →
  Faculty.view (Faculty.image f) = f.
Proof.
  intros H1 H2 H3 H4. destruct f as [a b c d]. simpl in *.
  unfold Faculty.view, Faculty.image. simpl. f_equal.
  - by rewrite slice_app_head.
  - rewrite slice_app_at by done. by rewrite take_app_length'.
  - rewrite (app_assoc a b), slice_app_at
      by (rewrite length_app; unfold MAX_ID, MAX_NAME in *; lia).
    by rewrite take_app_length'.
  - rewrite (app_assoc a b), (app_assoc (a ++ b) c), slice_app_at
      by (rewrite !length_app; unfold MAX_ID, MAX_NAME, MAX_DEPT in *; lia).
    by apply take_ge; lia.
Qed.

Lemma add_faculty_result (inp : list byte) (fs : gmap string file)
    (id name dept email rest : list byte) :
  typed [MAX_ID; MAX_NAME; MAX_DEPT; MAX_EMAIL] inp =
    ([id; name; dept; email], rest) →
  let r := add_faculty inp fs in
  if bool_decide (id ∈ faculty_keys fs)
  then fst (fst r) = [Note FacultyExists] ∧ snd r = fs
  else
    (∀ q, q ≠ FILE_FAC → snd r !! q = fs !! q) ∧
    (unlocked fs FILE_FAC →
     whole_records Faculty.size (content fs FILE_FAC) →
     ∃ new,
       fst (fst r) = [Note FacultyAdded] ∧ snd (fst r) = rest ∧
       scan (snd r) FILE_FAC Faculty.size =
         scan fs FILE_FAC Faculty.size ++ [new] ∧
       print_faculty (Faculty.view new) = FacultyLine id name dept email ∧
       first_with faculty_key id (scan (snd r) FILE_FAC Faculty.size) =
         Some (length (scan fs FILE_FAC Faculty.size), new) ∧
       whole_records Faculty.size (content (snd r) FILE_FAC) ∧
       (NoDup (faculty_keys fs) → NoDup (faculty_keys (snd r))) ∧
       list_faculty (snd r) =
         Note FacultyHeader ::
         ((λ buf, print_faculty (Faculty.view buf)) <$>
            scan fs FILE_FAC Faculty.size) ++
         [FacultyLine id name dept email]).
Proof.
  intros Htyped r.
  apply typed_cons_inv in Htyped as [Hid Htyped].
  apply typed_cons_inv in Htyped as [Hname Htyped].
  apply typed_cons_inv in Htyped as [Hdept Htyped].
  apply typed_cons_inv in Htyped as [Hemail Hrest%typed_nil_inv].
  unfold r, add_faculty. clear r.
  pose proof (length_read_line (Faculty.id Faculty.zero) MAX_ID inp
                ltac:(unfold MAX_ID; lia) ltac:(done)) as Hn1.
  read_one b1 i1 Hb1 Hr1 Hl1. cbn [fst] in Hn1.
  destruct (file_find_first_key fs FILE_FAC Faculty.size pred_faculty_by_id
              b1 faculty_key (c_str b1) (λ buf, pred_faculty_by_id_key buf b1))
    as [-> _].
  fold (faculty_keys fs). subst i1. rewrite Hb1, Hid.
  case_bool_decide as Hin; [done|].
  pose proof (length_read_line (Faculty.name Faculty.zero) MAX_NAME
                (drop ((MAX_ID - 1) `min` S (length (first_line inp))) inp)
                ltac:(unfold MAX_NAME; lia) ltac:(done)) as Hn2.
  read_one b2 i2 Hb2 Hr2 Hl2. cbn [fst] in Hn2.
  pose proof (length_read_line (Faculty.dept Faculty.zero) MAX_DEPT i2
                ltac:(unfold MAX_DEPT; lia) ltac:(done)) as Hn3.
  read_one b3 i3 Hb3 Hr3 Hl3. cbn [fst] in Hn3.
  pose proof (length_read_line (Faculty.email Faculty.zero) MAX_EMAIL i3
                ltac:(unfold MAX_EMAIL; lia) ltac:(done)) as Hn4.
  read_one b4 i4 Hb4 Hr4 Hl4. cbn [fst] in Hn4.
  subst i2 i3. rewrite Hid in Hb1. rewrite Hname in Hb2. rewrite Hdept in Hb3.
  rewrite Hemail in Hb4. rewrite Hrest in Hr4.
  clear Hid Hname Hdept Hemail Hrest.
  set (f := Faculty.Make b1 b2 b3 b4).
  assert (Hlen : length (Faculty.image f) = Faculty.size).
  { unfold Faculty.image, f.
    cbn [Faculty.id Faculty.name Faculty.dept Faculty.email].
    rewrite !length_app, Hn1, Hn2, Hn3, Hn4. reflexivity. }
  assert (Hview : Faculty.view (Faculty.image f) = f)
    by by apply faculty_view_image.
  assert (Hkey : faculty_key (Faculty.image f) = id).
  { unfold faculty_key. rewrite Hview. exact Hb1. }
  split.
  - destruct (append_fresh_key fs FILE_FAC Faculty.size faculty_key
                (Faculty.image f) ltac:(unfold Faculty.size; lia) Hlen)
      as (Hoth & _).
    destruct (file_append fs FILE_FAC Faculty.size (Faculty.image f)) as [ok fs'].
    exact Hoth.
  - intros Hu Hwhole.
    destruct (append_after_search fs FILE_FAC Faculty.size faculty_key
                (Faculty.image f) ltac:(unfold Faculty.size; lia) Hlen Hu Hwhole)
      as (H1 & Hscan & Hfind & Hnd & Hwh & _).
    { by rewrite Hkey. }
    rewrite Hkey in Hfind.
    assert (Hline : print_faculty (Faculty.view (Faculty.image f)) =
                    FacultyLine id name dept email).
    { rewrite Hview. unfold print_faculty, f.
      cbn [Faculty.id Faculty.name Faculty.dept Faculty.email].
      by rewrite Hb1, Hb2, Hb3, Hb4. }
    destruct (fopen_rb_after_append fs FILE_FAC Faculty.size (Faculty.image f)
                ltac:(unfold Faculty.size; lia) Hlen) as [Hrec Hopen].
    { rewrite H1. done. }
    destruct (file_append fs FILE_FAC Faculty.size (Faculty.image f)) as [ok fs'].
    cbn [fst snd] in *. subst ok. cbn [Z.eqb fst snd].
    exists (Faculty.image f). split; [done|]. split; [done|]. split; [done|].
    split; [done|]. split; [done|]. split; [done|]. split; [done|].
    unfold list_faculty. rewrite Hopen, <- Hrec, Hscan, fmap_app.
    cbn [fmap list_fmap]. by rewrite Hline.
Qed.

(** X11.  [add_faculty] with the id of a record of the store prints that
    the faculty exists and changes nothing.  With a new id, on a file of
    whole records that opens, it appends one record that reads back as the
    four lines typed; a search by the id then finds that record, at the
    index that was the count; the ids of the store stay distinct when
    they were; and [list_faculty] then prints the earlier records followed
    by the new one.  No other file is touched. *)
Theorem add_faculty_spec (inp : list byte) (fs : gmap string file)
    (id name dept email rest : list byte) :
  typed [MAX_ID; MAX_NAME; MAX_DEPT; MAX_EMAIL] inp =
    ([id; name; dept; email], rest) →
  let r := add_faculty inp fs in
  if bool_decide (id ∈ faculty_keys fs)
  then fst (fst r) = [Note FacultyExists] ∧ snd r = fs
  else
    (∀ q, q ≠ FILE_FAC → snd r !! q = fs !! q) ∧
    (unlocked fs FILE_FAC →
     whole_records Faculty.size (content fs FILE_FAC) →
     ∃ new,
       fst (fst r) = [Note FacultyAdded] ∧ snd (fst r) = rest ∧
       scan (snd r) FILE_FAC Faculty.size =
         scan fs FILE_FAC Faculty.size ++ [new] ∧
       print_faculty (Faculty.view new) = FacultyLine id name dept email ∧
       first_with faculty_key id (scan (snd r) FILE_FAC Faculty.size) =
         Some (length (scan fs FILE_FAC Faculty.size), new) ∧
       whole_records Faculty.size (content (snd r) FILE_FAC) ∧
       (NoDup (faculty_keys fs) → NoDup (faculty_keys (snd r))) ∧
       list_faculty (snd r) =
         Note FacultyHeader ::
         ((λ buf, print_faculty (Faculty.view buf)) <$>
            scan fs FILE_FAC Faculty.size) ++
         [FacultyLine id name dept email]).
Proof. apply add_faculty_result. Qed.

Lemma add_faculty_spec_witness :
  typed [MAX_ID; MAX_NAME; MAX_DEPT; MAX_EMAIL]
    (lines ["F1"; "Ada"; "CSE"; "ada@uiu"]) =
    ([lit "F1"; lit "Ada"; lit "CSE"; lit "ada@uiu"], []) ∧
  unlocked scenario_fs FILE_FAC ∧
  whole_records Faculty.size (content scenario_fs FILE_FAC) ∧
  ∃ new,
    fst (fst (add_faculty (lines ["F1"; "Ada"; "CSE"; "ada@uiu"]) scenario_fs))
      = [Note FacultyAdded] ∧
    print_faculty (Faculty.view new) =
      FacultyLine (lit "F1") (lit "Ada") (lit "CSE") (lit "ada@uiu").
Proof.
  assert (H1 : typed [MAX_ID; MAX_NAME; MAX_DEPT; MAX_EMAIL]
                 (lines ["F1"; "Ada"; "CSE"; "ada@uiu"]) =
               ([lit "F1"; lit "Ada"; lit "CSE"; lit "ada@uiu"], []))
    by (vm_compute; reflexivity).
  assert (H2 : unlocked scenario_fs FILE_FAC) by (intros f Hf; vm_compute in Hf; done).
  assert (H3 : whole_records Faculty.size (content scenario_fs FILE_FAC))
    by (vm_compute; reflexivity).
  split; [exact H1|]. split; [exact H2|]. split; [exact H3|].
  pose proof (add_faculty_spec _ scenario_fs _ _ _ _ _ H1) as H.
  cbv zeta in H.
  rewrite bool_decide_eq_false_2 in H
    by (apply (bool_decide_unpack _); vm_compute; exact I).
  destruct H as [_ H]. destruct (H H2 H3) as (new & Ha & _ & _ & Hp & _).
  exists new. split; [exact Ha|exact Hp].
Defined.

(** ** Roster *)

Lemma file_find_student (fs : gmap string file) (sid : list byte) :
  let r := file_find_first fs FILE_STUD Student.size pred_student_by_id sid in
  r.2 = find_student fs sid ∧
  (r.1 >=? 0)%Z = match find_student fs sid with Some _ => true | None => false end.
Proof.
  intros r. unfold r, find_student. rewrite file_find_first_scan.
  rewrite (find_pointwise _ (λ buf, pred_student_by_id buf sid))
    by (intros; symmetry; apply pred_student_by_id_key).
  by apply find_loop_find.
Qed.

Lemma roster_body_rows (fs : gmap string file) (code term : list byte)
    (st : rstate) (buf : list byte) :
  let st' := roster_body fs code term st buf in
  rs_rows st' = rs_rows st ++ option_list (roster_line fs code term buf) ∧
  rs_count st' =
    match roster_line fs code term buf with
    | Some _ => to_int (rs_count st + 1)
    | None => rs_count st
    end.
Proof.
  unfold roster_body, roster_line. rewrite !strcmp_eqb.
  destruct (decide (c_str (Enrollment.courseCode (Enrollment.view buf)) = c_str code))
    as [Hc|Hc].
  2:{ rewrite (bool_decide_eq_false_2 _ Hc). cbn [andb].
      rewrite bool_decide_eq_false_2 by (by intros [? _]).
      cbn [option_list]. by rewrite app_nil_r. }
  rewrite (bool_decide_eq_true_2 _ Hc). cbn [andb].
  destruct (decide (c_str (Enrollment.term (Enrollment.view buf)) = c_str term))
    as [Ht|Ht].
  2:{ rewrite (bool_decide_eq_false_2 _ Ht).
      rewrite bool_decide_eq_false_2 by (by intros [_ ?]).
      cbn [option_list]. by rewrite app_nil_r. }
  rewrite (bool_decide_eq_true_2 _ Ht).
  rewrite bool_decide_eq_true_2 by done.
  destruct (file_find_student fs
              (Enrollment.studentId (Enrollment.view buf))) as [Hout Hidx].
  destruct (file_find_first fs FILE_STUD Student.size pred_student_by_id
              (Enrollment.studentId (Enrollment.view buf))) as [idx out].
  cbn [fst snd] in Hout, Hidx. rewrite Hidx, Hout.
  destruct (find_student fs _) as [sb|]; cbn [from_option mbind option_bind
    option_list rs_rows rs_count]; [done|].
  by rewrite app_nil_r.
Qed.

Lemma roster_loop_rows (fs : gmap string file) (code term : list byte)
    (rs : list (list byte)) (st : rstate) :
  rs_count st = Z.of_nat (length (rs_rows st)) →
  (Z.of_nat (length (rs_rows st) + length rs) ≤ INT_MAX)%Z →
  let st' := foldl (roster_body fs code term) st rs in
  rs_rows st' = rs_rows st ++ omap (roster_line fs code term) rs ∧
  rs_count st' = Z.of_nat (length (rs_rows st')).
Proof.
  revert st. induction rs as [|buf rs IH]; intros st Hc Hb.
  - simpl. by rewrite app_nil_r.
  - cbn [foldl omap list_omap].
    destruct (roster_body_rows fs code term st buf) as [Hrows Hcount].
    cbv zeta in Hrows, Hcount.
    destruct (IH (roster_body fs code term st buf)) as [Hr' Hc'].
    + rewrite Hcount, Hrows, length_app.
      destruct (roster_line fs code term buf); simpl.
      * rewrite Hc, to_int_small; [lia|]. simpl in Hb. lia.
      * rewrite Hc. lia.
    + rewrite Hrows, length_app. simpl in Hb.
      destruct (roster_line fs code term buf); simpl; lia.
    + cbv zeta in Hr', Hc'. split; [|done].
      rewrite Hr', Hrows, <- app_assoc. f_equal.
      by destruct (roster_line fs code term buf).
Qed.

Lemma strlen_lt_elem (l : list byte) : strlen l < length l → NUL ∈ l.
Proof.
  induction l as [|c l IH]; simpl; [lia|].
  destruct (byte_eqb_spec c NUL) as [->|Hc]; [intros _; apply list_elem_of_here|].
  intros H. apply list_elem_of_further, IH. lia.
Qed.

Lemma strlen_full_app (l r : list byte) :
  strlen l = length l →
  c_str (l ++ r) = l ++ c_str r ∧ (NUL ∈ l ++ r ↔ NUL ∈ r).
Proof.
  induction l as [|c l IH]; [done|].
  simpl. rewrite !c_str_cons.
  destruct (byte_eqb_spec c NUL) as [->|Hc]; [done|].
  intros [= H]. destruct (IH H) as [-> Hin]. split; [done|].
  rewrite elem_of_cons, Hin. split; [|by right].
  by intros [?|?].
Qed.

(** A field that holds a terminator is printed as its own string. *)
Lemma printed_field (buf : list byte) (off n : nat) :
  off + n ≤ length buf → strlen (slice off n buf) < n →
  printed buf off = Some (c_str (slice off n buf)).
Proof.
  intros Hlen Hs. unfold printed, slice in *.
  assert (Hn : length (take n (drop off buf)) = n)
    by (rewrite length_take, length_drop; lia).
  rewrite bool_decide_eq_true_2.
  2:{ apply (elem_of_take_1 _ n), strlen_lt_elem. lia. }
  f_equal. rewrite c_str_take. symmetry. apply take_ge.
  rewrite <- length_c_str, c_str_take, length_take in Hs. lia.
Qed.

(** A field that is full is printed together with what follows it. *)
Lemma printed_full (buf : list byte) (off n : nat) :
  off + n ≤ length buf → strlen (slice off n buf) = n →
  printed buf off = (λ rest, slice off n buf ++ rest) <$> printed buf (off + n).
Proof.
  intros Hlen Hs. unfold printed, slice in *.
  assert (Hn : length (take n (drop off buf)) = n)
    by (rewrite length_take, length_drop; lia).
  set (fld := take n (drop off buf)) in *.
  assert (E : drop off buf = fld ++ drop (off + n) buf)
    by (unfold fld; by rewrite <- drop_drop, take_drop).
  rewrite E.
  destruct (strlen_full_app fld (drop (off + n) buf)) as [-> Hin]; [lia|].
  rewrite (bool_decide_ext _ _ Hin). by case_bool_decide.
Qed.

(** X12.  On an enrollment file of at most 2^31 - 1 records, the roster
    of a course and term lists, in store order, the enrollments with that
    course code and term whose student id is the key of a student record,
    each printed from the first such student record and the enrollment;
    an enrollment whose student is in no record is left out.  The notice
    that no student is enrolled is printed exactly when no line is; when
    the file does not open only the notice of no enrollments is.  A line
    shows the id, the name and the grade as [printf] reads them: each the
    string of its field when the field holds a terminator, and a name that
    fills its 64 bytes, as [edit_student] can leave one, followed by the
    department. *)
Theorem roster_for_course_term_spec (uninit : nat → list byte)
    (fs : gmap string file) (code term : list byte) :
  (Z.of_nat (length (scan fs FILE_ENR Enrollment.size)) ≤ INT_MAX)%Z →
  let rows := omap (roster_line fs code term) (scan fs FILE_ENR Enrollment.size) in
  roster_for_course_term uninit fs code term =
  match fopen_rb fs FILE_ENR with
  | None => [Note NoEnrollments]
  | Some _ =>
      RosterHeader (c_str code) (c_str term) :: rows
        ++ (if decide (rows = []) then [Note NoStudentsEnrolled] else [])
  end ∧
  (∀ sb eb,
     length sb = Student.size → length eb = Enrollment.size →
     let s := Student.view sb in
     let g := Enrollment.grade (Enrollment.view eb) in
     strlen (Student.id s) < MAX_ID → strlen g < 3 →
     (strlen (Student.name s) < MAX_NAME →
      roster_row sb eb =
        RosterLine (c_str (Student.id s)) (c_str (Student.name s)) (c_str g)) ∧
     (strlen (Student.name s) = MAX_NAME → strlen (Student.dept s) < MAX_DEPT →
      roster_row sb eb =
        RosterLine (c_str (Student.id s))
          (Student.name s ++ c_str (Student.dept s)) (c_str g))).
Proof.
  intros Hb rows. split.
  - unfold roster_for_course_term, rows, scan in *.
    destruct (fopen_rb fs FILE_ENR) as [data|]; [|done].
    cbn [from_option] in *.
    destruct (roster_loop_rows fs code term (records Enrollment.size data)
                (RState (uninit Student.size) 0 [])) as [Hrows Hcount]; [done..|].
    cbv zeta in Hrows, Hcount. cbn [rs_rows app] in Hrows.
    rewrite Hcount, Hrows. f_equal. f_equal.
    destruct (omap _ _) as [|x l]; [done|].
    by rewrite decide_False.
  - intros sb eb Hsb Heb s g Hid Hg.
    unfold s, g, Student.view, Enrollment.view in *.
    cbn [Student.id Student.name Student.dept Enrollment.grade] in *.
    unfold roster_row.
    rewrite (printed_field sb 0 MAX_ID)
      by (rewrite ?Hsb; unfold Student.size, MAX_ID in *; lia || done).
    rewrite (printed_field eb 48 3)
      by (rewrite ?Heb; unfold Enrollment.size in *; lia || done).
    split.
    + intros Hname.
      by rewrite (printed_field sb 16 MAX_NAME)
        by (rewrite ?Hsb; unfold Student.size, MAX_NAME in *; lia || done).
    + intros Hname Hdept.
      rewrite (printed_full sb 16 MAX_NAME)
        by (rewrite ?Hsb; unfold Student.size, MAX_NAME in *; lia || done).
      change (16 + MAX_NAME) with 80.
      by rewrite (printed_field sb 80 MAX_DEPT)
        by (rewrite ?Hsb; unfold Student.size, MAX_DEPT in *; lia || done).
Qed.

Lemma roster_for_course_term_spec_witness :
  (Z.of_nat (length (scan long_name_fs FILE_ENR Enrollment.size)) ≤ INT_MAX)%Z ∧
  roster_for_course_term stale long_name_fs (lit "C1") (lit "T1") =
    [RosterHeader (lit "C1") (lit "T1");
     RosterLine (lit "S1") (replicate 64 "n"%byte ++ lit "EEE") (lit "A");
     RosterLine (lit "S2") (lit "Two") (lit "A")].
Proof.
  assert (H : (Z.of_nat (length (scan long_name_fs FILE_ENR Enrollment.size))
               ≤ INT_MAX)%Z) by (by vm_compute).
  split; [exact H|].
  rewrite (proj1 (roster_for_course_term_spec stale long_name_fs (lit "C1")
                    (lit "T1") H)).
  vm_compute. reflexivity.
Defined.

(** ** The lines of a transcript *)

Lemma transcript_body_rows (fs : gmap string file) (sid : list byte)
    (st : tstate) (buf : list byte) :
  ts_rows (transcript_body fs sid st buf) =
  ts_rows st ++ option_list (transcript_line fs sid buf).
Proof.
  unfold transcript_body, transcript_line. rewrite strcmp_eqb.
  case_bool_decide; [|by rewrite app_nil_r].
  destruct (file_find_course fs
              (Enrollment.courseCode (Enrollment.view buf))) as [Hout Hidx].
  destruct (file_find_first fs FILE_COURSE Course.size pred_course_by_code
              (Enrollment.courseCode (Enrollment.view buf))) as [idx out].
  cbn [fst snd] in Hout, Hidx. rewrite Hidx, Hout.
  destruct (find_course fs _) as [cb|];
    cbn [from_option mbind option_bind option_list ts_rows];
    [|by rewrite app_nil_r].
  pose proof (grade_to_points_valid
                (Enrollment.grade (Enrollment.view buf))) as Hg.
  destruct (table_points _) as [p|].
  - destruct Hg as (Hgp & Hleb & _). by rewrite Hgp, Hleb.
  - destruct Hg as (_ & Hleb & _). by rewrite Hleb.
Qed.

Lemma transcript_loop_rows (fs : gmap string file) (sid : list byte)
    (rs : list (list byte)) (st : tstate) :
  ts_rows (foldl (transcript_body fs sid) st rs) =
  ts_rows st ++ omap (transcript_line fs sid) rs.
Proof.
  revert st. induction rs as [|buf rs IH]; intros st.
  - simpl. by rewrite app_nil_r.
  - cbn [foldl omap list_omap]. rewrite IH, transcript_body_rows, <- app_assoc.
    f_equal. by destruct (transcript_line fs sid buf).
Qed.

Lemma transcript_for_student_result (fs : gmap string file) (sid : list byte) :
  transcript_for_student fs sid =
  match fopen_rb fs FILE_ENR with
  | None => TNoEnrollments
  | Some _ =>
      TReport (omap (transcript_line fs sid) (scan fs FILE_ENR Enrollment.size))
        (cgpa_of (student_entries fs sid))
  end.
Proof.
  unfold transcript_for_student, student_entries, scan, cgpa_of,
    total_credits, total_points.
  destruct (fopen_rb fs FILE_ENR) as [data|]; [|done].
  cbn [from_option].
  destruct (transcript_loop_totals fs sid (records Enrollment.size data)
              (TState (replicate Course.size NUL) F32.zero F32.zero []))
    as [Hc Hp].
  cbv zeta in Hc, Hp. cbn [ts_totalCred ts_totalPts] in Hc, Hp.
  rewrite Hc, Hp, transcript_loop_rows. reflexivity.
Qed.

(** X13.  When the enrollment file opens, the transcript of a student has
    one line for each enrollment of the student whose course code is the
    key of a course record, in store order, graded or not: the code and
    credit of the first such course, the term and grade of the enrollment,
    and the grade points only when the grade is in the table.  An enrollment
    whose course is in no record has no line.  The last line is computed
    from the graded ones alone. *)
Theorem transcript_for_student_lines (fs : gmap string file) (sid : list byte) :
  transcript_for_student fs sid =
  match fopen_rb fs FILE_ENR with
  | None => TNoEnrollments
  | Some _ =>
      TReport (omap (transcript_line fs sid) (scan fs FILE_ENR Enrollment.size))
        (cgpa_of (student_entries fs sid))
  end ∧
  (∀ row, row ∈ omap (transcript_line fs sid) (scan fs FILE_ENR Enrollment.size) →
     (is_Some (tr_gp row) ↔ is_Some (table_points (tr_grade row))) ∧
     tr_code row ∈ course_keys fs).
Proof.
  split; [apply transcript_for_student_result|].
  intros row (buf & Hbuf & Hrow)%list_elem_of_omap.
  unfold transcript_line in Hrow. case_bool_decide; [|done].
  destruct (find_course fs _) as [cb|] eqn:Hc; [|done].
  cbn [mbind option_bind] in Hrow. injection Hrow as <-.
  cbn [tr_gp tr_grade tr_code]. split.
  - by rewrite table_points_c_str.
  - unfold find_course in Hc. apply find_some in Hc as [Hin _].
    unfold course_keys. apply list_elem_of_fmap. exists cb. split; [done|].
    by apply list_elem_of_In.
Qed.

(** ** Reports after an enrollment *)

Lemma file_find_first_same {K : Type} (fs fs' : gmap string file) (q : string)
    (w : nat) (pred : list byte → K → bool) (key : K) :
  fs' !! q = fs !! q →
  file_find_first fs' q w pred key = file_find_first fs q w pred key.
Proof. intros H. by rewrite !file_find_first_scan, (scan_same _ _ _ _ H). Qed.

Lemma enroll_request_grade (inp : list byte) :
  c_str (Enrollment.grade (enroll_request inp).1) = lit "NA".
Proof.
  unfold enroll_request.
  destruct (read_line _ _ _) as [a i1]. destruct (read_line _ _ _) as [b i2].
  destruct (read_line _ _ _) as [c i3]. reflexivity.
Qed.

(** The enrollment file after [enroll_student]: as it was, or with the
    requested record, graded NA, at its end. *)
Lemma enroll_student_scan (inp : list byte) (fs : gmap string file) :
  whole_records Enrollment.size (content fs FILE_ENR) →
  let fs' := snd (enroll_student inp fs) in
  (∀ q, q ≠ FILE_ENR → fs' !! q = fs !! q) ∧
  (fs' = fs ∨
   scan fs' FILE_ENR Enrollment.size =
     scan fs FILE_ENR Enrollment.size ++ [Enrollment.image (enroll_request inp).1]).
Proof.
  intros Hwhole fs'.
  destruct (enroll_student_result inp fs) as [Hres _].
  cbv zeta in Hres. apply (f_equal snd) in Hres. cbn [snd] in Hres.
  unfold fs'. rewrite Hres. clear Hres fs'.
  pose proof (enroll_request_lengths inp) as (Hl1 & Hl2 & Hl3 & Hl4).
  destruct (append_fresh_key fs FILE_ENR Enrollment.size enrollment_key
              (Enrollment.image (enroll_request inp).1))
    as (Hoth & Hfail & _ & Hw).
  { unfold Enrollment.size. lia. }
  { unfold Enrollment.image. rewrite !length_app, Hl1, Hl2, Hl3, Hl4. done. }
  destruct (Hw Hwhole) as (_ & Hgrow & _).
  repeat case_bool_decide; cbn [snd]; try (split; [done|by left]).
  split; [done|].
  destruct (Z.eq_dec (file_append fs FILE_ENR Enrollment.size
              (Enrollment.image (enroll_request inp).1)).1 0%Z) as [E|E].
  - left. by apply Hfail.
  - right. by apply Hgrow.
Qed.

Lemma find_course_same (fs fs' : gmap string file) (code : list byte) :
  fs' !! FILE_COURSE = fs !! FILE_COURSE →
  find_course fs' code = find_course fs code.
Proof. intros H. unfold find_course. by rewrite (scan_same _ _ _ _ H). Qed.

Lemma graded_entry_same (fs fs' : gmap string file) (buf : list byte) :
  fs' !! FILE_COURSE = fs !! FILE_COURSE →
  graded_entry fs' buf = graded_entry fs buf.
Proof. intros H. unfold graded_entry. by rewrite (find_course_same _ _ _ H). Qed.

Lemma transcript_line_same (fs fs' : gmap string file) (sid buf : list byte) :
  fs' !! FILE_COURSE = fs !! FILE_COURSE →
  transcript_line fs' sid buf = transcript_line fs sid buf.
Proof. intros H. unfold transcript_line. by rewrite (find_course_same _ _ _ H). Qed.

Lemma omap_ext_all {A B : Type} (f g : A → option B) (l : list A) :
  (∀ x, f x = g x) → omap f l = omap g l.
Proof. intros H. induction l as [|x l IH]; csimpl; [done|]. by rewrite H, IH. Qed.

Lemma leaderboard_body_same (fs fs' : gmap string file) (term : list byte)
    (st : option lstate) (buf : list byte) :
  fs' !! FILE_COURSE = fs !! FILE_COURSE →
  leaderboard_body fs' term st buf = leaderboard_body fs term st buf.
Proof.
  intros H. unfold leaderboard_body.
  by rewrite (file_find_first_same _ _ _ _ _ _ H).
Qed.

Lemma foldl_ext_all {A B : Type} (f g : A → B → A) (l : list B) (a : A) :
  (∀ x y, f x y = g x y) → foldl f a l = foldl g a l.
Proof.
  intros H. revert a. induction l as [|y l IH]; intros a; simpl; [done|].
  by rewrite H, IH.
Qed.

Lemma leaderboard_row_same (fs fs' : gmap string file) (i : nat) (a : Acc.t) :
  fs' !! FILE_STUD = fs !! FILE_STUD →
  leaderboard_row fs' i a = leaderboard_row fs i a.
Proof.
  intros H. unfold leaderboard_row.
  by rewrite (file_find_first_same _ _ _ _ _ _ H).
Qed.

(** A record whose grade is not in the table leaves the accumulators as
    they were. *)
Lemma leaderboard_body_ungraded (fs : gmap string file) (term : list byte)
    (st : option lstate) (buf : list byte) :
  table_points (Enrollment.grade (Enrollment.view buf)) = None →
  ls_accs <$> leaderboard_body fs term st buf = ls_accs <$> st.
Proof.
  intros Hg. unfold leaderboard_body. destruct st as [st|]; [|done].
  destruct (strcmp _ term =? 0)%Z; [|done].
  destruct (file_find_first fs FILE_COURSE Course.size pred_course_by_code _)
    as [idx out].
  destruct (idx >=? 0)%Z; [|done].
  pose proof (grade_to_points_valid (Enrollment.grade (Enrollment.view buf))) as Hv.
  rewrite Hg in Hv. destruct Hv as (_ & _ & ->). done.
Qed.

Lemma imap_ext_all {A B : Type} (f g : nat → A → B) (l : list A) :
  (∀ i x, f i x = g i x) → imap f l = imap g l.
Proof. intros H. apply imap_ext. intros i x _. apply H. Qed.

Lemma gpa_leaderboard_rows (fs : gmap string file) (term : list byte) :
  gpa_leaderboard fs term =
  match fopen_rb fs FILE_ENR with
  | None => LNoEnrollments
  | Some data =>
      match ls_accs <$> foldl (leaderboard_body fs term)
                          (Some (LState (replicate Course.size NUL) []))
                          (records Enrollment.size data) with
      | None => LRanOff
      | Some accs => LRanking (imap (leaderboard_row fs) (bubble_sort accs))
      end
  end.
Proof.
  unfold gpa_leaderboard. destruct (fopen_rb fs FILE_ENR) as [data|]; [|done].
  cbv zeta. by destruct (foldl _ _ _).
Qed.

(** X14.  Enrolling changes no average.  On an enrollment file of whole
    records that opens, after [enroll_student], whatever its outcome, the
    transcript of every student has the same last line and the same lines
    as before, followed at most by one line graded NA without grade
    points; and the leaderboard of every term is the same. *)
Theorem enroll_student_keeps_averages (inp : list byte) (fs : gmap string file)
    (sid term : list byte) :
  whole_records Enrollment.size (content fs FILE_ENR) →
  is_Some (fopen_rb fs FILE_ENR) →
  let fs' := snd (enroll_student inp fs) in
  (∃ rows more final,
     transcript_for_student fs sid = TReport rows final ∧
     transcript_for_student fs' sid = TReport (rows ++ more) final ∧
     length more ≤ 1 ∧
     Forall (λ row, tr_grade row = lit "NA" ∧ tr_gp row = None) more) ∧
  gpa_leaderboard fs' term = gpa_leaderboard fs term.
Proof.
  intros Hwhole [data Hopen] fs'.
  destruct (enroll_student_scan inp fs Hwhole) as [Hoth Hscan].
  fold fs' in Hoth, Hscan.
  assert (Hc : fs' !! FILE_COURSE = fs !! FILE_COURSE) by by apply Hoth.
  assert (Hs : fs' !! FILE_STUD = fs !! FILE_STUD) by by apply Hoth.
  destruct Hscan as [->|Hscan].
  { split; [|done]. rewrite transcript_for_student_result, Hopen.
    eexists _, [], _. split; [reflexivity|]. split; [by rewrite app_nil_r|].
    split; [simpl; lia|constructor]. }
  set (new := Enrollment.image (enroll_request inp).1) in *.
  assert (Hopen' : is_Some (fopen_rb fs' FILE_ENR)).
  { destruct (fopen_rb fs' FILE_ENR) eqn:E; [by eexists|].
    unfold scan in Hscan. rewrite E in Hscan. simpl in Hscan.
    by destruct (from_option _ _ _). }
  destruct Hopen' as [data' Hopen'].
  assert (Hrec : records Enrollment.size data' = records Enrollment.size data ++ [new]).
  { unfold scan in Hscan. by rewrite Hopen, Hopen' in Hscan. }
  pose proof (enroll_request_lengths inp) as (Hl1 & Hl2 & Hl3 & Hl4).
  assert (Hview : Enrollment.view new = (enroll_request inp).1)
    by by apply enrollment_view_image.
  assert (Hna : table_points (Enrollment.grade (Enrollment.view new)) = None).
  { rewrite Hview, <- table_points_c_str, enroll_request_grade. reflexivity. }
  split.
  - rewrite !transcript_for_student_result, Hopen, Hopen', Hscan.
    exists (omap (transcript_line fs sid) (scan fs FILE_ENR Enrollment.size)),
      (option_list (transcript_line fs sid new)), (cgpa_of (student_entries fs sid)).
    split; [done|]. split; [|split].
    + rewrite omap_app. f_equal.
      * f_equal. apply omap_ext_all. intros buf. by apply transcript_line_same.
        cbn [omap list_omap]. rewrite (transcript_line_same _ _ _ _ Hc).
        by destruct (transcript_line fs sid new).
      * unfold student_entries, cgpa_of. rewrite Hscan, omap_app.
        cbn [omap list_omap].
        assert (Hnone : (if bool_decide (c_str (Enrollment.studentId
                               (Enrollment.view new)) = c_str sid)
                         then graded_entry fs' new else None) = None).
        { case_bool_decide; [|done]. unfold graded_entry.
          destruct (find_course fs' _); [|done].
          cbn [mbind option_bind]. by rewrite Hna. }
        rewrite Hnone, app_nil_r.
        rewrite (omap_ext_all _
                   (λ buf, if bool_decide (c_str (Enrollment.studentId
                                  (Enrollment.view buf)) = c_str sid)
                           then graded_entry fs buf else None)); [done|].
        intros buf. by rewrite (graded_entry_same _ _ _ Hc).
    + destruct (transcript_line fs sid new); simpl; lia.
    + unfold transcript_line. case_bool_decide; [|constructor].
      destruct (find_course fs _); [|constructor].
      cbn [mbind option_bind option_list]. apply Forall_singleton.
      cbn [tr_grade tr_gp]. split; [|done].
      rewrite Hview. apply enroll_request_grade.
  - rewrite !gpa_leaderboard_rows, Hopen, Hopen', Hrec, foldl_app.
    cbn [foldl].
    rewrite (leaderboard_body_same _ _ _ _ _ Hc).
    rewrite (leaderboard_body_ungraded _ _ _ _ Hna).
    rewrite (foldl_ext_all _ (leaderboard_body fs term))
      by (intros; by apply leaderboard_body_same).
    destruct (ls_accs <$> foldl _ _ _) as [accs|]; [|done].
    f_equal. apply imap_ext_all. intros i a. by apply leaderboard_row_same.
Qed.

Lemma enroll_student_keeps_averages_witness :
  whole_records Enrollment.size (content scenario_fs FILE_ENR) ∧
  is_Some (fopen_rb scenario_fs FILE_ENR) ∧
  gpa_leaderboard (snd (enroll_student (lines ["S2"; "C2"; "T1"]) scenario_fs))
    (lit "T1") = gpa_leaderboard scenario_fs (lit "T1").
Proof.
  assert (H1 : whole_records Enrollment.size (content scenario_fs FILE_ENR))
    by (vm_compute; reflexivity).
  assert (H2 : is_Some (fopen_rb scenario_fs FILE_ENR))
    by (vm_compute; by eexists).
  split; [exact H1|]. split; [exact H2|].
  exact (proj2 (enroll_student_keeps_averages (lines ["S2"; "C2"; "T1"])
                  scenario_fs (lit "S2") (lit "T1") H1 H2)).
Defined.

(** ** Users *)

Lemma obfuscate_c_str (p : list byte) :
  (Z.of_nat (strlen p) ≤ INT_MAX)%Z → obfuscate (c_str p) = obfuscate p.
Proof.
  intros H. rewrite !obfuscate_padded, strncpy_c_str; [done..|].
  by rewrite <- length_c_str, c_str_idemp, length_c_str.
Qed.

Lemma verify_pass_stored (u try : list byte) :
  length u = User.size →
  verify_pass (User.pass_obf (User.view u)) try =
  bool_decide (User.pass_obf (User.view u) = obfuscate try).
Proof.
  intros Hu. unfold verify_pass, memcmp_eq. apply bool_decide_ext.
  rewrite !take_ge; [done|by rewrite length_obfuscate|].
  unfold User.view. cbn [User.pass_obf]. unfold slice.
  rewrite length_take, length_drop, Hu. unfold User.size, MAX_PASS. lia.
Qed.

Lemma login_result (uninit : nat → list byte) (inp : list byte)
    (fs : gmap string file) (uname pass rest : list byte) :
  typed [MAX_USER; MAX_PASS] inp = ([uname; pass], rest) →
  login uninit inp fs =
  match first_with user_key uname (scan fs FILE_USER User.size) with
  | Some (_, u) =>
      if bool_decide (User.pass_obf (User.view u) = obfuscate pass)
      then (Session.Make u 1, [], rest)
      else (Session.Make (replicate User.size NUL) 0,
            [Note InvalidCredentials], rest)
  | None =>
      (Session.Make (replicate User.size NUL) 0, [Note InvalidCredentials], rest)
  end.
Proof.
  intros Htyped.
  apply typed_cons_inv in Htyped as [Hname Htyped].
  apply typed_cons_inv in Htyped as [Hpass Hrest%typed_nil_inv].
  unfold login.
  read_one b1 i1 Hb1 Hr1 Hl1. read_one b2 i2 Hb2 Hr2 Hl2.
  rewrite (file_find_first_with fs FILE_USER User.size pred_user_by_username b1
             user_key (c_str b1))
    by (intros buf; apply pred_user_by_username_key;
        apply (strlen_line b1 (first_line inp) MAX_USER);
        [unfold MAX_USER; lia|exact Hb1]).
  subst i1 i2. rewrite Hb1, Hname, Hrest.
  rewrite Hpass in Hb2.
  destruct (first_with user_key uname (scan fs FILE_USER User.size))
    as [[k u]|] eqn:Ef; [|done].
  apply first_with_Some in Ef as (Hk & _).
  assert (Hu : length u = User.size).
  { eapply scan_length; [unfold User.size; lia|].
    by eapply list_elem_of_lookup_2. }
  destruct (Z.geb_spec (Z.of_nat k) 0) as [_|?]; [|lia].
  cbn [from_option andb]. rewrite (verify_pass_stored _ _ Hu).
  assert (Hobf : obfuscate b2 = obfuscate pass).
  { rewrite <- Hb2. symmetry. apply obfuscate_c_str.
    unfold MAX_PASS, INT_MAX in *. lia. }
  by rewrite Hobf.
Qed.

(** X15.  [login] opens a session exactly when the first user record
    with the name typed stores the obfuscation of the password typed; the
    session then holds that record.  In every other case, an unknown name
    or another password alike, the answer is the same notice and a session
    that is not logged. *)
Theorem login_spec (uninit : nat → list byte) (inp : list byte)
    (fs : gmap string file) (uname pass rest : list byte) :
  typed [MAX_USER; MAX_PASS] inp = ([uname; pass], rest) →
  let r := login uninit inp fs in
  let found := first_with user_key uname (scan fs FILE_USER User.size) in
  snd r = rest ∧
  (Session.logged (fst (fst r)) = 1%Z ↔
   ∃ k u, found = Some (k, u) ∧ User.pass_obf (User.view u) = obfuscate pass) ∧
  (∀ k u, found = Some (k, u) →
     User.pass_obf (User.view u) = obfuscate pass →
     fst r = (Session.Make u 1, [])) ∧
  (Session.logged (fst (fst r)) ≠ 1%Z →
   fst r = (Session.Make (replicate User.size NUL) 0, [Note InvalidCredentials])).
Proof.
  intros Htyped r found. unfold r. rewrite (login_result _ _ _ _ _ _ Htyped).
  fold found. destruct found as [[k u]|].
  - case_bool_decide as Hp; cbn [fst snd Session.logged].
    + split; [done|]. split; [split; [by eauto|done]|]. split; [|done].
      by intros ? ? [= <- <-] _.
    + split; [done|]. split; [|split; [|done]].
      * split; [done|]. by intros (? & ? & [= <- <-] & ?).
      * by intros ? ? [= <- <-] ?.
  - cbn [fst snd Session.logged]. split; [done|]. split; [|split; [|done]].
    + split; [done|]. by intros (? & ? & ? & _).
    + by intros.
Qed.

Lemma user_view_image (u : User.t) :
  length (User.username u) = MAX_USER → length (User.refId u) = MAX_ID →
  length (User.pass_obf u) = MAX_PASS →
  User.view (User.image u) =
  User.Make (User.username u) (User.role u `mod` 2 ^ 32) (User.refId u)
    (User.pass_obf u).
Proof.
  intros H1 H2 H3. destruct u as [a r b c].
  cbn [User.username User.role User.refId User.pass_obf] in *.
  unfold User.view, User.image.
  cbn [User.username User.role User.refId User.pass_obf]. f_equal.
  - by rewrite slice_app_head.
  - rewrite slice_app_at by done.
    rewrite take_app_length' by (by rewrite length_put_le).
    by rewrite get_le_put_le.
  - rewrite (app_assoc a), slice_app_at
      by (rewrite length_app, length_put_le; unfold MAX_USER in *; lia).
    by rewrite take_app_length'.
  - rewrite (app_assoc a), (app_assoc (a ++ _) b), slice_app_at
      by (rewrite !length_app, length_put_le; unfold MAX_USER, MAX_ID in *; lia).
    by apply take_ge; lia.
Qed.

Lemma add_user_result (username : list byte) (role : Z)
    (refId : option (list byte)) (pass : list byte) (fs : gmap string file) :
  let fs' := add_user username role refId pass fs in
  (∀ q, q ≠ FILE_USER → fs' !! q = fs !! q) ∧
  (strlen username < MAX_USER → c_str username ∈ user_keys fs → fs' = fs) ∧
  (c_str username ∉ user_keys fs → strlen username < MAX_USER →
   unlocked fs FILE_USER → whole_records User.size (content fs FILE_USER) →
   ∃ new,
     scan fs' FILE_USER User.size = scan fs FILE_USER User.size ++ [new] ∧
     User.view new =
       User.Make (strncpy MAX_USER username) (role `mod` 2 ^ 32)
         (from_option (strncpy MAX_ID) (replicate MAX_ID NUL) refId)
         (obfuscate pass) ∧
     user_key new = c_str username ∧
     first_with user_key (c_str username) (scan fs' FILE_USER User.size) =
       Some (length (scan fs FILE_USER User.size), new) ∧
     whole_records User.size (content fs' FILE_USER) ∧
     (NoDup (user_keys fs) → NoDup (user_keys fs'))).
Proof.
  intros fs'. unfold fs', add_user. clear fs'.
  set (u := User.Make (strncpy MAX_USER username) role
              (from_option (strncpy MAX_ID) (User.refId User.zero) refId)
              (obfuscate pass)).
  assert (Hlen : length (User.image u) = User.size).
  { unfold User.image, u.
    cbn [User.username User.role User.refId User.pass_obf].
    rewrite !length_app, length_put_le, length_strncpy, length_obfuscate.
    destruct refId; simpl; by rewrite ?length_strncpy. }
  assert (Hview : User.view (User.image u) =
            User.Make (strncpy MAX_USER username) (role `mod` 2 ^ 32)
              (from_option (strncpy MAX_ID) (replicate MAX_ID NUL) refId)
              (obfuscate pass)).
  { rewrite user_view_image; [done|apply length_strncpy| |apply length_obfuscate].
    unfold u. cbn [User.refId]. destruct refId; simpl; by rewrite ?length_strncpy. }
  destruct (append_fresh_key fs FILE_USER User.size user_key
              (User.image u) ltac:(unfold User.size; lia) Hlen) as (Hoth & _).
  split; [by destruct (_ >=? 0)%Z|].
  split.
  { intros Hshort Hin.
    destruct (file_find_first_key fs FILE_USER User.size pred_user_by_username
                username user_key (c_str username)
                (λ buf, pred_user_by_username_key buf username Hshort))
      as [-> _].
    fold (user_keys fs). by rewrite bool_decide_eq_true_2. }
  intros Hin Hshort Hu Hwhole.
  destruct (file_find_first_key fs FILE_USER User.size pred_user_by_username
              username user_key (c_str username)
              (λ buf, pred_user_by_username_key buf username Hshort))
    as [-> _].
  fold (user_keys fs). rewrite bool_decide_eq_false_2 by done.
  assert (Hkey : user_key (User.image u) = c_str username).
  { unfold user_key. rewrite Hview. cbn [User.username].
    rewrite c_str_strncpy. apply take_ge. rewrite length_c_str. lia. }
  destruct (append_after_search fs FILE_USER User.size user_key
              (User.image u) ltac:(unfold User.size; lia) Hlen Hu Hwhole)
    as (_ & Hscan & Hfind & Hnd & Hwh & _).
  { by rewrite Hkey. }
  rewrite Hkey in Hfind.
  exists (User.image u). by repeat split.
Qed.



(** X17.  A user that [add_user] has just registered can log in: on a
    user file of whole records that opens and has no record of the name,
    typing the name and the password to [login] after [add_user] opens a
    session holding the new record, with the role and the reference id that
    were given. *)
Theorem add_user_then_login (uninit : nat → list byte) (fs : gmap string file)
    (username : list byte) (role : Z) (refId : option (list byte))
    (pass inp rest : list byte) :
  typed [MAX_USER; MAX_PASS] inp = ([c_str username; c_str pass], rest) →
  c_str username ∉ user_keys fs →
  unlocked fs FILE_USER → whole_records User.size (content fs FILE_USER) →
  ∃ new,
    login uninit inp (add_user username role refId pass fs) =
      (Session.Make new 1, [], rest) ∧
    User.role (User.view new) = (role `mod` 2 ^ 32)%Z ∧
    User.refId (User.view new) =
      from_option (strncpy MAX_ID) (replicate MAX_ID NUL) refId.
Proof.
  intros Htyped Hfresh Hu Hwhole.
  pose proof (typed_cons_inv _ _ _ _ _ _ Htyped) as [Hname Ht2].
  pose proof (typed_cons_inv _ _ _ _ _ _ Ht2) as [Hpass _].
  assert (Hshort : strlen username < MAX_USER).
  { rewrite <- length_c_str, <- Hname.
    pose proof (c_str_take_line (MAX_USER - 1) (first_line inp)).
    unfold MAX_USER in *. lia. }
  assert (Hpshort : strlen pass < MAX_PASS).
  { rewrite <- length_c_str, <- Hpass.
    match goal with |- length (c_str (take ?n ?l)) < _ =>
      pose proof (c_str_take_line n l) end.
    unfold MAX_PASS in *. lia. }
  destruct (add_user_result username role refId pass fs) as (_ & _ & H).
  destruct (H Hfresh Hshort Hu Hwhole) as (new & _ & Hview & _ & Hfind & _).
  exists new. rewrite (login_result _ _ _ _ _ _ Htyped), Hfind, Hview.
  cbn [User.pass_obf User.role User.refId].
  rewrite obfuscate_c_str by (unfold MAX_PASS, INT_MAX in *; lia).
  by rewrite bool_decide_eq_true_2.
Qed.

Lemma add_user_then_login_witness :
  typed [MAX_USER; MAX_PASS] (lines ["admin"; "admin123"]) =
    ([c_str (lit "admin"); c_str (lit "admin123")], []) ∧
  (c_str (lit "admin") ∉ user_keys scenario_fs) ∧
  unlocked scenario_fs FILE_USER ∧
  whole_records User.size (content scenario_fs FILE_USER) ∧
  ∃ new,
    login stale (lines ["admin"; "admin123"])
      (add_user (lit "admin") ROLE_ADMIN (Some []) (lit "admin123")
         scenario_fs) = (Session.Make new 1, [], []) ∧
    User.role (User.view new) = (ROLE_ADMIN `mod` 2 ^ 32)%Z.
Proof.
  assert (H0 : typed [MAX_USER; MAX_PASS] (lines ["admin"; "admin123"]) =
               ([c_str (lit "admin"); c_str (lit "admin123")], []))
    by (vm_compute; reflexivity).
  assert (H1 : c_str (lit "admin") ∉ user_keys scenario_fs)
    by (apply (bool_decide_unpack _); vm_compute; exact I).
  assert (H3 : unlocked scenario_fs FILE_USER)
    by (intros f Hf; vm_compute in Hf; done).
  assert (H4 : whole_records User.size (content scenario_fs FILE_USER))
    by (vm_compute; reflexivity).
  split; [exact H0|]. split; [exact H1|]. split; [exact H3|]. split; [exact H4|].
  destruct (add_user_then_login stale scenario_fs (lit "admin") ROLE_ADMIN
              (Some []) (lit "admin123") _ _ H0 H1 H3 H4)
    as (new & Hl & Hr & _).
  exists new. split; [exact Hl|exact Hr].
Defined.

(** ** First run *)

Lemma holds_a_record_count (fs : gmap string file) (path : string) (w : nat) :
  0 < w → holds_a_record fs path w → file_count_records fs path w ≠ 0%Z.
Proof.
  intros Hw (data & Ho & Hlen). rewrite (file_count_records_open _ _ _ _ Ho).
  assert (1 ≤ length data / w); [|lia].
  apply Nat.div_le_lower_bound; lia.
Qed.

Lemma holds_a_record_append (fs : gmap string file) (path q : string)
    (w w' : nat) (rec : list byte) :
  holds_a_record fs q w' → holds_a_record (snd (file_append fs path w rec)) q w'.
Proof.
  intros (data & Ho & Hlen). unfold file_append, fopen_ab.
  destruct (decide (q = path)) as [->|Hne].
  - apply fopen_rb_Some in Ho. rewrite Ho. simpl.
    destruct (w =? 0); simpl.
    + exists data. by rewrite fopen_rb_insert.
    + exists (data ++ take w rec). rewrite fopen_rb_insert. split; [done|].
      rewrite length_app. lia.
  - exists data. split; [|done].
    destruct (fs !! path) as [[[] d]|]; simpl; try done;
      destruct (w =? 0); simpl; unfold fopen_rb in *;
      by rewrite lookup_insert_ne.
Qed.

Lemma holds_a_record_add_user (username : list byte) (role : Z)
    (refId : option (list byte)) (pass : list byte) (fs : gmap string file)
    (q : string) (w' : nat) :
  holds_a_record fs q w' →
  holds_a_record (add_user username role refId pass fs) q w'.
Proof.
  intros H. unfold add_user. destruct (_ >=? 0)%Z; [done|].
  by apply holds_a_record_append.
Qed.

Lemma add_user_holds (username : list byte) (role : Z)
    (refId : option (list byte)) (pass : list byte) (fs : gmap string file) :
  unlocked fs FILE_USER →
  holds_a_record (add_user username role refId pass fs) FILE_USER User.size.
Proof.
  intros Hu. unfold add_user. rewrite file_find_first_scan.
  destruct (find_loop_fst (λ buf, pred_user_by_username buf username)
              (scan fs FILE_USER User.size) 0 ltac:(lia)) as [-> _].
  destruct (existsb _ _) eqn:Hin.
  - apply existsb_exists in Hin as (b & Hb%list_elem_of_In & _).
    unfold scan in Hb. destruct (fopen_rb fs FILE_USER) as [data|] eqn:Ho;
      [|by apply elem_of_nil in Hb].
    exists data. split; [done|]. simpl in Hb.
    apply list_elem_of_lookup_1 in Hb as [k Hk].
    apply records_lookup_inv in Hk as [Hlt _]; [|unfold User.size; lia].
    pose proof (Nat.Div0.mul_div_le (length data) User.size). nia.
  - set (rec := User.image _).
    assert (Hlen : length rec = User.size).
    { unfold rec, User.image.
      cbn [User.username User.role User.refId User.pass_obf].
      rewrite !length_app, length_put_le, length_strncpy, length_obfuscate.
      destruct refId; simpl; by rewrite ?length_strncpy. }
    unfold file_append, fopen_ab.
    destruct (fs !! FILE_USER) as [[l d]|] eqn:E.
    + specialize (Hu _ E). simpl in Hu. subst l. simpl.
      exists (d ++ take User.size rec). rewrite fopen_rb_insert.
      split; [done|]. rewrite length_app, take_ge by lia. lia.
    + simpl. exists (take User.size rec). rewrite fopen_rb_insert.
      split; [done|]. rewrite take_ge by lia. lia.
Qed.

Lemma bootstrap_if_empty_holds (fs : gmap string file) :
  unlocked fs FILE_USER →
  holds_a_record (snd (bootstrap_if_empty fs)) FILE_USER User.size.
Proof.
  intros Hu. unfold bootstrap_if_empty.
  destruct (Z.eqb_spec (file_count_records fs FILE_USER User.size) 0) as [H0|Hn].
  - cbn [snd]. do 4 apply holds_a_record_add_user.
    apply add_user_holds. by do 9 apply unlocked_append.
  - cbn [snd]. unfold file_count_records in Hn.
    destruct (fopen_rb fs FILE_USER) as [data|] eqn:Ho; [|done].
    exists data. split; [done|].
    destruct (Z.of_nat (length data) <? 0)%Z; [done|].
    destruct (decide (User.size ≤ length data)) as [?|Hlt]; [done|].
    destruct Hn. apply Z.quot_small. unfold User.size in *. lia.
Qed.

(** X18.  [bootstrap_if_empty] changes nothing when the user file counts
    a record.  When the user file is absent or opens, the user file counts
    a record afterwards, so a second call changes nothing.  In an empty
    directory it creates the five files with distinct keys, and the three
    logins it prints open sessions of an administrator, a faculty member
    and a student. *)
Theorem bootstrap_if_empty_spec (fs : gmap string file) :
  (file_count_records fs FILE_USER User.size ≠ 0%Z →
   bootstrap_if_empty fs = ([], fs)) ∧
  (unlocked fs FILE_USER →
   file_count_records (snd (bootstrap_if_empty fs)) FILE_USER User.size ≠ 0%Z ∧
   bootstrap_if_empty (snd (bootstrap_if_empty fs)) =
     ([], snd (bootstrap_if_empty fs))) ∧
  (let fs1 := snd (bootstrap_if_empty ∅) in
   let role_of (name pass : string) :=
     let s := fst (fst (login stale (lines [name; pass]) fs1)) in
     (Session.logged s, User.role (User.view (Session.user s))) in
   student_keys fs1 = [lit "02124100034"; lit "02124100001"] ∧
   faculty_keys fs1 = [lit "FAC-EEE-001"; lit "FAC-CSE-002"] ∧
   course_keys fs1 = [lit "EEE-2101"; lit "CSE-1101"] ∧
   length (enrollment_keys fs1) = 3 ∧ NoDup (enrollment_keys fs1) ∧
   user_keys fs1 = [lit "admin"; lit "rezwan"; lit "john"; lit "sabbir"; lit "mim"] ∧
   role_of "admin" "admin123" = (1%Z, ROLE_ADMIN) ∧
   role_of "rezwan" "teacher123" = (1%Z, ROLE_FACULTY) ∧
   role_of "sabbir" "student123" = (1%Z, ROLE_STUDENT) ∧
   role_of "admin" "teacher123" = (0%Z, 0%Z)).
Proof.
  assert (Hnoop : ∀ fs', file_count_records fs' FILE_USER User.size ≠ 0%Z →
            bootstrap_if_empty fs' = ([], fs')).
  { intros fs' Hn. unfold bootstrap_if_empty.
    by destruct (Z.eqb_spec (file_count_records fs' FILE_USER User.size) 0). }
  split; [apply Hnoop|]. split.
  - intros Hu.
    assert (Hc : file_count_records (snd (bootstrap_if_empty fs)) FILE_USER
                   User.size ≠ 0%Z).
    { apply holds_a_record_count; [unfold User.size; lia|].
      by apply bootstrap_if_empty_holds. }
    split; [done|]. by apply Hnoop.
  - cbv zeta.
    repeat split; try (vm_compute; reflexivity).
    apply (bool_decide_unpack _). vm_compute. exact I.
Qed.

Lemma bootstrap_if_empty_spec_witness :
  unlocked ∅ FILE_USER ∧
  file_count_records (snd (bootstrap_if_empty ∅)) FILE_USER User.size ≠ 0%Z ∧
  bootstrap_if_empty (snd (bootstrap_if_empty ∅)) =
    ([], snd (bootstrap_if_empty ∅)).
Proof.
  assert (H : unlocked ∅ FILE_USER) by (intros f Hf; by rewrite lookup_empty in Hf).
  split; [exact H|].
  exact (proj1 (proj2 (bootstrap_if_empty_spec ∅)) H).
Defined.

Lemma login_spec_witness :
  typed [MAX_USER; MAX_PASS] (lines ["rezwan"; "teacher123"]) =
    ([lit "rezwan"; lit "teacher123"], []) ∧
  snd (login stale (lines ["rezwan"; "teacher123"]) (snd (bootstrap_if_empty ∅)))
    = [].
Proof.
  assert (H : typed [MAX_USER; MAX_PASS] (lines ["rezwan"; "teacher123"]) =
              ([lit "rezwan"; lit "teacher123"], [])) by (vm_compute; reflexivity).
  split; [exact H|].
  exact (proj1 (login_spec stale _ (snd (bootstrap_if_empty ∅)) _ _ _ H)).
Defined.

(** ** The faculty menu *)

Lemma graded_by_refl (refId : list byte) (fs : gmap string file) :
  graded_by refId fs fs.
Proof.
  split; [done|]. split; [done|]. split; [done|].
  intros i old new Ho Hn. rewrite Ho in Hn. injection Hn as <-. by split.
Qed.

Lemma teaches_same (fs fs' : gmap string file) (refId code code' : list byte) :
  fs' !! FILE_COURSE = fs !! FILE_COURSE → c_str code' = c_str code →
  teaches fs' refId code' ↔ teaches fs refId code.
Proof.
  intros H Hc. unfold teaches, find_course.
  by rewrite (scan_same _ _ _ _ H), Hc.
Qed.

Lemma courseCode_take (a b : list byte) :
  take 48 a = take 48 b →
  Enrollment.courseCode (Enrollment.view a) = Enrollment.courseCode (Enrollment.view b).
Proof.
  intros H. unfold Enrollment.view. cbn [Enrollment.courseCode].
  unfold slice, MAX_CODE.
  rewrite <- (take_drop 48 a), <- (take_drop 48 b), H.
  assert (Hl : length (take 48 a) = length (take 48 b)) by by rewrite H.
  rewrite !length_take in Hl.
  destruct (decide (16 ≤ length (take 48 b))) as [Hge|Hlt].
  - rewrite !drop_app_le by done.
    destruct (decide (32 ≤ length (take 48 b))) as [Hge2|Hlt2].
    + by rewrite !take_app_le by (rewrite length_drop; lia).
    + rewrite length_take in Hlt2.
      rewrite !(drop_ge a), !(drop_ge b) by lia. done.
  - rewrite length_take in Hlt.
    rewrite !(drop_ge a 48), !(drop_ge b 48) by lia. done.
Qed.

Lemma graded_by_trans (refId : list byte) (fs fs1 fs2 : gmap string file) :
  graded_by refId fs fs1 → graded_by refId fs1 fs2 → graded_by refId fs fs2.
Proof.
  intros (Ho1 & Hc1 & Hl1 & Hr1) (Ho2 & Hc2 & Hl2 & Hr2).
  split; [intros q Hq; by rewrite Ho2, Ho1|].
  split; [congruence|]. split; [congruence|].
  intros i old new Hold Hnew.
  assert (is_Some (scan fs1 FILE_ENR Enrollment.size !! i)) as [mid Hmid].
  { apply lookup_lt_is_Some. rewrite Hl1. by eapply lookup_lt_Some. }
  destruct (Hr1 _ _ _ Hold Hmid) as [Ht1 Hn1].
  destruct (Hr2 _ _ _ Hmid Hnew) as [Ht2 Hn2].
  split; [congruence|]. intros Hne.
  destruct (decide (mid = old)) as [->|Hmo]; [|by apply Hn1].
  eapply teaches_same; [| |apply Hn2; congruence]; [|done].
  symmetry. by apply Ho1.
Qed.

Lemma my_courses_fold (refId : list byte) (rs : list (list byte))
    (st : list line * Z) :
  ∃ rows any, foldl (my_courses_body refId) st rs = (rows, any).
Proof. destruct (foldl _ _ _) as [rows any]. by eexists _, _. Qed.

(** One turn of the faculty menu, past the choice. *)
Lemma menu_faculty_turn (atoi : list byte → Z) (uninit : nat → list byte)
    (fuel : nat) (u inp : list byte) (fs : gmap string file) :
  fits_long fs FILE_ENR →
  ∃ (quit : bool) (out : list line) (inp1 : list byte) (fs1 : gmap string file),
    graded_by (User.refId (User.view u)) fs fs1 ∧
    menu_faculty atoi uninit (S fuel) u inp fs =
      (if quit then (true, @nil line, inp1, fs)
       else
         let '(q, out', inp2, fs2) := menu_faculty atoi uninit fuel u inp1 fs1 in
         (q, out ++ out', inp2, fs2)).
Proof.
  intros Hfit. cbn [menu_faculty].
  set (refId := User.refId (User.view u)).
  destruct (read_int atoi inp) as [ch inp0].
  destruct (ch =? 0)%Z.
  { exists true, [], inp0, fs. split; [apply graded_by_refl|done]. }
  destruct (ch =? 1)%Z.
  { destruct (fopen_rb fs FILE_COURSE) as [data|].
    - destruct (my_courses_fold refId (records Course.size data) ([], 0%Z))
        as (rows & any & ->).
      eexists false, _, inp0, fs. split; [apply graded_by_refl|done].
    - eexists false, _, inp0, fs. split; [apply graded_by_refl|done]. }
  destruct (ch =? 2)%Z.
  { destruct (read_line _ _ inp0) as [code i1].
    destruct (read_line _ _ i1) as [term i2].
    destruct (file_find_first fs FILE_COURSE _ _ code) as [cidx cout].
    destruct (_ || _);
      eexists false, _, i2, fs; (split; [apply graded_by_refl|done]). }
  destruct (ch =? 3)%Z;
    [|eexists false, _, inp0, fs; (split; [apply graded_by_refl|done])].
  read_one b1 i1 Hb1 Hr1 Hl1. read_one b2 i2 Hb2 Hr2 Hl2.
  destruct (file_find_course fs b1) as [Hout Hidx].
  destruct (file_find_first fs FILE_COURSE Course.size pred_course_by_code b1)
    as [cidx cout].
  cbn [fst snd] in Hout, Hidx.
  assert (Hlt : (cidx <? 0)%Z = negb (cidx >=? 0)%Z).
  { destruct (Z.ltb_spec cidx 0), (Z.geb_spec cidx 0); simpl; lia. }
  rewrite Hlt, Hidx, Hout, strcmp_eqb.
  destruct (find_course fs b1) as [cb|] eqn:Hcb; cbn [negb orb from_option];
    [|eexists false, _, i2, fs; (split; [apply graded_by_refl|done])].
  case_bool_decide as Hins; cbn [negb];
    [|eexists false, _, i2, fs; (split; [apply graded_by_refl|done])].
  assert (Hteach : teaches fs refId b1) by by exists cb.
  read_one b3 i3 Hb3 Hr3 Hl3.
  rewrite (file_find_first_with fs FILE_ENR Enrollment.size pred_enr_by_key _
             enrollment_key (c_str b3, c_str b1, c_str b2))
    by (intros buf; by apply pred_enr_typed).
  destruct (first_with enrollment_key (c_str b3, c_str b1, c_str b2)
              (scan fs FILE_ENR Enrollment.size)) as [[k old]|] eqn:Ef;
    [|eexists false, _, i3, fs; (split; [apply graded_by_refl|done])].
  apply first_with_Some in Ef as (Hk & Hkey & _).
  assert (Hold : length old = Enrollment.size).
  { eapply scan_length; [unfold Enrollment.size; lia|].
    by eapply list_elem_of_lookup_2. }
  destruct (Z.ltb_spec (Z.of_nat k) 0) as [?|_]; [lia|].
  cbn [from_option].
  destruct (read_line (uninit 3) 3 i3) as [b4 i4].
  destruct (_ && _);
    [eexists false, _, i4, fs; (split; [apply graded_by_refl|done])|].
  set (new := store_at old 48 (strncpy 2 (upper b4) ++ [NUL])).
  assert (Hnew : length new = Enrollment.size).
  { unfold new. rewrite length_store_at; [done|].
    rewrite length_app, length_strncpy, Hold. simpl. unfold Enrollment.size. lia. }
  destruct (update_in_place fs FILE_ENR Enrollment.size k old new
              ltac:(unfold Enrollment.size; lia) Hnew Hfit Hk)
    as (_ & Hscan & Hother & Hlen).
  destruct (file_write_at fs FILE_ENR Enrollment.size (Z.of_nat k) new)
    as [ok fs1].
  cbn [fst snd] in *.
  eexists false, _, i4, fs1. split; [|done].
  split; [done|]. split; [done|].
  split; [by rewrite Hscan, length_insert|].
  intros i o n Ho Hn. rewrite Hscan in Hn.
  destruct (decide (i = k)) as [->|Hik].
  - rewrite Hk in Ho. injection Ho as <-.
    rewrite list_lookup_insert_eq in Hn by (by eapply lookup_lt_Some).
    injection Hn as <-. split.
    + apply take_store_at; [lia|]. rewrite Hold. unfold Enrollment.size. lia.
    + intros _. unfold enrollment_key in Hkey. injection Hkey as _ Hcode _.
      by apply (proj2 (teaches_same fs fs refId b1 _ eq_refl Hcode)).
  - rewrite list_lookup_insert_ne in Hn by done.
    rewrite Ho in Hn. injection Hn as <-. by split.
Qed.

Lemma graded_by_fits (refId : list byte) (fs fs' : gmap string file) :
  graded_by refId fs fs' → fits_long fs FILE_ENR → fits_long fs' FILE_ENR.
Proof. intros (_ & Hc & _) H. unfold fits_long. by rewrite Hc. Qed.

Lemma menu_faculty_graded_by (atoi : list byte → Z) (uninit : nat → list byte)
    (fuel : nat) (u inp : list byte) (fs : gmap string file) :
  fits_long fs FILE_ENR →
  graded_by (User.refId (User.view u)) fs
    (snd (menu_faculty atoi uninit fuel u inp fs)).
Proof.
  revert inp fs. induction fuel as [|fuel IH]; intros inp fs Hfit.
  { apply graded_by_refl. }
  destruct (menu_faculty_turn atoi uninit fuel u inp fs Hfit)
    as (quit & out & inp1 & fs1 & Hstep & ->).
  destruct quit; [apply graded_by_refl|].
  pose proof (IH inp1 fs1 (graded_by_fits _ _ _ Hstep Hfit)) as Hrest.
  destruct (menu_faculty atoi uninit fuel u inp1 fs1) as [[[q out'] inp2] fs2].
  cbn [snd] in *. by eapply graded_by_trans.
Qed.

(** X19.  However long a session of the faculty menu runs and whatever is
    typed, it touches no file but the enrollment file, and there it adds,
    removes and moves no record and changes no student, course or term; a
    record is changed at all only when the first course with its code names
    the logged-in user as instructor. *)
Theorem menu_faculty_authorised (atoi : list byte → Z)
    (uninit : nat → list byte) (fuel : nat) (u inp : list byte)
    (fs : gmap string file) :
  fits_long fs FILE_ENR →
  graded_by (User.refId (User.view u)) fs
    (snd (menu_faculty atoi uninit fuel u inp fs)).
Proof. apply menu_faculty_graded_by. Qed.

(** ** Ties on the leaderboard *)

Section Ties.
Context (P : spec_float → Prop) `{∀ x, Decision (P x)}.
Hypothesis tied : ∀ x y, P x → P y → F32.ltb x y = false.

Lemma bubble_filter (a : Acc.t) (l : list Acc.t) :
  filter (λ b, P (gpa_of b)) (bubble a l) = filter (λ b, P (gpa_of b)) (a :: l).
Proof.
  revert a. induction l as [|b l IH]; intros a; [done|].
  cbn [bubble]. destruct (F32.ltb (gpa_of a) (gpa_of b)) eqn:E.
  - rewrite filter_cons, IH, !filter_cons.
    destruct (decide (P (gpa_of a))) as [Ha|Ha],
             (decide (P (gpa_of b))) as [Hb|Hb]; try done.
    by rewrite (tied _ _ Ha Hb) in E.
  - by rewrite filter_cons, IH, (filter_cons _ a).
Qed.

Lemma bubble_pass_filter (l : list Acc.t) :
  filter (λ b, P (gpa_of b)) (bubble_pass l) = filter (λ b, P (gpa_of b)) l.
Proof. destruct l as [|a l]; [done|]. apply bubble_filter. Qed.

Lemma bubble_sort_filter (l : list Acc.t) :
  filter (λ b, P (gpa_of b)) (bubble_sort l) = filter (λ b, P (gpa_of b)) l.
Proof.
  unfold bubble_sort. generalize (length l) as n.
  induction n as [|n IH]; [done|].
  by rewrite Nat.iter_succ, bubble_pass_filter.
Qed.

Lemma filter_fmap_comm {A B : Type} (f : A → B) (Q : B → Prop)
    `{∀ y, Decision (Q y)} (l : list A) :
  filter Q (f <$> l) = f <$> filter (λ x, Q (f x)) l.
Proof.
  induction l as [|x l IH]; [done|].
  rewrite fmap_cons, !filter_cons, IH. by destruct (decide (Q (f x))).
Qed.
End Ties.

Lemma gpa_value_acc_view (a : Acc.t) : gpa_value (acc_view a) = gpa_of a.
Proof. reflexivity. Qed.

(** X20.  The sort of the leaderboard never exchanges two students
    unless the second has the greater GPA: students whose GPAs are not
    ordered by [<], those with equal GPAs in particular, are listed in the
    order in which the scan first met them. *)
Theorem gpa_leaderboard_ties (fs : gmap string file) (term : list byte)
    (rows : list lrow) (P : spec_float → Prop) `{∀ x, Decision (P x)} :
  (∀ x y, P x → P y → F32.ltb x y = false) →
  gpa_leaderboard fs term = LRanking rows →
  filter (λ t, P t.1.2) (row_view <$> rows) =
  filter (λ t, P t.1.2) (ranked <$> term_totals (term_entries fs term)).
Proof.
  intros Htied. unfold gpa_leaderboard.
  destruct (fopen_rb fs FILE_ENR) as [data|] eqn:Hopen; [|done].
  pose proof (leaderboard_loop_tracks fs term (records Enrollment.size data)
                (Some (LState (replicate Course.size NUL) [])) []
                ltac:(split; [done|simpl; lia])) as Htr.
  rewrite app_nil_l in Htr.
  assert (He : omap (λ buf,
                if bool_decide (c_str (Enrollment.term (Enrollment.view buf)) = c_str term)
                then graded_entry fs buf else None) (records Enrollment.size data)
               = term_entries fs term).
  { unfold term_entries, scan. by rewrite Hopen. }
  rewrite He in Htr. cbv zeta.
  destruct (foldl _ _ _) as [st|]; [|done].
  destruct Htr as [Hv _]. intros [= <-].
  destruct (leaderboard_rows_view fs (bubble_sort (ls_accs st))) as (-> & _).
  rewrite <- Hv, <- !list_fmap_compose.
  rewrite !(filter_fmap_comm (ranked ∘ acc_view) (λ t, P t.1.2)).
  f_equal. apply (bubble_sort_filter P Htied).
Qed.

Lemma gpa_leaderboard_ties_witness :
  (∀ x y, x = F32.of_Z 4 → y = F32.of_Z 4 → F32.ltb x y = false) ∧
  gpa_leaderboard tied_fs (lit "T1") =
    LRanking [LRow 1 (lit "S1") (Some (lit "One")) (F32.of_Z 4) (F32.of_Z 3);
              LRow 2 (lit "S3") (Some (lit "Three")) (F32.of_Z 4) (F32.of_Z 3);
              LRow 3 (lit "S2") (Some (lit "Two")) (F32.of_Z 3) (F32.of_Z 3)] ∧
  ranked <$> term_totals (term_entries tied_fs (lit "T1")) =
    [(lit "S2", F32.of_Z 3, F32.of_Z 3); (lit "S1", F32.of_Z 4, F32.of_Z 3);
     (lit "S3", F32.of_Z 4, F32.of_Z 3)] ∧
  filter (λ t, t.1.2 = F32.of_Z 4)
    (ranked <$> term_totals (term_entries tied_fs (lit "T1"))) =
    [(lit "S1", F32.of_Z 4, F32.of_Z 3); (lit "S3", F32.of_Z 4, F32.of_Z 3)].
Proof.
  assert (H1 : ∀ x y, x = F32.of_Z 4 → y = F32.of_Z 4 → F32.ltb x y = false)
    by (by intros x y -> ->).
  assert (H2 : gpa_leaderboard tied_fs (lit "T1") =
    LRanking [LRow 1 (lit "S1") (Some (lit "One")) (F32.of_Z 4) (F32.of_Z 3);
              LRow 2 (lit "S3") (Some (lit "Three")) (F32.of_Z 4) (F32.of_Z 3);
              LRow 3 (lit "S2") (Some (lit "Two")) (F32.of_Z 3) (F32.of_Z 3)])
    by (vm_compute; reflexivity).
  split; [exact H1|]. split; [exact H2|].
  split; [vm_compute; reflexivity|].
  etransitivity;
    [symmetry; exact (gpa_leaderboard_ties tied_fs (lit "T1") _
                        (λ x, x = F32.of_Z 4) H1 H2)|].
  vm_compute. reflexivity.
Defined.

(** ** The admin menu *)





























Lemma menu_faculty_authorised_witness :
  fits_long scenario_fs FILE_ENR ∧
  graded_by (User.refId (User.view (replicate User.size NUL))) scenario_fs
    (snd (menu_faculty atoi_digits stale 2 (replicate User.size NUL)
            (lines ["3"; "C1"; "T1"; "S1"; "B"; "0"]) scenario_fs)).
Proof.
  assert (H : fits_long scenario_fs FILE_ENR) by (by vm_compute).
  split; [exact H|].
  exact (menu_faculty_authorised atoi_digits stale 2 (replicate User.size NUL)
           _ scenario_fs H).
Defined.

(** ** The menus on a finite input *)




















(** ** Records read back as written *)

Lemma to_bits_range (x : spec_float) :
  binary32 x = true → (0 ≤ F32.to_bits x < 2 ^ 32)%Z.
Proof.
  destruct x as [s|s| |s m e]; simpl.
  - destruct s; lia.
  - destruct s; lia.
  - lia.
  - intros H. destruct (Z.ltb_spec (Z.pos m) (2 ^ 23)) as [Hm|Hm];
      destruct s; lia.
Qed.

Lemma testbit_31 (s : bool) (r : Z) :
  (0 ≤ r < 2 ^ 31)%Z →
  Z.testbit ((if s then 2 ^ 31 else 0) + r) 31 = s.
Proof.
  intros Hr. destruct s.
  - apply Z.testbit_true; [lia|].
    replace (2 ^ 31 + r)%Z with (r + 1 * 2 ^ 31)%Z by lia.
    rewrite Z.div_add, Z.div_small by lia. done.
  - apply Z.testbit_false; [lia|].
    rewrite Z.add_0_l, Z.div_small by lia. done.
Qed.

Lemma of_bits_to_bits (x : spec_float) :
  binary32 x = true → F32.of_bits (F32.to_bits x) = x.
Proof.
  destruct x as [s|s| |s m e]; try (by destruct s).
  - done.
  - unfold binary32. intros H. unfold F32.to_bits.
    set (sg := (if s then 2 ^ 31 else 0)%Z).
    assert (Hsg : sg = ((if s then 256 else 0) * 2 ^ 23)%Z)
      by (unfold sg; by destruct s).
    destruct (Z.ltb_spec (Z.pos m) (2 ^ 23)) as [Hm|Hm].
    + simpl in H. assert (He : e = (-149)%Z) by lia. subst e.
      unfold F32.of_bits.
      assert (Ht : Z.testbit (sg + Z.pos m) 31 = s)
        by (apply testbit_31; lia).
      rewrite Ht.
      assert (Hd : ((sg + Z.pos m) / 2 ^ 23 = if s then 256 else 0)%Z).
      { rewrite Hsg, Z.add_comm, Z.div_add, Z.div_small by lia. lia. }
      assert (Hr : ((sg + Z.pos m) `mod` 2 ^ 23 = Z.pos m)%Z).
      { rewrite Hsg, Z.add_comm, Z.mod_add, Z.mod_small by lia. done. }
      rewrite Hd, Hr. by destruct s.
    + assert (Hb : (Z.pos m < 2 ^ 24 ∧ -149 ≤ e ≤ 104)%Z) by lia.
      destruct Hb as (Hm2 & He1 & He2).
      unfold F32.of_bits.
      replace (sg + (e + 150) * 2 ^ 23 + (Z.pos m - 2 ^ 23))%Z
        with (sg + ((e + 150) * 2 ^ 23 + (Z.pos m - 2 ^ 23)))%Z by lia.
      assert (Ht : Z.testbit
                     (sg + ((e + 150) * 2 ^ 23 + (Z.pos m - 2 ^ 23))) 31 = s)
        by (apply testbit_31; lia).
      rewrite Ht.
      assert (Hd : ((sg + ((e + 150) * 2 ^ 23 + (Z.pos m - 2 ^ 23))) / 2 ^ 23
                    = (if s then 256 else 0) + (e + 150))%Z).
      { rewrite Hsg.
        replace ((if s then 256 else 0) * 2 ^ 23
                 + ((e + 150) * 2 ^ 23 + (Z.pos m - 2 ^ 23)))%Z
          with ((Z.pos m - 2 ^ 23)
                + ((if s then 256 else 0) + (e + 150)) * 2 ^ 23)%Z by lia.
        rewrite Z.div_add, Z.div_small by lia. lia. }
      assert (Hr : ((sg + ((e + 150) * 2 ^ 23 + (Z.pos m - 2 ^ 23))) `mod` 2 ^ 23
                    = Z.pos m - 2 ^ 23)%Z).
      { rewrite Hsg.
        replace ((if s then 256 else 0) * 2 ^ 23
                 + ((e + 150) * 2 ^ 23 + (Z.pos m - 2 ^ 23)))%Z
          with ((Z.pos m - 2 ^ 23)
                + ((if s then 256 else 0) + (e + 150)) * 2 ^ 23)%Z by lia.
        rewrite Z.mod_add, Z.mod_small by lia. done. }
      rewrite Hd, Hr.
      assert (He8 : (((if s then 256 else 0) + (e + 150)) `mod` 2 ^ 8
                     = e + 150)%Z).
      { destruct s.
        - replace (256 + (e + 150))%Z with ((e + 150) + 1 * 2 ^ 8)%Z by lia.
          rewrite Z.mod_add, Z.mod_small by lia. done.
        - rewrite Z.add_0_l, Z.mod_small by lia. done. }
      rewrite He8.
      destruct (Z.eqb_spec (e + 150) 0); [lia|].
      destruct (Z.eqb_spec (e + 150) 255); [lia|].
      replace (Z.pos m - 2 ^ 23 + 2 ^ 23)%Z with (Z.pos m) by lia.
      f_equal. lia.
Qed.

Lemma student_view_image (s : Student.t) :
  length (Student.id s) = MAX_ID → length (Student.name s) = MAX_NAME →
  length (Student.dept s) = MAX_DEPT → length (Student.email s) = MAX_EMAIL →
  Student.view (Student.image s) =
  Student.Make (Student.id s) (Student.name s) (Student.dept s)
    (to_int (Student.batch s)) (Student.email s).
Proof.
  intros H1 H2 H3 H4. destruct s as [a b c z d].
  cbn [Student.id Student.name Student.dept Student.batch Student.email] in *.
  unfold Student.view, Student.image.
  cbn [Student.id Student.name Student.dept Student.batch Student.email].
  f_equal.
  - by rewrite slice_app_head.
  - rewrite slice_app_at by done. by rewrite take_app_length'.
  - rewrite (app_assoc a b), slice_app_at
      by (rewrite length_app; unfold MAX_ID, MAX_NAME in *; lia).
    by rewrite take_app_length'.
  - rewrite (app_assoc a b), (app_assoc (a ++ b) c), slice_app_at
      by (rewrite !length_app; unfold MAX_ID, MAX_NAME, MAX_DEPT in *; lia).
    rewrite take_app_length' by (by rewrite length_put_le).
    apply to_int_get_le_put_le.
  - rewrite (app_assoc a b), (app_assoc (a ++ b) c),
      (app_assoc ((a ++ b) ++ c)), slice_app_at
      by (rewrite !length_app, length_put_le;
          unfold MAX_ID, MAX_NAME, MAX_DEPT in *; lia).
    by apply take_ge; lia.
Qed.

Lemma course_view_image (c : Course.t) :
  length (Course.code c) = MAX_CODE → length (Course.title c) = MAX_TITLE →
  length (Course.dept c) = MAX_DEPT → length (Course.instructorId c) = MAX_ID →
  binary32 (Course.credit c) = true →
  Course.view (Course.image c) = c.
Proof.
  intros H1 H2 H3 H4 Hx. destruct c as [a b x d e].
  cbn [Course.code Course.title Course.credit Course.dept
       Course.instructorId] in *.
  unfold Course.view, Course.image.
  cbn [Course.code Course.title Course.credit Course.dept Course.instructorId].
  f_equal.
  - by rewrite slice_app_head.
  - rewrite slice_app_at by done. by rewrite take_app_length'.
  - rewrite (app_assoc a b), slice_app_at
      by (rewrite length_app; unfold MAX_CODE, MAX_TITLE in *; lia).
    rewrite take_app_length' by (by rewrite length_put_le).
    rewrite get_le_put_le. change (256 ^ Z.of_nat 4)%Z with (2 ^ 32)%Z.
    rewrite Z.mod_small by (by apply to_bits_range).
    by apply of_bits_to_bits.
  - rewrite (app_assoc a b), (app_assoc (a ++ b)), slice_app_at
      by (rewrite !length_app, length_put_le;
          unfold MAX_CODE, MAX_TITLE in *; lia).
    by rewrite take_app_length'.
  - rewrite (app_assoc a b), (app_assoc (a ++ b)),
      (app_assoc ((a ++ b) ++ _) d), slice_app_at
      by (rewrite !length_app, length_put_le;
          unfold MAX_CODE, MAX_TITLE, MAX_DEPT in *; lia).
    by apply take_ge; lia.
Qed.


(** ** Adding a student or a course *)

(** X23.  [add_student] with a new id, on a file of whole records that
    opens, appends one record that reads back as the lines typed, the batch
    being [atoi] of its line; a search by the id then finds that record at
    the index that was the count, and [list_students] then prints the
    earlier records followed by the new one.  With the id of a record of
    the store it answers that the student exists after reading one line,
    and changes nothing. *)
Theorem add_student_stores (atoi : list byte → Z) (inp : list byte)
    (fs : gmap string file) (id name dept batch email rest : list byte) :
  (∀ b, atoi b = atoi (c_str b)) →
  typed [MAX_ID; MAX_NAME; MAX_DEPT; 64; MAX_EMAIL] inp =
    ([id; name; dept; batch; email], rest) →
  let r := add_student atoi inp fs in
  if bool_decide (id ∈ student_keys fs)
  then fst (fst r) = StudentExists ∧ snd r = fs ∧
       snd (fst r) = snd (typed [MAX_ID] inp)
  else
    unlocked fs FILE_STUD →
    whole_records Student.size (content fs FILE_STUD) →
    ∃ new,
      fst (fst r) = StudentAdded ∧ snd (fst r) = rest ∧
      scan (snd r) FILE_STUD Student.size =
        scan fs FILE_STUD Student.size ++ [new] ∧
      print_student (Student.view new) =
        StudentLine id name dept (to_int (atoi batch)) email ∧
      first_with student_key id (scan (snd r) FILE_STUD Student.size) =
        Some (length (scan fs FILE_STUD Student.size), new) ∧
      list_students (snd r) =
        Note StudentsHeader ::
        ((λ buf, print_student (Student.view buf)) <$>
           scan fs FILE_STUD Student.size) ++
        [StudentLine id name dept (to_int (atoi batch)) email].
Proof.
  intros Hatoi Htyped r.
  pose proof Htyped as Hfirst.
  apply typed_cons_inv in Htyped as [Hid Htyped].
  apply typed_cons_inv in Htyped as [Hname Htyped].
  apply typed_cons_inv in Htyped as [Hdept Htyped].
  apply typed_cons_inv in Htyped as [Hbatch Htyped].
  apply typed_cons_inv in Htyped as [Hemail Hrest%typed_nil_inv].
  unfold r, add_student, read_int. clear r.
  pose proof (length_read_line (Student.id Student.zero) MAX_ID inp
                ltac:(unfold MAX_ID; lia) ltac:(done)) as Hn1.
  read_one b1 i1 Hb1 Hr1 Hl1. cbn [fst] in Hn1.
  destruct (file_find_first_key fs FILE_STUD Student.size pred_student_by_id
              b1 student_key (c_str b1) (λ buf, pred_student_by_id_key buf b1))
    as [-> _].
  fold (student_keys fs). rewrite Hb1, Hid.
  case_bool_decide as Hin.
  { split; [done|]. split; [done|]. cbn [snd typed]. by rewrite Hr1. }
  subst i1.
  pose proof (length_read_line (Student.name Student.zero) MAX_NAME
                (drop ((MAX_ID - 1) `min` S (length (first_line inp))) inp)
                ltac:(unfold MAX_NAME; lia) ltac:(done)) as Hn2.
  read_one b2 i2 Hb2 Hr2 Hl2. cbn [fst] in Hn2.
  pose proof (length_read_line (Student.dept Student.zero) MAX_DEPT i2
                ltac:(unfold MAX_DEPT; lia) ltac:(done)) as Hn3.
  read_one b3 i3 Hb3 Hr3 Hl3. cbn [fst] in Hn3.
  read_one b4 i4 Hb4 Hr4 Hl4.
  pose proof (length_read_line (Student.email Student.zero) MAX_EMAIL i4
                ltac:(unfold MAX_EMAIL; lia) ltac:(done)) as Hn5.
  read_one b5 i5 Hb5 Hr5 Hl5. cbn [fst] in Hn5.
  subst i2 i3 i4. rewrite Hid in Hb1. rewrite Hname in Hb2.
  rewrite Hdept in Hb3. rewrite Hbatch in Hb4. rewrite Hemail in Hb5.
  rewrite Hrest in Hr5.
  clear Hid Hname Hdept Hbatch Hemail Hrest Hfirst.
  intros Hu Hwhole.
  set (s := Student.Make b1 b2 b3 (atoi b4) b5).
  assert (Hlen : length (Student.image s) = Student.size).
  { unfold Student.image, s.
    cbn [Student.id Student.name Student.dept Student.batch Student.email].
    rewrite !length_app, length_put_le, Hn1, Hn2, Hn3, Hn5. reflexivity. }
  assert (Hview : Student.view (Student.image s) =
                  Student.Make b1 b2 b3 (to_int (atoi b4)) b5)
    by by apply student_view_image.
  assert (Hkey : student_key (Student.image s) = id).
  { unfold student_key. rewrite Hview. exact Hb1. }
  assert (Hline : print_student (Student.view (Student.image s)) =
                  StudentLine id name dept (to_int (atoi batch)) email).
  { rewrite Hview. unfold print_student.
    cbn [Student.id Student.name Student.dept Student.batch Student.email].
    by rewrite Hb1, Hb2, Hb3, Hb5, (Hatoi b4), Hb4. }
  destruct (append_after_search fs FILE_STUD Student.size student_key
              (Student.image s) ltac:(unfold Student.size; lia) Hlen Hu Hwhole)
    as (H1 & Hscan & Hfind & _).
  { by rewrite Hkey. }
  rewrite Hkey in Hfind.
  destruct (fopen_rb_after_append fs FILE_STUD Student.size (Student.image s)
              ltac:(unfold Student.size; lia) Hlen) as [Hrec Hopen].
  { rewrite H1. done. }
  destruct (file_append fs FILE_STUD Student.size (Student.image s)) as [ok fs'].
  cbn [fst snd] in *. subst ok. cbn [Z.eqb fst snd].
  exists (Student.image s). split; [done|]. split; [done|]. split; [done|].
  split; [done|]. split; [done|].
  unfold list_students. rewrite Hopen, <- Hrec, Hscan, fmap_app.
  cbn [fmap list_fmap]. by rewrite Hline.
Qed.

Lemma add_student_stores_witness :
  (∀ b, atoi_digits b = atoi_digits (c_str b)) ∧
  typed [MAX_ID; MAX_NAME; MAX_DEPT; 64; MAX_EMAIL]
    (lines ["S9"; "Nine"; "CSE"; "231"; "nine@uiu"]) =
    ([lit "S9"; lit "Nine"; lit "CSE"; lit "231"; lit "nine@uiu"], []) ∧
  unlocked scenario_fs FILE_STUD ∧
  whole_records Student.size (content scenario_fs FILE_STUD) ∧
  ∃ new,
    fst (fst (add_student atoi_digits
                (lines ["S9"; "Nine"; "CSE"; "231"; "nine@uiu"]) scenario_fs))
      = StudentAdded ∧
    print_student (Student.view new) =
      StudentLine (lit "S9") (lit "Nine") (lit "CSE") 231 (lit "nine@uiu").
Proof.
  assert (H1 : typed [MAX_ID; MAX_NAME; MAX_DEPT; 64; MAX_EMAIL]
                 (lines ["S9"; "Nine"; "CSE"; "231"; "nine@uiu"]) =
               ([lit "S9"; lit "Nine"; lit "CSE"; lit "231"; lit "nine@uiu"], []))
    by (vm_compute; reflexivity).
  assert (H2 : unlocked scenario_fs FILE_STUD)
    by (intros f Hf; vm_compute in Hf; by injection Hf as <-).
  assert (H3 : whole_records Student.size (content scenario_fs FILE_STUD))
    by (vm_compute; reflexivity).
  split; [exact atoi_digits_c_str|]. split; [exact H1|]. split; [exact H2|].
  split; [exact H3|].
  pose proof (add_student_stores atoi_digits _ scenario_fs _ _ _ _ _ _
                atoi_digits_c_str H1) as H.
  cbv zeta in H.
  rewrite bool_decide_eq_false_2 in H
    by (apply (bool_decide_unpack _); vm_compute; exact I).
  destruct (H H2 H3) as (new & Ha & _ & _ & Hp & _).
  exists new. split; [exact Ha|exact Hp].
Defined.

(** X24.  [add_course] with a new code, on a file of whole records that
    opens, appends one record that reads back as the lines typed, the
    credit being the [float] that [atof] gives for its line, bit for bit;
    a search by the code then finds that record at the index that was the
    count, and [list_courses] then prints the earlier records followed by
    the new one.  With the code of a record of the store it answers that
    the course exists after reading one line, and changes nothing. *)
Theorem add_course_stores (atof : list byte → spec_float) (inp : list byte)
    (fs : gmap string file) (code title credit dept ins rest : list byte) :
  (∀ b, atof b = atof (c_str b)) →
  binary32 (atof credit) = true →
  typed [MAX_CODE; MAX_TITLE; 64; MAX_DEPT; MAX_ID] inp =
    ([code; title; credit; dept; ins], rest) →
  let r := add_course atof inp fs in
  if bool_decide (code ∈ course_keys fs)
  then fst (fst r) = CourseExists ∧ snd r = fs ∧
       snd (fst r) = snd (typed [MAX_CODE] inp)
  else
    unlocked fs FILE_COURSE →
    whole_records Course.size (content fs FILE_COURSE) →
    ∃ new,
      fst (fst r) = CourseAdded ∧ snd (fst r) = rest ∧
      scan (snd r) FILE_COURSE Course.size =
        scan fs FILE_COURSE Course.size ++ [new] ∧
      print_course (Course.view new) =
        CourseLine code title (atof credit) dept ins ∧
      first_with course_key code (scan (snd r) FILE_COURSE Course.size) =
        Some (length (scan fs FILE_COURSE Course.size), new) ∧
      list_courses (snd r) =
        Note CoursesHeader ::
        ((λ buf, print_course (Course.view buf)) <$>
           scan fs FILE_COURSE Course.size) ++
        [CourseLine code title (atof credit) dept ins].
Proof.
  intros Hatof Hx Htyped r.
  apply typed_cons_inv in Htyped as [Hid Htyped].
  apply typed_cons_inv in Htyped as [Hname Htyped].
  apply typed_cons_inv in Htyped as [Hcredit Htyped].
  apply typed_cons_inv in Htyped as [Hdept Htyped].
  apply typed_cons_inv in Htyped as [Hins Hrest%typed_nil_inv].
  unfold r, add_course, read_float. clear r.
  pose proof (length_read_line (Course.code Course.zero) MAX_CODE inp
                ltac:(unfold MAX_CODE; lia) ltac:(done)) as Hn1.
  read_one b1 i1 Hb1 Hr1 Hl1. cbn [fst] in Hn1.
  destruct (file_find_first_key fs FILE_COURSE Course.size pred_course_by_code
              b1 course_key (c_str b1) (λ buf, pred_course_by_code_key buf b1))
    as [-> _].
  fold (course_keys fs). rewrite Hb1, Hid.
  case_bool_decide as Hin.
  { split; [done|]. split; [done|]. cbn [snd typed]. by rewrite Hr1. }
  subst i1.
  pose proof (length_read_line (Course.title Course.zero) MAX_TITLE
                (drop ((MAX_CODE - 1) `min` S (length (first_line inp))) inp)
                ltac:(unfold MAX_TITLE; lia) ltac:(done)) as Hn2.
  read_one b2 i2 Hb2 Hr2 Hl2. cbn [fst] in Hn2.
  read_one b3 i3 Hb3 Hr3 Hl3.
  pose proof (length_read_line (Course.dept Course.zero) MAX_DEPT i3
                ltac:(unfold MAX_DEPT; lia) ltac:(done)) as Hn4.
  read_one b4 i4 Hb4 Hr4 Hl4. cbn [fst] in Hn4.
  pose proof (length_read_line (Course.instructorId Course.zero) MAX_ID i4
                ltac:(unfold MAX_ID; lia) ltac:(done)) as Hn5.
  read_one b5 i5 Hb5 Hr5 Hl5. cbn [fst] in Hn5.
  subst i2 i3 i4. rewrite Hid in Hb1. rewrite Hname in Hb2.
  rewrite Hcredit in Hb3. rewrite Hdept in Hb4. rewrite Hins in Hb5.
  rewrite Hrest in Hr5.
  clear Hid Hname Hdept Hcredit Hins Hrest.
  intros Hu Hwhole.
  assert (Hcr : atof b3 = atof credit) by (by rewrite (Hatof b3), Hb3).
  set (c := Course.Make b1 b2 (atof b3) b4 b5).
  assert (Hlen : length (Course.image c) = Course.size).
  { unfold Course.image, c.
    cbn [Course.code Course.title Course.credit Course.dept
         Course.instructorId].
    rewrite !length_app, length_put_le, Hn1, Hn2, Hn4, Hn5. reflexivity. }
  assert (Hview : Course.view (Course.image c) = c).
  { apply course_view_image; try done.
    unfold c. cbn [Course.credit]. by rewrite Hcr. }
  assert (Hkey : course_key (Course.image c) = code).
  { unfold course_key. rewrite Hview. exact Hb1. }
  assert (Hline : print_course (Course.view (Course.image c)) =
                  CourseLine code title (atof credit) dept ins).
  { rewrite Hview. unfold print_course, c.
    cbn [Course.code Course.title Course.credit Course.dept
         Course.instructorId].
    by rewrite Hb1, Hb2, Hb4, Hb5, Hcr. }
  destruct (append_after_search fs FILE_COURSE Course.size course_key
              (Course.image c) ltac:(unfold Course.size; lia) Hlen Hu Hwhole)
    as (H1 & Hscan & Hfind & _).
  { by rewrite Hkey. }
  rewrite Hkey in Hfind.
  destruct (fopen_rb_after_append fs FILE_COURSE Course.size (Course.image c)
              ltac:(unfold Course.size; lia) Hlen) as [Hrec Hopen].
  { rewrite H1. done. }
  destruct (file_append fs FILE_COURSE Course.size (Course.image c)) as [ok fs'].
  cbn [fst snd] in *. subst ok. cbn [Z.eqb fst snd].
  exists (Course.image c). split; [done|]. split; [done|]. split; [done|].
  split; [done|]. split; [done|].
  unfold list_courses. rewrite Hopen, <- Hrec, Hscan, fmap_app.
  cbn [fmap list_fmap]. by rewrite Hline.
Qed.

Lemma atof_digits_c_str (b : list byte) : atof_digits b = atof_digits (c_str b).
Proof. unfold atof_digits. by rewrite atoi_digits_c_str. Qed.

Lemma add_course_stores_witness :
  (∀ b, atof_digits b = atof_digits (c_str b)) ∧
  binary32 (atof_digits (lit "3")) = true ∧
  typed [MAX_CODE; MAX_TITLE; 64; MAX_DEPT; MAX_ID]
    (lines ["C9"; "Nets"; "3"; "CSE"; "F1"]) =
    ([lit "C9"; lit "Nets"; lit "3"; lit "CSE"; lit "F1"], []) ∧
  unlocked scenario_fs FILE_COURSE ∧
  whole_records Course.size (content scenario_fs FILE_COURSE) ∧
  ∃ new,
    fst (fst (add_course atof_digits
                (lines ["C9"; "Nets"; "3"; "CSE"; "F1"]) scenario_fs))
      = CourseAdded ∧
    print_course (Course.view new) =
      CourseLine (lit "C9") (lit "Nets") (F32.of_Z 3) (lit "CSE") (lit "F1").
Proof.
  assert (H0 : binary32 (atof_digits (lit "3")) = true)
    by (vm_compute; reflexivity).
  assert (H1 : typed [MAX_CODE; MAX_TITLE; 64; MAX_DEPT; MAX_ID]
                 (lines ["C9"; "Nets"; "3"; "CSE"; "F1"]) =
               ([lit "C9"; lit "Nets"; lit "3"; lit "CSE"; lit "F1"], []))
    by (vm_compute; reflexivity).
  assert (H2 : unlocked scenario_fs FILE_COURSE)
    by (intros f Hf; vm_compute in Hf; by injection Hf as <-).
  assert (H3 : whole_records Course.size (content scenario_fs FILE_COURSE))
    by (vm_compute; reflexivity).
  split; [exact atof_digits_c_str|]. split; [exact H0|]. split; [exact H1|].
  split; [exact H2|]. split; [exact H3|].
  pose proof (add_course_stores atof_digits _ scenario_fs _ _ _ _ _ _
                atof_digits_c_str H0 H1) as H.
  cbv zeta in H.
  rewrite bool_decide_eq_false_2 in H
    by (apply (bool_decide_unpack _); vm_compute; exact I).
  destruct (H H2 H3) as (new & Ha & _ & _ & Hp & _).
  exists new. split; [exact Ha|exact Hp].
Defined.
